(** * antismash.common.subprocessing: hmmscan and hmmsearch wrappers

    A shallow embedding of [hmmscan.py] and [hmmsearch.py].  Python strings
    are modelled as [string] (characters are code points below 256), the
    integers as [Z], and the calls into the outside world (the process
    runner, the file system, the pyhmmer library, the SearchIO parser, the
    clock and the logger) as oracles that see the history of the run. *)

From Stdlib Require Import String Ascii List ZArith QArith Lia Bool DecimalString.
Import ListNotations.
Local Close Scope Q_scope.
Local Open Scope list_scope.
Local Open Scope string_scope.
Local Open Scope nat_scope.

(** ** Python's [str] methods used by the two modules *)

Module Py.

Definition chr (n : nat) : ascii := ascii_of_nat n.

Definition LF : ascii := chr 10.
Definition CR : ascii := chr 13.

(** [str.isspace] on one character: TAB..CR, FS..US, SPACE, NEL, NBSP. *)
Definition isspace (c : ascii) : bool :=
  let n := nat_of_ascii c in
  ((9 <=? n) && (n <=? 13)) || ((28 <=? n) && (n <=? 32))
  || (n =? 133) || (n =? 160).

(** Truthiness of a string: [bool(s)]. *)
Definition truthy (s : string) : bool :=
  match s with EmptyString => false | String _ _ => true end.

Fixpoint lstrip (s : string) : string :=
  match s with
  | EmptyString => EmptyString
  | String c r => if isspace c then lstrip r else s
  end.

Fixpoint rstrip (s : string) : string :=
  match s with
  | EmptyString => EmptyString
  | String c r =>
      match rstrip r with
      | EmptyString => if isspace c then EmptyString else String c EmptyString
      | r' => String c r'
      end
  end.

(** [s.strip()] *)
Definition strip (s : string) : string := rstrip (lstrip s).

(** [s.startswith(p)] *)
Definition startswith (s p : string) : bool := String.prefix p s.

(** [sub in s] *)
Fixpoint contains (sub s : string) : bool :=
  String.prefix sub s
  || match s with
     | EmptyString => false
     | String _ r => contains sub r
     end.

(** [s[:n]] for [n >= 0] *)
Fixpoint slice_to (n : nat) (s : string) : string :=
  match n, s with
  | S n', String c r => String c (slice_to n' r)
  | _, _ => EmptyString
  end.

Definition snoc (s : string) (c : ascii) : string := s ++ String c EmptyString.

(** Line boundaries of [str.splitlines] among the code points below 256:
    LF, VT, FF, CR, FS, GS, RS and NEL. *)
Definition is_linebreak (c : ascii) : bool :=
  let n := nat_of_ascii c in
  ((10 <=? n) && (n <=? 13)) || ((28 <=? n) && (n <=? 30)) || (n =? 133).

(** [splitlines_from after_cr cur s]: [cur] is the line being read and
    [after_cr] tells that the previous character was a CR, so that a LF
    coming now belongs to the same boundary. *)
Fixpoint splitlines_from (after_cr : bool) (cur s : string) : list string :=
  match s with
  | EmptyString => if truthy cur then [cur] else []
  | String c r =>
      if after_cr && Ascii.eqb c LF then splitlines_from false cur r
      else if is_linebreak c then cur :: splitlines_from (Ascii.eqb c CR) EmptyString r
      else splitlines_from false (snoc cur c) r
  end.

(** [s.splitlines()] *)
Definition splitlines (s : string) : list string :=
  splitlines_from false EmptyString s.

Fixpoint split_from (sep : ascii) (cur s : string) : list string :=
  match s with
  | EmptyString => [cur]
  | String c r =>
      if Ascii.eqb c sep then cur :: split_from sep EmptyString r
      else split_from sep (snoc cur c) r
  end.

(** [s.split(sep)] for a one-character separator *)
Definition split (sep : ascii) (s : string) : list string :=
  split_from sep EmptyString s.

Fixpoint split_ws_from (cur s : string) : list string :=
  match s with
  | EmptyString => if truthy cur then [cur] else []
  | String c r =>
      if isspace c
      then (if truthy cur then cur :: split_ws_from EmptyString r
            else split_ws_from EmptyString r)
      else split_ws_from (snoc cur c) r
  end.

(** [s.split()] *)
Definition split_ws (s : string) : list string := split_ws_from EmptyString s.

(** [str(n)] for an [int] *)
Definition str (n : Z) : string := NilZero.string_of_int (Z.to_int n).

Definition hex_digit (n : nat) : ascii :=
  if n <? 10 then chr (48 + n) else chr (87 + n).

(** [str.isprintable] on one character below 256. *)
Definition isprintable (c : ascii) : bool :=
  let n := nat_of_ascii c in
  ((32 <=? n) && (n <=? 126)) || ((161 <=? n) && negb (n =? 173)).

Definition repr_char (quote c : ascii) : string :=
  let n := nat_of_ascii c in
  if Ascii.eqb c quote || Ascii.eqb c "\"%char then String "\"%char (String c EmptyString)
  else if n =? 9 then "\t"
  else if n =? 10 then "\n"
  else if n =? 13 then "\r"
  else if isprintable c then String c EmptyString
  else String "\"%char (String "x"%char
         (String (hex_digit (n / 16)) (String (hex_digit (n mod 16)) EmptyString))).

Fixpoint repr_body (quote : ascii) (s : string) : string :=
  match s with
  | EmptyString => EmptyString
  | String c r => repr_char quote c ++ repr_body quote r
  end.

Definition squote : ascii := chr 39.
Definition dquote : ascii := chr 34.

Definition has_char (c : ascii) (s : string) : bool :=
  contains (String c EmptyString) s.

(** [repr(s)]: double quotes only when [s] has a single quote and no
    double quote. *)
Definition repr (s : string) : string :=
  let quote := if has_char squote s && negb (has_char dquote s) then dquote else squote in
  String quote (snoc (repr_body quote s) quote).

End Py.

(** ** hmmscan.py: the error classifier *)

(** First loop of [_find_error]: [rest] is [output] from index [i] on. *)
Fixpoint find_error_marked (output : list string) (i : nat) (rest : list string)
  : option string :=
  match rest with
  | [] => None
  | line :: rest' =>
      if Py.startswith line "Error:" then
        if i + 1 <? length output
        then Some (Py.strip line ++ " " ++ Py.strip (nth (i + 1) output ""))
        else Some (Py.strip line)
      else find_error_marked output (S i) rest'
  end.

(** Second loop of [_find_error]. *)
Fixpoint find_error_nonempty (output : list string) : option string :=
  match output with
  | [] => None
  | line :: rest =>
      let line := Py.strip line in
      if Py.truthy line then Some line else find_error_nonempty rest
  end.

Definition _find_error (output : list string) : string :=
  match find_error_marked output 0 output with
  | Some r => r
  | None =>
      match find_error_nonempty output with
      | Some r => r
      | None => "unknown error"
      end
  end.

(** ** The outside world *)

(** The exceptions the two modules raise or let through.  [OSError] stands
    for the class and its subclasses (FileNotFoundError, PermissionError,
    ...), which is what [except OSError] catches; [LibraryError] is any
    other exception of a collaborator. *)
Inductive Exn : Type :=
| ValueError (msg : string)
| RuntimeError (msg : string)
| IndexError (msg : string)
| OSError (msg : string)
| LibraryError (msg : string).

Definition is_OSError (e : Exn) : bool :=
  match e with OSError _ => true | _ => false end.

(** What [execute] of [.base] hands back. *)
Record RunResult : Type := mkRunResult {
  return_code : Z;
  stdout : string;
  stderr : string
}.

(** Modelled from the spec: [RunResult.successful] belongs to [.base], which
    is not among the sources; the process runner "returns exit code,
    captured stdout/stderr" and the executor distinguishes "zero exit code"
    from "nonzero exit code". *)
Definition successful (r : RunResult) : bool := (return_code r =? 0)%Z.

Record Executables : Type := mkExecutables {
  hmmscan : string;
  hmmsearch : string
}.

(** The optional [hmmer3] section of the configuration; [multithreading] is
    [None] when the key is not in the section. *)
Record Hmmer3 : Type := mkHmmer3 {
  multithreading : option bool
}.

Record Config : Type := mkConfig {
  executables : Executables;
  cpus : Z;
  hmmer3 : option Hmmer3
}.

(** The process-wide timing accumulators of the two modules. *)
Inductive Timer : Type :=
| hmmscan_time | pyhmmscan_time
| hmmsearch_time_1 | pyhmmsearch_time_1
| hmmsearch_time_2 | pyhmmsearch_time_2.

Definition Timer_eqb (a b : Timer) : bool :=
  match a, b with
  | hmmscan_time, hmmscan_time | pyhmmscan_time, pyhmmscan_time
  | hmmsearch_time_1, hmmsearch_time_1 | pyhmmsearch_time_1, pyhmmsearch_time_1
  | hmmsearch_time_2, hmmsearch_time_2 | pyhmmsearch_time_2, pyhmmsearch_time_2 => true
  | _, _ => false
  end.

Inductive Outcome (A : Type) : Type :=
| Return (a : A)
| Raise (e : Exn).
Arguments Return {A} a.
Arguments Raise {A} e.

Definition outcome_of {A : Type} (r : Exn + A) : Outcome A :=
  match r with inl e => Raise e | inr a => Return a end.

Section Model.

(** A [pyhmmer.plan7.TopHits] object and a SearchIO [QueryResult]. *)
Variables TopHits QueryResult : Type.

(** Everything the code does to the outside world, in the order it does
    it.  A process launch records what the runner answered. *)
Inductive Event : Type :=
| EvExecute (command : list string) (stdin : option string) (answer : Exn + RunResult)
| EvWriteText (path content : string)
| EvSequenceFile (path : string)
| EvHMMFile (path : string)
| EvHmmscan (seq_file hmm_file : string)
| EvHmmsearch (hmm_file seq_file : string)
| EvOpenWb (path : string)
| EvHitsWrite (path : string) (hits : TopHits) (header : bool)
| EvClose (path : string)
| EvParseFile (path format : string)
| EvLogInfo (label : string) (value : Q)
| EvLogError (msg : string)
| EvEnterTmp
| EvLeaveTmp.

Definition Trace : Type := list Event.

(** The collaborators.  Each answer may depend on all that happened
    before; [inl e] is the exception the call raises. *)
Record World : Type := mkWorld {
  get_config : Config;
  os_devnull : string;
  execute : Trace -> list string -> option string -> Exn + RunResult;
  open_write : Trace -> string -> string -> Exn + unit;
  easel_SequenceFile : Trace -> string -> Exn + unit;
  plan7_HMMFile : Trace -> string -> Exn + unit;
  hmmer_hmmscan : Trace -> string -> string -> Exn + list TopHits;
  hmmer_hmmsearch : Trace -> string -> string -> Exn + list TopHits;
  open_wb : Trace -> string -> Exn + unit;
  TopHits_write : Trace -> string -> TopHits -> bool -> Exn + unit;
  file_close : Trace -> string -> Exn + unit;
  SearchIO_parse_text : string -> string -> Exn + list QueryResult;
  SearchIO_parse_file : Trace -> string -> string -> Exn + list QueryResult;
  time_time : Trace -> Q
}.

(** The state of the process: the [help_text] attribute set on
    [run_hmmscan_help] (empty when unset), the module-level timers and the
    history. *)
Record State : Type := mkState {
  cached_help_text : string;
  timers : Timer -> Q;
  trace : Trace
}.

Definition record (ev : Event) (st : State) : State :=
  mkState (cached_help_text st) (timers st) (trace st ++ [ev])%list.

(** ** A state and exception monad *)

Definition M (A : Type) : Type := State -> Outcome A * State.

Definition ret {A : Type} (a : A) : M A := fun st => (Return a, st).

Definition raise {A : Type} (e : Exn) : M A := fun st => (Raise e, st).

Definition bind {A B : Type} (m : M A) (k : A -> M B) : M B :=
  fun st =>
    match m st with
    | (Return a, st') => k a st'
    | (Raise e, st') => (Raise e, st')
    end.

(** A call to a collaborator: the answer is taken at the history so far,
    then the call is recorded. *)
Definition call {A : Type} (ev : Event) (oracle : Trace -> Exn + A) : M A :=
  fun st => (outcome_of (oracle (trace st)), record ev st).

Definition emit (ev : Event) : M unit :=
  fun st => (Return tt, record ev st).

End Model.

Arguments EvExecute {TopHits} command stdin answer.
Arguments EvWriteText {TopHits} path content.
Arguments EvSequenceFile {TopHits} path.
Arguments EvHMMFile {TopHits} path.
Arguments EvHmmscan {TopHits} seq_file hmm_file.
Arguments EvHmmsearch {TopHits} hmm_file seq_file.
Arguments EvOpenWb {TopHits} path.
Arguments EvHitsWrite {TopHits} path hits header.
Arguments EvClose {TopHits} path.
Arguments EvParseFile {TopHits} path format.
Arguments EvLogInfo {TopHits} label value.
Arguments EvLogError {TopHits} msg.
Arguments EvEnterTmp {TopHits}.
Arguments EvLeaveTmp {TopHits}.
Arguments mkState {TopHits} cached_help_text timers trace.
Arguments cached_help_text {TopHits} s.
Arguments timers {TopHits} s.
Arguments trace {TopHits} s.
Arguments record {TopHits} ev st.
Arguments ret {TopHits A} a st.
Arguments raise {TopHits A} e st.
Arguments bind {TopHits A B} m k st.
Arguments call {TopHits A} ev oracle st.
Arguments emit {TopHits} ev st.

Declare Scope py_scope.
Delimit Scope py_scope with py.
Notation "x <- m ;; k" := (bind m (fun x => k))
  (at level 61, m at next level, right associativity) : py_scope.
Notation "m ;; k" := (bind m (fun _ => k))
  (at level 61, right associativity) : py_scope.

Arguments get_config {TopHits QueryResult} w.
Arguments os_devnull {TopHits QueryResult} w.
Arguments execute {TopHits QueryResult} w _ _ _.
Arguments open_write {TopHits QueryResult} w _ _ _.
Arguments easel_SequenceFile {TopHits QueryResult} w _ _.
Arguments plan7_HMMFile {TopHits QueryResult} w _ _.
Arguments hmmer_hmmscan {TopHits QueryResult} w _ _ _.
Arguments hmmer_hmmsearch {TopHits QueryResult} w _ _ _.
Arguments open_wb {TopHits QueryResult} w _ _.
Arguments TopHits_write {TopHits QueryResult} w _ _ _ _.
Arguments file_close {TopHits QueryResult} w _ _.
Arguments SearchIO_parse_text {TopHits QueryResult} w _ _.
Arguments SearchIO_parse_file {TopHits QueryResult} w _ _ _.
Arguments time_time {TopHits QueryResult} w _.

(** ** The two modules *)

Section Programs.

Context {TopHits QueryResult : Type} (W : World TopHits QueryResult).
Local Open Scope py_scope.

(** *** Primitive steps *)

(** [execute(command, stdin=...)] of [.base] *)
Definition py_execute (command : list string) (stdin : option string)
  : M TopHits RunResult :=
  fun st =>
    let answer := execute W (trace st) command stdin in
    (outcome_of answer, record (EvExecute command stdin answer) st).

(** [with open(path, "w", encoding="utf-8") as handle: handle.write(content)] *)
Definition write_text (path content : string) : M TopHits unit :=
  call (EvWriteText path content) (fun h => open_write W h path content).

(** [time.time()] *)
Definition py_time : M TopHits Q :=
  fun st => (Return (time_time W (trace st)), st).

(** [global t; t += d], giving the new total *)
Definition add_time (t : Timer) (d : Q) : M TopHits Q :=
  fun st =>
    let total := (timers st t + d)%Q in
    (Return total,
     mkState (cached_help_text st)
             (fun t' => if Timer_eqb t' t then total else timers st t')
             (trace st)).

Definition logging_info (label : string) (value : Q) : M TopHits unit :=
  emit (EvLogInfo label value).

Definition logging_error (msg : string) : M TopHits unit :=
  emit (EvLogError msg).

(** [l[i]] *)
Definition index {A : Type} (l : list A) (i : nat) : M TopHits A :=
  match nth_error l i with
  | Some x => ret x
  | None => raise (IndexError "list index out of range")
  end.

(** [for x in l: body(x)] *)
Fixpoint for_each {A : Type} (l : list A) (body : A -> M TopHits unit)
  : M TopHits unit :=
  match l with
  | [] => ret tt
  | x :: rest => body x ;; for_each rest body
  end.

(** [setattr(run_hmmscan_help, 'help_text', text)] *)
Definition set_help_text (text : string) : M TopHits unit :=
  fun st => (Return tt, mkState text (timers st) (trace st)).

(** [getattr(run_hmmscan_help, 'help_text', '')] *)
Definition get_help_text : M TopHits string :=
  fun st => (Return (cached_help_text st), st).

(** [hits_list[0].write(fp, header=True)], then the others without header *)
Definition write_hits (path : string) (hits_list : list TopHits) : M TopHits unit :=
  first <- index hits_list 0 ;;
  call (EvHitsWrite path first true) (fun h => TopHits_write W h path first true) ;;
  for_each (skipn 1 hits_list)
    (fun hit => call (EvHitsWrite path hit false)
                     (fun h => TopHits_write W h path hit false)).

(** *** hmmscan.py *)

Definition run_hmmscan_help : M TopHits string :=
  (* cache results *)
  help_text <- get_help_text ;;
  if Py.truthy help_text then ret help_text else
  let hmmscan := hmmscan (executables (get_config W)) in
  let command := [hmmscan; "-h"] in
  result <- py_execute command None ;;
  let help_text := stdout result in
  if negb (Py.startswith help_text "# hmmscan")
  then raise (RuntimeError ("unexpected output from hmmscan: " ++ hmmscan ++ ", check path"))
  else
    set_help_text help_text ;;
    ret help_text.

Definition run_hmmscan_version : M TopHits string :=
  help_text <- run_hmmscan_help ;;
  version_line <- index (Py.split Py.LF help_text) 1 ;;
  index (Py.split_ws version_line) 2.

(** The block between [# pyhmmscan begins] and [# pyhmmscan ends]. *)
Definition pyhmmscan (target_hmmfile query_sequence : string) : M TopHits unit :=
  start_time <- py_time ;;
  write_text "hmmscan_query.fa" query_sequence ;;
  call (EvSequenceFile "hmmscan_query.fa")
       (fun h => easel_SequenceFile W h "hmmscan_query.fa") ;;
  call (EvHMMFile target_hmmfile) (fun h => plan7_HMMFile W h target_hmmfile) ;;
  hits_list <- call (EvHmmscan "hmmscan_query.fa" target_hmmfile)
                    (fun h => hmmer_hmmscan W h "hmmscan_query.fa" target_hmmfile) ;;
  call (EvOpenWb "pyhmmscan_output.txt") (fun h => open_wb W h "pyhmmscan_output.txt") ;;
  write_hits "pyhmmscan_output.txt" hits_list ;;
  call (EvClose "pyhmmscan_output.txt") (fun h => file_close W h "pyhmmscan_output.txt") ;;
  now <- py_time ;;
  total <- add_time pyhmmscan_time (now - start_time)%Q ;;
  logging_info "pyhmmscan_time" total.

(** The command line of [run_hmmscan], given the help text of the binary. *)
Definition hmmscan_command (config : Config) (help_text target_hmmfile : string)
           (opts : option (list string)) : list string :=
  let command := [hmmscan (executables config); "--cpu"; Py.str (cpus config); "--nobias"] in
  (* Only run multithreaded when the binary supports it *)
  let command :=
    if negb (Py.contains " --cpu " help_text)
    then (firstn 1 command ++ skipn 3 command)%list
    else command in
  let command :=
    match opts with
    | Some opts => (command ++ opts)%list
    | None => command
    end in
  (command ++ [target_hmmfile; "-"])%list.

Definition hmmscan_failure (result : RunResult) (query_sequence : string) : string :=
  ("hmmscan returned " ++ Py.str (return_code result) ++ ": ")
  ++ ("'" ++ _find_error (Py.splitlines
               (if Py.truthy (stderr result) then stderr result else stdout result))
          ++ "'")
  ++ (" while scanning " ++ Py.repr (Py.slice_to 100 query_sequence) ++ "...").

(** The imports at the head of the function ([time], [pyhmmer]) are taken to
    resolve; loading modules is not part of the model. *)
Definition run_hmmscan (target_hmmfile query_sequence : string)
           (opts : option (list string)) (results_file : option string)
  : M TopHits (list QueryResult) :=
  if negb (Py.truthy query_sequence)
  then raise (ValueError "Cannot run hmmscan on empty sequence")
  else
    let config := get_config W in
    help_text <- run_hmmscan_help ;;
    let command := hmmscan_command config help_text target_hmmfile opts in
    start_time <- py_time ;;
    result <- py_execute command (Some query_sequence) ;;
    now <- py_time ;;
    total <- add_time hmmscan_time (now - start_time)%Q ;;
    logging_info "hmmscan_time" total ;;
    if negb (successful result)
    then raise (RuntimeError (hmmscan_failure result query_sequence))
    else
      match results_file with
      | Some path => write_text path (stdout result)
      | None => ret tt
      end ;;
      pyhmmscan target_hmmfile query_sequence ;;
      fun st => (outcome_of (SearchIO_parse_text W (stdout result) "hmmer3-text"), st).

(** *** hmmsearch.py *)

(** [config.get('hmmer3') and 'multithreading' in config.hmmer3 and
    not config.hmmer3.multithreading] *)
Definition multithreading_disabled (config : Config) : bool :=
  match hmmer3 config with
  | Some section =>
      match multithreading section with
      | Some enabled => negb enabled
      | None => false
      end
  | None => false
  end.

(** The command line of [run_hmmsearch] before the input is appended. *)
Definition hmmsearch_command (config : Config) (devnull query_hmmfile : string)
  : list string :=
  let command := [hmmsearch (executables config); "--cpu"; Py.str (cpus config);
                  "-o"; devnull;  (* throw away the verbose output *)
                  "--domtblout"; "result.domtab";
                  query_hmmfile] in
  (* Allow for disabling multithreading for HMMer3 calls in the command line *)
  if multithreading_disabled config
  then (firstn 1 command ++ skipn 3 command)%list
  else command.

(** The blocks between [# pyhmmer search begins] and [# pyhmmer search
    ends]: the one of the tempfile branch reads [input.fa], written for the
    subprocess; the one of the stdin branch writes its own input first. *)
Definition pyhmmer_search (query_hmmfile seq_path out_path : string) (t : Timer)
           (label : string) (start_time : Q) : M TopHits unit :=
  call (EvHMMFile query_hmmfile) (fun h => plan7_HMMFile W h query_hmmfile) ;;
  call (EvSequenceFile seq_path) (fun h => easel_SequenceFile W h seq_path) ;;
  hits_list <- call (EvHmmsearch query_hmmfile seq_path)
                    (fun h => hmmer_hmmsearch W h query_hmmfile seq_path) ;;
  call (EvOpenWb out_path) (fun h => open_wb W h out_path) ;;
  write_hits out_path hits_list ;;
  call (EvClose out_path) (fun h => file_close W h out_path) ;;
  now <- py_time ;;
  total <- add_time t (now - start_time)%Q ;;
  logging_info label total.

Definition pyhmmer_search_tempfile (query_hmmfile : string) : M TopHits unit :=
  start_time <- py_time ;;
  pyhmmer_search query_hmmfile "input.fa" "result_pyhmmer.domtab"
                 pyhmmsearch_time_1 "pyhmmsearch_time_1" start_time.

Definition pyhmmer_search_stdin (query_hmmfile target_sequence : string)
  : M TopHits unit :=
  start_time <- py_time ;;
  write_text "input_stdin_pyhmmer.fa" target_sequence ;;
  pyhmmer_search query_hmmfile "input_stdin_pyhmmer.fa" "result_stdin_pyhmmer.domtab"
                 pyhmmsearch_time_2 "pyhmmsearch_time_2" start_time.

(** The body of the [try] of [run_hmmsearch]; it leaves [run_result]. *)
Definition hmmsearch_try (command : list string) (query_hmmfile target_sequence : string)
           (use_tempfile : bool) : M TopHits RunResult :=
  if use_tempfile then
    write_text "input.fa" target_sequence ;;
    let command := (command ++ ["input.fa"])%list in
    start_time <- py_time ;;
    run_result <- py_execute command None ;;
    now <- py_time ;;
    total <- add_time hmmsearch_time_1 (now - start_time)%Q ;;
    logging_info "hmmsearch_time_1" total ;;
    pyhmmer_search_tempfile query_hmmfile ;;
    ret run_result
  else
    let command := (command ++ ["-"])%list in
    start_time <- py_time ;;
    run_result <- py_execute command (Some target_sequence) ;;
    now <- py_time ;;
    total <- add_time hmmsearch_time_2 (now - start_time)%Q ;;
    logging_info "hmmsearch_time_2" total ;;
    pyhmmer_search_stdin query_hmmfile target_sequence ;;
    ret run_result.

(** [try: body / except OSError: return on_error], followed by [rest]. *)
Definition try_except_OSError {A B : Type} (body : M TopHits A) (on_error : B)
           (rest : A -> M TopHits B) : M TopHits B :=
  fun st =>
    match body st with
    | (Return a, st') => rest a st'
    | (Raise e, st') =>
        if is_OSError e then (Return on_error, st') else (Raise e, st')
    end.

(** [with TemporaryDirectory(change=True): body]: the directory is left on
    every way out of [body]. *)
Definition with_TemporaryDirectory {A : Type} (body : M TopHits A) : M TopHits A :=
  fun st =>
    let (result, st') := body (record EvEnterTmp st) in
    (result, record EvLeaveTmp st').

Definition hmmsearch_error_log (run_result : RunResult) (query_hmmfile : string) : string :=
  "hmmsearch returned " ++ Py.str (return_code run_result) ++ ": "
  ++ stderr run_result ++ " while searching " ++ query_hmmfile.

Definition run_hmmsearch (query_hmmfile target_sequence : string) (use_tempfile : bool)
  : M TopHits (list QueryResult) :=
  let config := get_config W in
  let command := hmmsearch_command config (os_devnull W) query_hmmfile in
  with_TemporaryDirectory
    (try_except_OSError
       (hmmsearch_try command query_hmmfile target_sequence use_tempfile)
       []
       (fun run_result =>
          if negb (successful run_result)
          then
            logging_error (hmmsearch_error_log run_result query_hmmfile) ;;
            raise (RuntimeError "Running hmmsearch failed.")
          else
            call (EvParseFile "result.domtab" "hmmsearch3-domtab")
                 (fun h => SearchIO_parse_file W h "result.domtab" "hmmsearch3-domtab"))).

Definition run_hmmsearch_version : M TopHits string :=
  let hmmsearch := hmmsearch (executables (get_config W)) in
  let command := [hmmsearch; "-h"] in
  result <- py_execute command None ;;
  let help_text := stdout result in
  if negb (Py.startswith help_text "# hmmsearch")
  then raise (RuntimeError ("unexpected output from hmmsearch: " ++ hmmsearch ++ ", check path"))
  else
    version_line <- index (Py.split Py.LF help_text) 1 ;;
    index (Py.split_ws version_line) 2.

End Programs.

(** ** The subprocess path on its own

    [run_hmmscan] up to the line before [# pyhmmscan begins], and the [try]
    of [run_hmmsearch] without its [# pyhmmer search] block; the functions
    above are these followed by the embedded search (see [run_hmmscan_split]
    and [hmmsearch_try_split]). *)

Section SubprocessPath.

Context {TopHits QueryResult : Type} (W : World TopHits QueryResult).
Local Open Scope py_scope.

Definition hmmscan_subprocess (target_hmmfile query_sequence : string)
           (opts : option (list string)) (results_file : option string)
  : M TopHits RunResult :=
  if negb (Py.truthy query_sequence)
  then raise (ValueError "Cannot run hmmscan on empty sequence")
  else
    let config := get_config W in
    help_text <- run_hmmscan_help W ;;
    let command := hmmscan_command config help_text target_hmmfile opts in
    start_time <- py_time W ;;
    result <- py_execute W command (Some query_sequence) ;;
    now <- py_time W ;;
    total <- add_time hmmscan_time (now - start_time)%Q ;;
    logging_info "hmmscan_time" total ;;
    if negb (successful result)
    then raise (RuntimeError (hmmscan_failure result query_sequence))
    else
      match results_file with
      | Some path => write_text W path (stdout result)
      | None => ret tt
      end ;;
      ret result.

Definition hmmsearch_subprocess (command : list string) (target_sequence : string)
           (use_tempfile : bool) : M TopHits RunResult :=
  if use_tempfile then
    write_text W "input.fa" target_sequence ;;
    let command := (command ++ ["input.fa"])%list in
    start_time <- py_time W ;;
    run_result <- py_execute W command None ;;
    now <- py_time W ;;
    total <- add_time hmmsearch_time_1 (now - start_time)%Q ;;
    logging_info "hmmsearch_time_1" total ;;
    ret run_result
  else
    let command := (command ++ ["-"])%list in
    start_time <- py_time W ;;
    run_result <- py_execute W command (Some target_sequence) ;;
    now <- py_time W ;;
    total <- add_time hmmsearch_time_2 (now - start_time)%Q ;;
    logging_info "hmmsearch_time_2" total ;;
    ret run_result.

(** The embedded search of [run_hmmsearch], by branch. *)
Definition hmmsearch_shadow (query_hmmfile target_sequence : string)
           (use_tempfile : bool) : M TopHits unit :=
  if use_tempfile then pyhmmer_search_tempfile W query_hmmfile
  else pyhmmer_search_stdin W query_hmmfile target_sequence.

(** What [run_hmmsearch] does after its [try] with the process result. *)
Definition hmmsearch_finish (query_hmmfile : string) (run_result : RunResult)
  : M TopHits (list QueryResult) :=
  if negb (successful run_result)
  then
    logging_error (hmmsearch_error_log run_result query_hmmfile) ;;
    raise (RuntimeError "Running hmmsearch failed.")
  else
    call (EvParseFile "result.domtab" "hmmsearch3-domtab")
         (fun h => SearchIO_parse_file W h "result.domtab" "hmmsearch3-domtab").

(** [n] calls in a row, each from the state the previous one left,
    whether it returned or raised. *)
Fixpoint call_n {A : Type} (n : nat) (m : M TopHits A) (st : State TopHits)
  : list (Outcome A) * State TopHits :=
  match n with
  | O => ([], st)
  | S k =>
      let (o, st1) := m st in
      let (os, st2) := call_n k m st1 in
      (o :: os, st2)
  end.

End SubprocessPath.

(** ** Reading a history *)

Section Histories.

Context {TopHits : Type}.

(** The command lines handed to the process runner, in order. *)
Fixpoint launched (tr : Trace TopHits) : list (list string) :=
  match tr with
  | [] => []
  | EvExecute command _ _ :: rest => command :: launched rest
  | _ :: rest => launched rest
  end.

(** The steps of the embedded library search. *)
Definition is_shadow (ev : Event TopHits) : bool :=
  match ev with
  | EvSequenceFile _ | EvHMMFile _ | EvHmmscan _ _ | EvHmmsearch _ _
  | EvOpenWb _ | EvHitsWrite _ _ _ | EvClose _ => true
  | _ => false
  end.

(** The process was launched on [query] and exited with code zero. *)
Definition exited_zero (query : string) (ev : Event TopHits) : bool :=
  match ev with
  | EvExecute _ (Some q) (inr r) => String.eqb q query && successful r
  | _ => false
  end.

(** The process was launched and exited, with whatever code. *)
Definition exited (ev : Event TopHits) : bool :=
  match ev with
  | EvExecute _ _ (inr _) => true
  | _ => false
  end.

Definition is_parse (ev : Event TopHits) : bool :=
  match ev with EvParseFile _ _ => true | _ => false end.

Definition is_log_error (ev : Event TopHits) : bool :=
  match ev with EvLogError _ => true | _ => false end.

(** Every [P] event of [evs] has a [Q] event before it. *)
Definition preceded_by (P Q : Event TopHits -> bool) (evs : Trace TopHits) : Prop :=
  forall pre ev post,
    evs = (pre ++ ev :: post)%list -> P ev = true -> existsb Q pre = true.

(** The exit codes of the processes that were launched and exited. *)
Fixpoint exit_codes (tr : Trace TopHits) : list Z :=
  match tr with
  | [] => []
  | EvExecute _ _ (inr r) :: rest => return_code r :: exit_codes rest
  | _ :: rest => exit_codes rest
  end.

Definition is_execute (ev : Event TopHits) : bool :=
  match ev with EvExecute _ _ _ => true | _ => false end.

(** [m] only adds events, and each of them satisfies [P]. *)
Definition emits {A : Type} (P : Event TopHits -> bool) (m : M TopHits A) : Prop :=
  forall st o st',
    m st = (o, st') ->
    exists evs, trace st' = (trace st ++ evs)%list /\ forallb P evs = true.

End Histories.

(** ** The answers of the error classifier *)

Definition unmarked (line : string) : Prop := Py.startswith line "Error:" = false.
Definition blank (line : string) : Prop := Py.strip line = "".

(** What [_find_error] answers, case by case. *)
Inductive Classified : list string -> string -> Prop :=
| Classified_pair pre line next post :
    Forall unmarked pre ->
    Py.startswith line "Error:" = true ->
    Classified (pre ++ line :: next :: post)%list
               (Py.strip line ++ " " ++ Py.strip next)
| Classified_last pre line :
    Forall unmarked pre ->
    Py.startswith line "Error:" = true ->
    Classified (pre ++ [line])%list (Py.strip line)
| Classified_nonempty pre line post :
    Forall unmarked (pre ++ line :: post)%list ->
    Forall blank pre ->
    Py.strip line <> "" ->
    Classified (pre ++ line :: post)%list (Py.strip line)
| Classified_fallback output :
    Forall unmarked output ->
    Forall blank output ->
    Classified output "unknown error".

(** ** Concrete worlds for the examples *)

Module Examples.

Definition LF : string := String Py.LF EmptyString.

Definition config : Config := mkConfig (mkExecutables "hmmscan" "hmmsearch") 4 None.

Definition fresh : State nat := mkState "" (fun _ => 0%Q) [].

(** A world whose process runner answers by [run] and whose text files
    are written as [write] says; the library finds [hits], the parser
    [parsed], and [open_wb] answers by [wb]. *)
Definition world (run : list string -> option string -> Exn + RunResult)
           (write : string -> Exn + unit) (wb : string -> Exn + unit)
           (hits : list nat) (parsed : list string) : World nat string :=
  {| get_config := config;
     os_devnull := "/dev/null";
     execute := fun _ command stdin => run command stdin;
     open_write := fun _ path _ => write path;
     easel_SequenceFile := fun _ _ => inr tt;
     plan7_HMMFile := fun _ _ => inr tt;
     hmmer_hmmscan := fun _ _ _ => inr hits;
     hmmer_hmmsearch := fun _ _ _ => inr hits;
     open_wb := fun _ path => wb path;
     TopHits_write := fun _ _ _ _ => inr tt;
     file_close := fun _ _ => inr tt;
     SearchIO_parse_text := fun _ _ => inr parsed;
     SearchIO_parse_file := fun _ _ _ => inr parsed;
     time_time := fun h => inject_Z (Z.of_nat (length h)) |}.

Definition hmmscan_help : string :=
  "# hmmscan :: search sequence(s) against a profile database" ++ LF
  ++ "# HMMER 3.3.2 (Nov 2020); http://hmmer.org/" ++ LF
  ++ "  --cpu <n> : number of parallel CPU workers to use for multithreads" ++ LF.

Definition hmmscan_help_single : string :=
  "# hmmscan :: search sequence(s) against a profile database" ++ LF
  ++ "# HMMER 3.3.2 (Nov 2020); http://hmmer.org/" ++ LF.

Definition hmmsearch_help : string :=
  "# hmmsearch :: search profile(s) against a sequence database" ++ LF
  ++ "# HMMER 3.3.2 (Nov 2020); http://hmmer.org/" ++ LF.

Definition is_help (command : list string) : bool :=
  match command with
  | [_; flag] => String.eqb flag "-h"
  | _ => false
  end.

Definition is_hmmsearch (command : list string) : bool :=
  match command with
  | exe :: _ => String.eqb exe "hmmsearch"
  | [] => false
  end.

(** Both binaries answer [-h]; a search exits with [code], printing [out]
    and [err]. *)
Definition runner (scan_help : string) (code : Z) (out err : string)
           (command : list string) (stdin : option string) : Exn + RunResult :=
  if is_help command
  then inr (mkRunResult 0 (if is_hmmsearch command then hmmsearch_help else scan_help) "")
  else inr (mkRunResult code out err).

(** No binary at the configured path. *)
Definition no_binary (command : list string) (stdin : option string)
  : Exn + RunResult :=
  inl (OSError "No such file or directory").

(** A binary that prints something else than the banner. *)
Definition wrong_binary (command : list string) (stdin : option string)
  : Exn + RunResult :=
  inr (mkRunResult 0 "usage: something else" "").

Definition writable (path : string) : Exn + unit := inr tt.

Definition no_space (path : string) : Exn + unit :=
  inl (OSError "No space left on device").

Definition query : string := ">seq1" ++ LF ++ "MKV" ++ LF.

Definition report : string := "# hmmscan :: search sequence(s) against a profile database" ++ LF.

Definition complaint : string :=
  "Error: file not found" ++ LF ++ "  models/test.hmm" ++ LF.

(** Everything works; the binary supports [--cpu]. *)
Definition W_ok : World nat string :=
  world (runner hmmscan_help 0 report "") writable writable [1; 2; 3] ["hit1"].

(** Everything works; the binary does not advertise [--cpu]. *)
Definition W_single : World nat string :=
  world (runner hmmscan_help_single 0 report "") writable writable [1; 2; 3] ["hit1"].

(** The search exits with code 1 and complains on stderr. *)
Definition W_fail : World nat string :=
  world (runner hmmscan_help 1 "" complaint) writable writable [1] ["hit1"].

(** The search works, then the disk is full: the output file of the
    embedded search cannot be opened. *)
Definition W_shadow_io : World nat string :=
  world (runner hmmscan_help 0 report "") writable no_space [1] ["hit1"].

(** The search works, the embedded search finds nothing at all. *)
Definition W_no_hits : World nat string :=
  world (runner hmmscan_help 0 report "") writable writable [] ["hit1"].

Definition W_no_binary : World nat string :=
  world no_binary writable writable [1] ["hit1"].

Definition W_wrong_binary : World nat string :=
  world wrong_binary writable writable [1] ["hit1"].

End Examples.

(** ** More ways to read a run *)

Section Readings.

Context {TopHits : Type}.

(** The process was launched and exited with code zero. *)
Definition exited_ok (ev : Event TopHits) : bool :=
  match ev with
  | EvExecute _ _ (inr r) => successful r
  | _ => false
  end.

Definition is_write (ev : Event TopHits) : bool :=
  match ev with EvWriteText _ _ => true | _ => false end.

Definition is_tmp (ev : Event TopHits) : bool :=
  match ev with EvEnterTmp | EvLeaveTmp => true | _ => false end.

(** The text file [path] was written with [content]. *)
Definition wrote (path content : string) (ev : Event TopHits) : bool :=
  match ev with
  | EvWriteText p c => String.eqb p path && String.eqb c content
  | _ => false
  end.

(** The writes of a list of hits when none fails: the header goes with the
    first hit only. *)
Definition hit_writes (path : string) (hits_list : list TopHits) : Trace TopHits :=
  match hits_list with
  | [] => []
  | first :: others =>
      EvHitsWrite path first true :: map (fun hit => EvHitsWrite path hit false) others
  end.

(** [m] leaves a state that [R] relates to the one it started from. *)
Definition keeps {A : Type} (R : State TopHits -> State TopHits -> Prop)
           (m : M TopHits A) : Prop :=
  forall st o st', m st = (o, st') -> R st st'.

(** The cached help text stays, or an empty cache gets a text that begins
    with the banner of hmmscan. *)
Definition cache_step (st st' : State TopHits) : Prop :=
  cached_help_text st' = cached_help_text st
  \/ (cached_help_text st = ""
      /\ Py.startswith (cached_help_text st') "# hmmscan" = true).

(** The timer [t] is as it was. *)
Definition timer_kept (t : Timer) (st st' : State TopHits) : Prop :=
  timers st' t = timers st t.

(** A record of the logger, at any level. *)
Definition is_log (ev : Event TopHits) : bool :=
  match ev with
  | EvLogInfo _ _ | EvLogError _ => true
  | _ => false
  end.

(** Whenever [m] raises, all it has added to the history satisfies [P]. *)
Definition raises_within {A : Type} (P : Event TopHits -> bool) (m : M TopHits A) : Prop :=
  forall st e st',
    m st = (Raise e, st') ->
    exists evs, trace st' = (trace st ++ evs)%list /\ forallb P evs = true.

(** [st] with [evs] added to its history and nothing else changed. *)
Definition extend (st : State TopHits) (evs : Trace TopHits) : State TopHits :=
  mkState (cached_help_text st) (timers st) (trace st ++ evs)%list.

End Readings.

Section Replays.

Context {TopHits QueryResult : Type} (W : World TopHits QueryResult).

(** The exception of an answer, if it is one. *)
Definition raised {A : Type} (r : Exn + A) : option Exn :=
  match r with inl e => Some e | inr _ => None end.

(** The exception, if any, that the world raises for the call recorded as
    [ev] when it is made after the history [tr]. *)
Definition failure_of (tr : Trace TopHits) (ev : Event TopHits) : option Exn :=
  match ev with
  | EvExecute command stdin _ => raised (execute W tr command stdin)
  | EvWriteText path content => raised (open_write W tr path content)
  | EvSequenceFile path => raised (easel_SequenceFile W tr path)
  | EvHMMFile path => raised (plan7_HMMFile W tr path)
  | EvHmmscan seq_file hmm_file => raised (hmmer_hmmscan W tr seq_file hmm_file)
  | EvHmmsearch hmm_file seq_file => raised (hmmer_hmmsearch W tr hmm_file seq_file)
  | EvOpenWb path => raised (open_wb W tr path)
  | EvHitsWrite path hits header => raised (TopHits_write W tr path hits header)
  | EvClose path => raised (file_close W tr path)
  | EvParseFile path format => raised (SearchIO_parse_file W tr path format)
  | EvLogInfo _ _ | EvLogError _ | EvEnterTmp | EvLeaveTmp => None
  end.

(** [m] swallows no failure: a call of [m] that the world answers with an
    exception is the last thing [m] does, and that exception is what [m]
    raises. *)
Definition propagates {A : Type} (m : M TopHits A) : Prop :=
  forall st o st',
    m st = (o, st') ->
    exists evs,
      trace st' = (trace st ++ evs)%list
      /\ forall pre ev post e,
          evs = (pre ++ ev :: post)%list ->
          failure_of (trace st ++ pre)%list ev = Some e ->
          post = [] /\ o = Raise e.

(** What the library answers to the write [ev] after the history [tr]. *)
Definition write_answer (tr : Trace TopHits) (ev : Event TopHits) : Exn + unit :=
  match ev with
  | EvHitsWrite path hits header => TopHits_write W tr path hits header
  | _ => inr tt
  end.

(** The first of the writes [ws], done one after the other from the history
    [tr], that fails: its position and the exception. *)
Fixpoint first_failure (tr : Trace TopHits) (ws : Trace TopHits) : option (nat * Exn) :=
  match ws with
  | [] => None
  | ev :: rest =>
      match write_answer tr ev with
      | inl e => Some (0, e)
      | inr _ =>
          match first_failure (tr ++ [ev])%list rest with
          | Some (k, e) => Some (S k, e)
          | None => None
          end
      end
  end.

End Replays.

(** A word: not empty, no whitespace in it. *)
Definition is_token (s : string) : Prop :=
  s <> "" /\ forallb (fun c => negb (Py.isspace c)) (list_ascii_of_string s) = true.

(** No line boundary in [s]. *)
Definition single_line (s : string) : Prop :=
  forallb (fun c => negb (Py.is_linebreak c)) (list_ascii_of_string s) = true.

(** Some line of [output] begins with [Error:]. *)
Definition marked (output : list string) : Prop :=
  Exists (fun line => Py.startswith line "Error:" = true) output.

(** ** More worlds *)

Module Worlds.

Import Examples.

(** The working directory cannot be written to; the process works. *)
Definition W_read_only : World nat string :=
  world (runner hmmscan_help 0 report "") no_space writable [1] ["hit1"].

(** A state whose cache was filled by a binary that supports [--cpu]. *)
Definition warm : State nat := snd (run_hmmscan_help W_ok fresh).

(** The probe works, the search cannot be launched. *)
Definition probe_only (command : list string) (stdin : option string)
  : Exn + RunResult :=
  if is_help command then inr (mkRunResult 0 hmmscan_help "")
  else inl (OSError "Text file busy").

Definition W_probe_only : World nat string :=
  world probe_only writable writable [1] ["hit1"].

(** The search exits with code 1, and the output file of the embedded
    search cannot be opened either. *)
Definition W_fail_twice : World nat string :=
  world (runner hmmscan_help 1 "" complaint) writable no_space [1] ["hit1"].

(** Everything works until [result.domtab] is read: the file is not there. *)
Definition W_unreadable : World nat string :=
  {| get_config := get_config W_ok;
     os_devnull := os_devnull W_ok;
     execute := execute W_ok;
     open_write := open_write W_ok;
     easel_SequenceFile := easel_SequenceFile W_ok;
     plan7_HMMFile := plan7_HMMFile W_ok;
     hmmer_hmmscan := hmmer_hmmscan W_ok;
     hmmer_hmmsearch := hmmer_hmmsearch W_ok;
     open_wb := open_wb W_ok;
     TopHits_write := TopHits_write W_ok;
     file_close := file_close W_ok;
     SearchIO_parse_text := SearchIO_parse_text W_ok;
     SearchIO_parse_file := fun _ _ _ => inl (OSError "No such file or directory");
     time_time := time_time W_ok |}.

(** The second write of hits fails. *)
Definition W_second_write_fails : World nat string :=
  {| get_config := get_config W_ok;
     os_devnull := os_devnull W_ok;
     execute := execute W_ok;
     open_write := open_write W_ok;
     easel_SequenceFile := easel_SequenceFile W_ok;
     plan7_HMMFile := plan7_HMMFile W_ok;
     hmmer_hmmscan := hmmer_hmmscan W_ok;
     hmmer_hmmsearch := hmmer_hmmsearch W_ok;
     open_wb := open_wb W_ok;
     TopHits_write := fun _ _ hits _ =>
                        if Nat.eqb hits 2 then inl (OSError "No space left on device")
                        else inr tt;
     file_close := file_close W_ok;
     SearchIO_parse_text := SearchIO_parse_text W_ok;
     SearchIO_parse_file := SearchIO_parse_file W_ok;
     time_time := time_time W_ok |}.

End Worlds.

(** * Properties *)

(** ** The error classifier *)

Section Classifier.

Lemma truthy_false (s : string) : Py.truthy s = false <-> s = "".
Proof. destruct s; simpl; split; congruence. Qed.

Lemma truthy_true (s : string) : Py.truthy s = true <-> s <> "".
Proof. destruct s; simpl; split; congruence. Qed.

Lemma find_error_marked_spec (pre rest : list string) :
  match find_error_marked (pre ++ rest) (length pre) rest with
  | None => Forall unmarked rest
  | Some r =>
      exists mid line tl,
        rest = (mid ++ line :: tl)%list /\ Forall unmarked mid
        /\ Py.startswith line "Error:" = true
        /\ r = match tl with
               | next :: _ => Py.strip line ++ " " ++ Py.strip next
               | [] => Py.strip line
               end
  end.
Proof.
  revert pre. induction rest as [|line rest IH]; intros pre; simpl.
  - constructor.
  - destruct (Py.startswith line "Error:") eqn:Hm.
    + assert (Hnth : nth (length pre + 1) (pre ++ line :: rest) ""
                     = nth 0 rest "").
      { rewrite app_nth2 by lia.
        replace (length pre + 1 - length pre) with 1 by lia. reflexivity. }
      rewrite Hnth, length_app. simpl.
      destruct rest as [|next tl]; simpl.
      * replace (length pre + 1 <? length pre + 1) with false
          by (symmetry; apply Nat.ltb_ge; lia).
        exists [], line, []. repeat split; auto.
      * replace (length pre + 1 <? length pre + S (S (length tl))) with true
          by (symmetry; apply Nat.ltb_lt; lia).
        exists [], line, (next :: tl). repeat split; auto.
    + specialize (IH (pre ++ [line])%list).
      rewrite <- app_assoc, length_app in IH. simpl in IH.
      replace (length pre + 1) with (S (length pre)) in IH by lia.
      destruct (find_error_marked (pre ++ line :: rest) (S (length pre)) rest).
      * destruct IH as (mid & l & tl & -> & Hmid & Hl & ->).
        exists (line :: mid), l, tl. repeat split; auto.
      * constructor; assumption.
Qed.

Lemma find_error_nonempty_spec (output : list string) :
  match find_error_nonempty output with
  | None => Forall blank output
  | Some r =>
      exists pre line post,
        output = (pre ++ line :: post)%list /\ Forall blank pre
        /\ Py.strip line <> "" /\ r = Py.strip line
  end.
Proof.
  induction output as [|line rest IH]; simpl.
  - constructor.
  - destruct (Py.truthy (Py.strip line)) eqn:Ht.
    + exists [], line, rest. repeat split; auto. now apply truthy_true.
    + apply truthy_false in Ht.
      destruct (find_error_nonempty rest).
      * destruct IH as (pre & l & post & -> & Hpre & Hl & ->).
        exists (line :: pre), l, post. repeat split; auto.
      * constructor; assumption.
Qed.

(** C3 (as amended): [_find_error] is total, and answers the first line
    beginning with [Error:], trimmed, followed by one space and the
    trimmed next line when there is one (that line trimmed, alone,
    otherwise); else the first line that is not empty once trimmed,
    trimmed; else ["unknown error"]. *)
Theorem find_error_classified (output : list string) :
  Classified output (_find_error output).
Proof.
  unfold _find_error.
  pose proof (find_error_marked_spec [] output) as Hm. simpl in Hm.
  destruct (find_error_marked output 0 output) as [r|].
  - destruct Hm as (mid & line & tl & -> & Hmid & Hline & ->).
    destruct tl as [|next post]; now constructor.
  - pose proof (find_error_nonempty_spec output) as Hn.
    destruct (find_error_nonempty output) as [r|].
    + destruct Hn as (pre & line & post & -> & Hpre & Hline & ->).
      now constructor.
    + now constructor.
Qed.

(** C3 (counterexample): on the two lines of the spec's own scenario the
    classifier answers neither the marked line concatenated with the next
    one, nor the two joined by a space: both lines are trimmed first. *)
Lemma find_error_trims_before_joining :
  let output := ["Error: file not found"; "  models/test.hmm"] in
  _find_error output = "Error: file not found models/test.hmm"
  /\ _find_error output <> "Error: file not found" ++ "  models/test.hmm"
  /\ _find_error output <> "Error: file not found" ++ " " ++ "  models/test.hmm".
Proof. repeat split; vm_compute; discriminate. Qed.

End Classifier.

(** ** Reasoning about runs *)

Section Runs.

Context {TopHits QueryResult : Type} (W : World TopHits QueryResult).
Local Open Scope py_scope.

Lemma trace_record (ev : Event TopHits) (st : State TopHits) :
  trace (record ev st) = (trace st ++ [ev])%list.
Proof. reflexivity. Qed.

Lemma cached_record (ev : Event TopHits) (st : State TopHits) :
  cached_help_text (record ev st) = cached_help_text st.
Proof. reflexivity. Qed.

Lemma launched_app (l1 l2 : list (Event TopHits)) :
  launched (l1 ++ l2)%list = (launched l1 ++ launched l2)%list.
Proof.
  induction l1 as [|ev l1 IH]; simpl; [reflexivity|].
  destruct ev; simpl; rewrite ?IH; reflexivity.
Qed.

Lemma launched_none (evs : list (Event TopHits)) :
  forallb (fun ev => negb (is_execute ev)) evs = true -> launched evs = [].
Proof.
  induction evs as [|ev evs IH]; simpl; [reflexivity|].
  intros H. apply andb_prop in H as [Hev Hevs].
  destruct ev; simpl in *; try discriminate; auto.
Qed.

Lemma emits_ret {A : Type} (P : Event TopHits -> bool) (a : A) : emits P (ret a).
Proof.
  intros st o st' H. inversion H; subst. exists []. now rewrite app_nil_r.
Qed.

Lemma emits_raise {A : Type} (P : Event TopHits -> bool) (e : Exn) :
  emits P (raise e : M TopHits A).
Proof.
  intros st o st' H. inversion H; subst. exists []. now rewrite app_nil_r.
Qed.

Lemma emits_bind {A B : Type} (P : Event TopHits -> bool) (m : M TopHits A) (k : A -> M TopHits B) :
  emits P m -> (forall a, emits P (k a)) -> emits P (bind m k).
Proof.
  intros Hm Hk st o st' H. unfold bind in H.
  destruct (m st) as [[a|e] st1] eqn:E.
  - destruct (Hm _ _ _ E) as (evs1 & T1 & F1).
    destruct (Hk a _ _ _ H) as (evs2 & T2 & F2).
    exists (evs1 ++ evs2)%list. split.
    + now rewrite T2, T1, app_assoc.
    + now rewrite forallb_app, F1, F2.
  - inversion H; subst. now apply (Hm _ _ _ E).
Qed.

Lemma emits_call {A : Type} (P : Event TopHits -> bool) (ev : Event TopHits)
      (oracle : Trace TopHits -> Exn + A) :
  P ev = true -> emits P (call ev oracle).
Proof.
  intros HP st o st' H. inversion H; subst.
  exists [ev]. split; [reflexivity|]. simpl. now rewrite HP.
Qed.

Lemma emits_emit (P : Event TopHits -> bool) (ev : Event TopHits) :
  P ev = true -> emits P (emit ev).
Proof.
  intros HP st o st' H. inversion H; subst.
  exists [ev]. split; [reflexivity|]. simpl. now rewrite HP.
Qed.

Lemma emits_execute (P : Event TopHits -> bool) (command : list string) (stdin : option string) :
  (forall answer, P (EvExecute command stdin answer) = true) ->
  emits P (py_execute W command stdin).
Proof.
  intros HP st o st' H. inversion H; subst.
  eexists [_]. split; [reflexivity|]. simpl. now rewrite HP.
Qed.

Lemma emits_time (P : Event TopHits -> bool) : emits P (py_time W).
Proof.
  intros st o st' H. inversion H; subst. exists []. now rewrite app_nil_r.
Qed.

Lemma emits_add_time (P : Event TopHits -> bool) (t : Timer) (d : Q) :
  emits P (add_time t d : M TopHits Q).
Proof.
  intros st o st' H. inversion H; subst. exists []. simpl. now rewrite app_nil_r.
Qed.

Lemma emits_get_help_text (P : Event TopHits -> bool) : emits P (get_help_text : M TopHits string).
Proof.
  intros st o st' H. inversion H; subst. exists []. now rewrite app_nil_r.
Qed.

Lemma emits_set_help_text (P : Event TopHits -> bool) (text : string) :
  emits P (set_help_text text : M TopHits unit).
Proof.
  intros st o st' H. inversion H; subst. exists []. simpl. now rewrite app_nil_r.
Qed.

Lemma emits_index {A : Type} (P : Event TopHits -> bool) (l : list A) (i : nat) :
  emits P (index l i : M TopHits A).
Proof.
  unfold index. destruct (nth_error l i); [apply emits_ret | apply emits_raise].
Qed.

Lemma emits_for_each {A : Type} (P : Event TopHits -> bool) (l : list A) (body : A -> M TopHits unit) :
  (forall x, emits P (body x)) -> emits P (for_each l body).
Proof.
  intros Hbody. induction l as [|x l IH]; simpl.
  - apply emits_ret.
  - apply emits_bind; auto.
Qed.

Lemma emits_lift {A : Type} (P : Event TopHits -> bool) (r : Exn + A) :
  emits P (fun st : State TopHits => (outcome_of r, st)).
Proof.
  intros st o st' H. inversion H; subst. exists []. now rewrite app_nil_r.
Qed.

Lemma emits_try {A B : Type} (P : Event TopHits -> bool) (body : M TopHits A) (on_error : B)
      (rest : A -> M TopHits B) :
  emits P body -> (forall a, emits P (rest a)) ->
  emits P (try_except_OSError body on_error rest).
Proof.
  intros Hb Hr st o st' H. unfold try_except_OSError in H.
  destruct (body st) as [[a|e] st1] eqn:E.
  - destruct (Hb _ _ _ E) as (evs1 & T1 & F1).
    destruct (Hr a _ _ _ H) as (evs2 & T2 & F2).
    exists (evs1 ++ evs2)%list. split.
    + now rewrite T2, T1, app_assoc.
    + now rewrite forallb_app, F1, F2.
  - destruct (Hb _ _ _ E) as (evs1 & T1 & F1).
    destruct (is_OSError e); inversion H; subst; eauto.
Qed.

(** One step of a run at a time. *)
Lemma bind_ret {A B : Type} (a : A) (k : A -> M TopHits B) (st : State TopHits) :
  bind (ret a) k st = k a st.
Proof. reflexivity. Qed.

Lemma bind_raise {A B : Type} (e : Exn) (k : A -> M TopHits B) (st : State TopHits) :
  bind (raise e) k st = (Raise e, st).
Proof. reflexivity. Qed.

Lemma bind_time {B : Type} (k : Q -> M TopHits B) (st : State TopHits) :
  bind (py_time W) k st = k (time_time W (trace st)) st.
Proof. reflexivity. Qed.

Lemma bind_execute {B : Type} (command : list string) (stdin : option string)
      (k : RunResult -> M TopHits B) (st : State TopHits) :
  bind (py_execute W command stdin) k st
  = match execute W (trace st) command stdin with
    | inl e => (Raise e, record (EvExecute command stdin (inl e)) st)
    | inr r => k r (record (EvExecute command stdin (inr r)) st)
    end.
Proof.
  unfold bind, py_execute. cbv zeta.
  destruct (execute W (trace st) command stdin); reflexivity.
Qed.

Lemma bind_call {A B : Type} (ev : Event TopHits) (oracle : Trace TopHits -> Exn + A)
      (k : A -> M TopHits B) (st : State TopHits) :
  bind (call ev oracle) k st
  = match oracle (trace st) with
    | inl e => (Raise e, record ev st)
    | inr a => k a (record ev st)
    end.
Proof.
  unfold bind, call. destruct (oracle (trace st)); reflexivity.
Qed.

Lemma bind_emit {B : Type} (ev : Event TopHits) (k : unit -> M TopHits B)
      (st : State TopHits) :
  bind (emit ev) k st = k tt (record ev st).
Proof. reflexivity. Qed.

Lemma bind_add_time {B : Type} (t : Timer) (d : Q) (k : Q -> M TopHits B)
      (st : State TopHits) :
  bind (add_time t d) k st
  = k (timers st t + d)%Q
      (mkState (cached_help_text st)
               (fun t' => if Timer_eqb t' t then (timers st t + d)%Q else timers st t')
               (trace st)).
Proof. reflexivity. Qed.

Lemma emits_snd {A : Type} (P : Event TopHits -> bool) (m : M TopHits A)
      (st : State TopHits) :
  emits P m ->
  exists evs, trace (snd (m st)) = (trace st ++ evs)%list /\ forallb P evs = true.
Proof.
  intros H. destruct (m st) as [o st'] eqn:E. exact (H _ _ _ E).
Qed.

Lemma emits_launched {A : Type} (m : M TopHits A) (st : State TopHits) :
  emits (fun ev => negb (is_execute ev)) m ->
  launched (trace (snd (m st))) = launched (trace st).
Proof.
  intros H. destruct (emits_snd _ _ st H) as (evs & -> & Hevs).
  rewrite launched_app, (launched_none evs Hevs). apply app_nil_r.
Qed.


End Runs.

Create HintDb emits.

#[local] Hint Resolve emits_ret emits_raise emits_time emits_add_time
  emits_get_help_text emits_set_help_text emits_index emits_lift : emits.

(** Walks through a program and leaves the conditions on its events. *)
Ltac emits_walk :=
  repeat first
    [ progress intros
    | apply emits_bind
    | apply emits_try
    | apply emits_for_each
    | solve [auto with emits]
    | apply emits_call; reflexivity
    | apply emits_emit; reflexivity
    | apply emits_execute; intros; reflexivity
    | match goal with
      | |- emits _ (if ?b then _ else _) => destruct b
      | |- emits _ (match ?x with _ => _ end) => destruct x
      end ].

(** ** The capability probes *)

(** Splits on the next list lookup of the goal or of [H]. *)
Ltac case_nth :=
  match goal with
  | |- context [nth_error ?l ?i] =>
      destruct (nth_error l i); unfold ret, raise; cbv beta iota
  end.

Ltac case_nth_in H :=
  match type of H with
  | context [nth_error ?l ?i] =>
      destruct (nth_error l i); unfold ret, raise in H; cbv beta iota in H
  end.

Section Probes.

Context {TopHits QueryResult : Type} (W : World TopHits QueryResult).

Lemma startswith_truthy (s p : string) :
  Py.truthy p = true -> Py.startswith s p = true -> Py.truthy s = true.
Proof.
  destruct p; [discriminate|]. destruct s; [discriminate|]. reflexivity.
Qed.

Lemma help_cached (st : State TopHits) :
  Py.truthy (cached_help_text st) = true ->
  run_hmmscan_help W st = (Return (cached_help_text st), st).
Proof.
  intros H. unfold run_hmmscan_help, bind, get_help_text. now rewrite H.
Qed.

Lemma help_uncached (st : State TopHits) :
  Py.truthy (cached_help_text st) = false ->
  run_hmmscan_help W st =
    let hmmscan := hmmscan (executables (get_config W)) in
    let answer := execute W (trace st) [hmmscan; "-h"] None in
    let st1 := record (EvExecute [hmmscan; "-h"] None answer) st in
    match answer with
    | inl e => (Raise e, st1)
    | inr result =>
        if Py.startswith (stdout result) "# hmmscan"
        then (Return (stdout result), mkState (stdout result) (timers st1) (trace st1))
        else (Raise (RuntimeError ("unexpected output from hmmscan: " ++ hmmscan
                                     ++ ", check path")), st1)
    end.
Proof.
  intros H. unfold run_hmmscan_help, bind, get_help_text. rewrite H.
  unfold py_execute. cbv zeta.
  destruct (execute W (trace st) _ None) as [e|result]; simpl; [reflexivity|].
  destruct (Py.startswith (stdout result) "# hmmscan"); reflexivity.
Qed.

Lemma help_returned (st st1 : State TopHits) (help : string) :
  run_hmmscan_help W st = (Return help, st1) ->
  cached_help_text st1 = help /\ Py.truthy help = true
  /\ length (launched (trace st1)) <= S (length (launched (trace st))).
Proof.
  intros H. destruct (Py.truthy (cached_help_text st)) eqn:Hc.
  - rewrite help_cached in H by assumption. inversion H; subst. auto.
  - rewrite help_uncached in H by assumption. cbv zeta in H.
    destruct (execute W (trace st) _ None) as [e|result]; [discriminate|].
    destruct (Py.startswith (stdout result) "# hmmscan") eqn:Hb; [|discriminate].
    inversion H; subst. simpl. repeat split.
    + now apply (startswith_truthy _ "# hmmscan").
    + rewrite launched_app, length_app. simpl. lia.
Qed.

Lemma help_call_n (st : State TopHits) (n : nat) :
  Py.truthy (cached_help_text st) = true ->
  call_n n (run_hmmscan_help W) st = (repeat (Return (cached_help_text st)) n, st).
Proof.
  intros H. induction n as [|n IH]; simpl; [reflexivity|].
  now rewrite help_cached, IH.
Qed.

Lemma version_launches (st : State TopHits) :
  launched (trace (snd (run_hmmsearch_version W st)))
  = (launched (trace st) ++ [[hmmsearch (executables (get_config W)); "-h"]])%list.
Proof.
  unfold run_hmmsearch_version, bind, py_execute. cbv zeta.
  destruct (execute W (trace st) _ None) as [e|result]; simpl.
  - now rewrite launched_app.
  - destruct (Py.startswith (stdout result) "# hmmsearch"); simpl.
    + unfold index.
      case_nth; [|simpl; now rewrite launched_app].
      case_nth; simpl; now rewrite launched_app.
    + now rewrite launched_app.
Qed.

Lemma version_call_n (st : State TopHits) (n : nat) :
  length (launched (trace (snd (call_n n (run_hmmsearch_version W) st))))
  = length (launched (trace st)) + n.
Proof.
  revert st. induction n as [|n IH]; intros st; simpl; [lia|].
  pose proof (version_launches st) as Hv.
  destruct (run_hmmsearch_version W st) as [o st1]. simpl in Hv.
  specialize (IH st1).
  destruct (call_n n (run_hmmsearch_version W) st1) as [os st2]. simpl in *.
  rewrite IH, Hv, length_app. simpl. lia.
Qed.

(** C6 (as amended): once a call of [run_hmmscan_help] has returned a help
    text, that call launched at most one process, and every further call
    returns the same text from the cache and launches none, so that [N]
    calls beginning with it launch at most one process and all see the same
    text; [run_hmmsearch_version] keeps no cache, and [N] calls of it launch
    [N] processes. *)
Theorem probe_is_cached_once_it_succeeds
        (st st1 : State TopHits) (help : string) (N : nat) :
  (N >= 1 ->
   run_hmmscan_help W st = (Return help, st1) ->
   call_n N (run_hmmscan_help W) st = (repeat (Return help) N, st1)
   /\ length (launched (trace st1)) <= S (length (launched (trace st))))
  /\ length (launched (trace (snd (call_n N (run_hmmsearch_version W) st))))
     = length (launched (trace st)) + N.
Proof.
  split; [|apply version_call_n].
  intros HN H. destruct (help_returned _ _ _ H) as (Hc & Ht & Hl).
  destruct N as [|n]; [lia|]. split.
  - simpl. rewrite H. subst help. now rewrite help_call_n.
  - exact Hl.
Qed.

(** C7: a probe whose captured output does not begin with the banner of the
    tool raises [RuntimeError] naming the executable, the cached help text
    is left as it was, and the next call launches the probe again; this
    holds for [run_hmmscan_help] and for [run_hmmsearch_version], which has
    no cache to touch. *)
Theorem bad_banner_is_never_cached
        (st st' : State TopHits) (o : Outcome string)
        (command : list string) (result : RunResult) :
  (run_hmmscan_help W st = (o, st') ->
   trace st' = (trace st ++ [EvExecute command None (inr result)])%list ->
   Py.startswith (stdout result) "# hmmscan" = false ->
   o = Raise (RuntimeError ("unexpected output from hmmscan: "
                              ++ hmmscan (executables (get_config W)) ++ ", check path"))
   /\ cached_help_text st' = cached_help_text st
   /\ launched (trace (snd (run_hmmscan_help W st')))
      = (launched (trace st') ++ [[hmmscan (executables (get_config W)); "-h"]])%list)
  /\
  (run_hmmsearch_version W st = (o, st') ->
   trace st' = (trace st ++ [EvExecute command None (inr result)])%list ->
   Py.startswith (stdout result) "# hmmsearch" = false ->
   o = Raise (RuntimeError ("unexpected output from hmmsearch: "
                              ++ hmmsearch (executables (get_config W)) ++ ", check path"))
   /\ cached_help_text st' = cached_help_text st
   /\ launched (trace (snd (run_hmmsearch_version W st')))
      = (launched (trace st') ++ [[hmmsearch (executables (get_config W)); "-h"]])%list).
Proof.
  split; intros Hrun Htrace Hbanner.
  - destruct (Py.truthy (cached_help_text st)) eqn:Hc.
    + rewrite help_cached in Hrun by assumption. inversion Hrun; subst.
      apply (f_equal (@length _)) in Htrace. rewrite length_app in Htrace.
      simpl in Htrace. lia.
    + rewrite help_uncached in Hrun by assumption. cbv zeta in Hrun.
      destruct (execute W (trace st) _ None) as [e|res] eqn:Hex.
      * inversion Hrun; subst. rewrite trace_record in Htrace.
        apply app_inv_head in Htrace. inversion Htrace.
      * assert (res = result).
        { destruct (Py.startswith (stdout res) "# hmmscan");
            inversion Hrun; subst; simpl in Htrace;
            apply app_inv_head in Htrace; now inversion Htrace. }
        subst res. rewrite Hbanner in Hrun. inversion Hrun; subst.
        split; [reflexivity|]. split; [reflexivity|].
        rewrite help_uncached by (rewrite cached_record; assumption). cbv zeta.
        clear Hex Hrun.
        destruct (execute W _ _ None) as [e|res]; simpl.
        -- rewrite !launched_app. reflexivity.
        -- destruct (Py.startswith (stdout res) "# hmmscan"); simpl;
             rewrite !launched_app; reflexivity.
  - split; [|split].
    + unfold run_hmmsearch_version, bind, py_execute in Hrun. cbv zeta in Hrun.
      destruct (execute W (trace st) _ None) as [e|res] eqn:Hex; simpl in Hrun.
      * inversion Hrun; subst. rewrite trace_record in Htrace.
        apply app_inv_head in Htrace. inversion Htrace.
      * assert (Hst : trace st' = (trace st ++ [EvExecute
                   [hmmsearch (executables (get_config W)); "-h"] None (inr res)])%list).
        { destruct (negb (Py.startswith (stdout res) "# hmmsearch"));
            [inversion Hrun; reflexivity|].
          unfold index in Hrun.
          case_nth_in Hrun; [|inversion Hrun; reflexivity].
          case_nth_in Hrun; inversion Hrun; reflexivity. }
        rewrite Hst in Htrace. apply app_inv_head in Htrace.
        inversion Htrace; subst. rewrite Hbanner in Hrun. simpl in Hrun.
        now inversion Hrun.
    + unfold run_hmmsearch_version, bind, py_execute in Hrun. cbv zeta in Hrun.
      destruct (execute W (trace st) _ None) as [e|res]; simpl in Hrun.
      * now inversion Hrun.
      * destruct (negb (Py.startswith (stdout res) "# hmmsearch"));
          [now inversion Hrun|].
        unfold index in Hrun.
        case_nth_in Hrun; [|now inversion Hrun].
        case_nth_in Hrun; now inversion Hrun.
    + apply version_launches.
Qed.

End Probes.

(** ** The search functions and their two paths *)

Section Searches.

Context {TopHits QueryResult : Type} (W : World TopHits QueryResult).
Local Open Scope py_scope.

(** [run_hmmscan] is its subprocess path, then the embedded search, then
    the parse of what the process printed. *)
Lemma run_hmmscan_split (target_hmmfile query_sequence : string)
      (opts : option (list string)) (results_file : option string)
      (st : State TopHits) :
  run_hmmscan W target_hmmfile query_sequence opts results_file st
  = (result <- hmmscan_subprocess W target_hmmfile query_sequence opts results_file ;;
     pyhmmscan W target_hmmfile query_sequence ;;
     fun st => (outcome_of (SearchIO_parse_text W (stdout result) "hmmer3-text"), st)) st.
Proof.
  unfold run_hmmscan, hmmscan_subprocess.
  destruct (negb (Py.truthy query_sequence)); [reflexivity|].
  unfold bind.
  destruct (run_hmmscan_help W st) as [[help|e] st1]; [|reflexivity].
  destruct (py_time W st1) as [[start|e] st2]; [|reflexivity].
  destruct (py_execute W _ _ st2) as [[result|e] st3]; [|reflexivity].
  destruct (py_time W st3) as [[now|e] st4]; [|reflexivity].
  destruct (add_time _ _ st4) as [[total|e] st5]; [|reflexivity].
  destruct (logging_info _ _ st5) as [[[]|e] st6]; [|reflexivity].
  destruct (negb (successful result)); [reflexivity|].
  destruct results_file as [path|].
  - destruct (write_text W path (stdout result) st6) as [[[]|e] st7]; reflexivity.
  - reflexivity.
Qed.

(** The [try] of [run_hmmsearch] is its subprocess path, then the embedded
    search. *)
Lemma hmmsearch_try_split (command : list string) (query_hmmfile target_sequence : string)
      (use_tempfile : bool) (st : State TopHits) :
  hmmsearch_try W command query_hmmfile target_sequence use_tempfile st
  = (run_result <- hmmsearch_subprocess W command target_sequence use_tempfile ;;
     hmmsearch_shadow W query_hmmfile target_sequence use_tempfile ;;
     ret run_result) st.
Proof.
  unfold hmmsearch_try, hmmsearch_subprocess, hmmsearch_shadow.
  destruct use_tempfile; unfold bind.
  - destruct (write_text W _ _ st) as [[[]|e] st1]; [|reflexivity].
    destruct (py_time W st1) as [[start|e] st2]; [|reflexivity].
    destruct (py_execute W _ _ st2) as [[result|e] st3]; [|reflexivity].
    destruct (py_time W st3) as [[now|e] st4]; [|reflexivity].
    destruct (add_time _ _ st4) as [[total|e] st5]; [|reflexivity].
    destruct (logging_info _ _ st5) as [[[]|e] st6]; reflexivity.
  - destruct (py_time W st) as [[start|e] st2]; [|reflexivity].
    destruct (py_execute W _ _ st2) as [[result|e] st3]; [|reflexivity].
    destruct (py_time W st3) as [[now|e] st4]; [|reflexivity].
    destruct (add_time _ _ st4) as [[total|e] st5]; [|reflexivity].
    destruct (logging_info _ _ st5) as [[[]|e] st6]; reflexivity.
Qed.

Lemma run_hmmsearch_unfold (query_hmmfile target_sequence : string)
      (use_tempfile : bool) (st : State TopHits) :
  run_hmmsearch W query_hmmfile target_sequence use_tempfile st
  = let command := hmmsearch_command (get_config W) (os_devnull W) query_hmmfile in
    let (result, st') :=
      try_except_OSError
        (hmmsearch_try W command query_hmmfile target_sequence use_tempfile)
        [] (hmmsearch_finish W query_hmmfile) (record EvEnterTmp st) in
    (result, record EvLeaveTmp st').
Proof. reflexivity. Qed.


Lemma run_hmmsearch_after_try (query_hmmfile target_sequence : string)
      (use_tempfile : bool) (st st1 : State TopHits) (o : Outcome RunResult) :
  hmmsearch_try W (hmmsearch_command (get_config W) (os_devnull W) query_hmmfile)
                query_hmmfile target_sequence use_tempfile (record EvEnterTmp st)
  = (o, st1) ->
  run_hmmsearch W query_hmmfile target_sequence use_tempfile st
  = match o with
    | Return run_result =>
        let (result, st2) := hmmsearch_finish W query_hmmfile run_result st1 in
        (result, record EvLeaveTmp st2)
    | Raise e =>
        (if is_OSError e then Return [] else Raise e, record EvLeaveTmp st1)
    end.
Proof.
  intros H. rewrite run_hmmsearch_unfold. cbv zeta.
  unfold try_except_OSError. rewrite H.
  destruct o as [run_result|e]; [reflexivity|].
  destruct (is_OSError e); reflexivity.
Qed.

Lemma hmmscan_subprocess_returned (target_hmmfile query_sequence : string)
      (opts : option (list string)) (results_file : option string)
      (st st1 : State TopHits) (result : RunResult) :
  hmmscan_subprocess W target_hmmfile query_sequence opts results_file st
  = (Return result, st1) ->
  return_code result = 0%Z.
Proof.
  unfold hmmscan_subprocess.
  destruct (negb (Py.truthy query_sequence)); [discriminate|].
  unfold bind.
  destruct (run_hmmscan_help W st) as [[help|e] s1]; [|discriminate].
  unfold py_time, py_execute, add_time, logging_info, emit. cbv zeta.
  destruct (execute W _ _ _) as [e|r]; simpl; [discriminate|].
  destruct (successful r) eqn:Hok; simpl; [|discriminate].
  intros H. assert (r = result); [|subst r].
  { destruct results_file as [path|]; simpl in H.
    - unfold write_text, call in H.
      destruct (open_write W _ _ _) as [e|[]]; simpl in H; now inversion H.
    - now inversion H. }
  unfold successful in Hok. now apply Z.eqb_eq.
Qed.

(** C8 (as amended): when the process exits with code zero, what
    [run_hmmscan] returns is the answer of the parser on the captured
    standard output, format [hmmer3-text], as it is: the call returns it
    whenever the results file and the embedded search complete, and returns
    nothing else.  What [run_hmmsearch] returns when its [try] block
    completes is the answer of the parser on the file [result.domtab],
    format [hmmsearch3-domtab], as it is. *)
Theorem returned_hits_are_the_parse
        (target_hmmfile query_hmmfile sequence : string)
        (opts : option (list string)) (results_file : option string)
        (use_tempfile : bool) (st st1 st2 : State TopHits)
        (result : RunResult) (hits : list QueryResult) :
  (hmmscan_subprocess W target_hmmfile sequence opts results_file st
   = (Return result, st1) ->
   pyhmmscan W target_hmmfile sequence st1 = (Return tt, st2) ->
   return_code result = 0%Z
   /\ run_hmmscan W target_hmmfile sequence opts results_file st
      = (outcome_of (SearchIO_parse_text W (stdout result) "hmmer3-text"), st2))
  /\
  (run_hmmscan W target_hmmfile sequence opts results_file st = (Return hits, st2) ->
   exists run_result st0,
     hmmscan_subprocess W target_hmmfile sequence opts results_file st
     = (Return run_result, st0)
     /\ return_code run_result = 0%Z
     /\ SearchIO_parse_text W (stdout run_result) "hmmer3-text" = inr hits)
  /\
  (hmmsearch_try W (hmmsearch_command (get_config W) (os_devnull W) query_hmmfile)
                 query_hmmfile sequence use_tempfile (record EvEnterTmp st)
   = (Return result, st1) ->
   return_code result = 0%Z ->
   run_hmmsearch W query_hmmfile sequence use_tempfile st
   = (outcome_of (SearchIO_parse_file W (trace st1) "result.domtab" "hmmsearch3-domtab"),
      record EvLeaveTmp (record (EvParseFile "result.domtab" "hmmsearch3-domtab") st1))).
Proof.
  split; [|split].
  - intros Hsub Hshadow. split.
    + eapply hmmscan_subprocess_returned; eassumption.
    + rewrite run_hmmscan_split. unfold bind. now rewrite Hsub, Hshadow.
  - intros Hrun. rewrite run_hmmscan_split in Hrun. unfold bind in Hrun.
    destruct (hmmscan_subprocess W _ _ _ _ st) as [[run_result|e] st0] eqn:Hsub;
      [|discriminate].
    exists run_result, st0. split; [reflexivity|]. split.
    + eapply hmmscan_subprocess_returned; eassumption.
    + destruct (pyhmmscan W _ _ st0) as [[[]|e] st3]; [|discriminate].
      destruct (SearchIO_parse_text W _ _) as [e|parsed]; simpl in Hrun;
        [discriminate|]. now inversion Hrun.
  - intros Htry Hcode.
    rewrite (run_hmmsearch_after_try _ _ _ _ _ _ Htry).
    unfold hmmsearch_finish, successful. rewrite Hcode. reflexivity.
Qed.

(** C10 (as amended): when an [OSError] is raised in the [try] block of
    [run_hmmsearch] (writing the input file, launching the process or
    running the embedded search), the call returns the empty list, raises
    nothing, and neither logs the exit code nor parses any result.  The
    parse of [result.domtab] comes after the [try], still inside the
    temporary-directory block: what it raises, an [OSError] included, is not
    caught and reaches the caller. *)
Theorem hmmsearch_oserror_gives_empty_list
        (query_hmmfile target_sequence : string) (use_tempfile : bool)
        (st st1 : State TopHits) (msg : string) (result : RunResult) (e : Exn) :
  (hmmsearch_try W (hmmsearch_command (get_config W) (os_devnull W) query_hmmfile)
                 query_hmmfile target_sequence use_tempfile (record EvEnterTmp st)
   = (Raise (OSError msg), st1) ->
   run_hmmsearch W query_hmmfile target_sequence use_tempfile st
   = (Return [], record EvLeaveTmp st1)
   /\ exists evs,
       trace (record EvLeaveTmp st1) = (trace st ++ evs)%list
       /\ forallb (fun ev => negb (is_parse ev) && negb (is_log_error ev)) evs = true)
  /\
  (hmmsearch_try W (hmmsearch_command (get_config W) (os_devnull W) query_hmmfile)
                 query_hmmfile target_sequence use_tempfile (record EvEnterTmp st)
   = (Return result, st1) ->
   return_code result = 0%Z ->
   SearchIO_parse_file W (trace st1) "result.domtab" "hmmsearch3-domtab" = inl e ->
   run_hmmsearch W query_hmmfile target_sequence use_tempfile st
   = (Raise e,
      record EvLeaveTmp (record (EvParseFile "result.domtab" "hmmsearch3-domtab") st1))).
Proof.
  split.
  2: { intros Htry Hcode Hparse.
       rewrite (run_hmmsearch_after_try _ _ _ _ _ _ Htry).
       unfold hmmsearch_finish, successful, call. rewrite Hcode. cbn.
       rewrite Hparse. reflexivity. }
  intros Htry. split.
  - now rewrite (run_hmmsearch_after_try _ _ _ _ _ _ Htry).
  - assert (Hemits : emits (fun ev : Event TopHits =>
                              negb (is_parse ev) && negb (is_log_error ev))
                       (hmmsearch_try W (hmmsearch_command (get_config W) (os_devnull W)
                                                           query_hmmfile)
                                      query_hmmfile target_sequence use_tempfile)).
    { unfold hmmsearch_try, pyhmmer_search_tempfile, pyhmmer_search_stdin,
        pyhmmer_search, write_hits, write_text, logging_info.
      emits_walk. }
    destruct (Hemits _ _ _ Htry) as (evs & Ht & Hf).
    exists (EvEnterTmp :: evs ++ [EvLeaveTmp])%list. split.
    + rewrite trace_record, Ht, trace_record, <- !app_assoc. reflexivity.
    + simpl. rewrite forallb_app, Hf. reflexivity.
Qed.

(** The three places where the [try] block can meet an [OSError]. *)
Lemma hmmsearch_try_write_fails (command : list string)
      (query_hmmfile target_sequence msg : string) (st : State TopHits) :
  open_write W (trace st) "input.fa" target_sequence = inl (OSError msg) ->
  hmmsearch_try W command query_hmmfile target_sequence true st
  = (Raise (OSError msg), record (EvWriteText "input.fa" target_sequence) st).
Proof.
  intros H. unfold hmmsearch_try, bind, write_text, call. now rewrite H.
Qed.

Lemma hmmsearch_try_launch_fails (command : list string)
      (query_hmmfile target_sequence msg : string) (st : State TopHits) :
  execute W (trace st) (command ++ ["-"])%list (Some target_sequence) = inl (OSError msg) ->
  hmmsearch_try W command query_hmmfile target_sequence false st
  = (Raise (OSError msg),
     record (EvExecute (command ++ ["-"])%list (Some target_sequence) (inl (OSError msg))) st).
Proof.
  intros H. unfold hmmsearch_try, bind, py_time, py_execute. cbv zeta. now rewrite H.
Qed.

Lemma hmmsearch_try_shadow_fails (command : list string)
      (query_hmmfile target_sequence msg : string) (use_tempfile : bool)
      (st st1 st2 : State TopHits) (result : RunResult) :
  hmmsearch_subprocess W command target_sequence use_tempfile st = (Return result, st1) ->
  hmmsearch_shadow W query_hmmfile target_sequence use_tempfile st1
  = (Raise (OSError msg), st2) ->
  hmmsearch_try W command query_hmmfile target_sequence use_tempfile st
  = (Raise (OSError msg), st2).
Proof.
  intros Hsub Hshadow. rewrite hmmsearch_try_split. unfold bind.
  now rewrite Hsub, Hshadow.
Qed.

(** *** Strings *)

Lemma append_assoc (a b c : string) : (a ++ b) ++ c = a ++ (b ++ c).
Proof. induction a as [|x a IH]; simpl; [reflexivity|]. now rewrite IH. Qed.

Lemma prefix_append (s t : string) : String.prefix s (s ++ t) = true.
Proof.
  induction s as [|x s IH]; simpl; [now destruct t|].
  destruct (ascii_dec x x); [assumption|contradiction].
Qed.

Lemma contains_prefix (sub s : string) :
  String.prefix sub s = true -> Py.contains sub s = true.
Proof. intros H. destruct s; simpl in *; now rewrite H. Qed.

Lemma contains_append (sub p s : string) :
  Py.contains sub s = true -> Py.contains sub (p ++ s) = true.
Proof.
  intros H. induction p as [|x p IH]; simpl; [assumption|].
  rewrite IH. apply orb_true_r.
Qed.

Lemma contains_middle (sub p t : string) : Py.contains sub (p ++ sub ++ t) = true.
Proof. apply contains_append, contains_prefix, prefix_append. Qed.

Lemma slice_to_length (n : nat) (s : string) : String.length (Py.slice_to n s) <= n.
Proof.
  revert s. induction n as [|n IH]; intros [|c s]; simpl; try lia.
  specialize (IH s). lia.
Qed.

Lemma slice_to_prefix (n : nat) (s : string) :
  Py.startswith s (Py.slice_to n s) = true.
Proof.
  unfold Py.startswith. revert s.
  induction n as [|n IH]; intros [|c s]; simpl; try reflexivity.
  destruct (ascii_dec c c); [apply IH|contradiction].
Qed.

Lemma hmmscan_failure_flat (result : RunResult) (query_sequence : string) :
  hmmscan_failure result query_sequence
  = "hmmscan returned " ++ Py.str (return_code result) ++ ": '"
    ++ _find_error (Py.splitlines (if Py.truthy (stderr result)
                                   then stderr result else stdout result))
    ++ "' while scanning " ++ Py.repr (Py.slice_to 100 query_sequence) ++ "...".
Proof.
  unfold hmmscan_failure. rewrite !append_assoc. reflexivity.
Qed.

(** *** Nonzero exit codes *)

(** C4 (as amended): when the process of [run_hmmscan] exits with a nonzero
    code, the [RuntimeError] raised carries the exit code, the answer of
    the error classifier on the lines of stderr if stderr is not empty and
    of stdout otherwise, and the [repr] of the first 100 characters at most
    of the query.  When the process of [run_hmmsearch] exits with a nonzero
    code and the embedded search, which runs before the exit code is looked
    at, completes, the call raises the fixed message
    ["Running hmmsearch failed."] instead, after logging the exit code, the
    raw stderr and the path of the HMM file; when the embedded search
    raises, the exit code is neither looked at nor logged: the call returns
    the empty list for an [OSError] and lets any other exception through. *)
Theorem nonzero_exit_is_reported
        (target_hmmfile query_hmmfile sequence help : string)
        (opts : option (list string)) (results_file : option string)
        (use_tempfile : bool) (st st1 st2 : State TopHits) (result : RunResult)
        (o : Outcome unit) :
  (sequence <> "" ->
   run_hmmscan_help W st = (Return help, st1) ->
   execute W (trace st1) (hmmscan_command (get_config W) help target_hmmfile opts)
           (Some sequence) = inr result ->
   return_code result <> 0%Z ->
   let diagnostic :=
     _find_error (Py.splitlines (if Py.truthy (stderr result)
                                 then stderr result else stdout result)) in
   let context := Py.slice_to 100 sequence in
   let message :=
     "hmmscan returned " ++ Py.str (return_code result) ++ ": '" ++ diagnostic
     ++ "' while scanning " ++ Py.repr context ++ "..." in
   fst (run_hmmscan W target_hmmfile sequence opts results_file st)
   = Raise (RuntimeError message)
   /\ Py.contains (Py.str (return_code result)) message = true
   /\ Py.contains diagnostic message = true
   /\ Py.contains (Py.repr context) message = true
   /\ String.length context <= 100
   /\ Py.startswith sequence context = true)
  /\
  (hmmsearch_try W (hmmsearch_command (get_config W) (os_devnull W) query_hmmfile)
                 query_hmmfile sequence use_tempfile (record EvEnterTmp st)
   = (Return result, st1) ->
   return_code result <> 0%Z ->
   run_hmmsearch W query_hmmfile sequence use_tempfile st
   = (Raise (RuntimeError "Running hmmsearch failed."),
      record EvLeaveTmp
        (record (EvLogError ("hmmsearch returned " ++ Py.str (return_code result) ++ ": "
                               ++ stderr result ++ " while searching " ++ query_hmmfile))
                st1)))
  /\
  (hmmsearch_subprocess W (hmmsearch_command (get_config W) (os_devnull W) query_hmmfile)
                        sequence use_tempfile (record EvEnterTmp st)
   = (Return result, st1) ->
   return_code result <> 0%Z ->
   hmmsearch_shadow W query_hmmfile sequence use_tempfile st1 = (o, st2) ->
   run_hmmsearch W query_hmmfile sequence use_tempfile st
   = match o with
     | Return _ =>
         (Raise (RuntimeError "Running hmmsearch failed."),
          record EvLeaveTmp
            (record (EvLogError ("hmmsearch returned " ++ Py.str (return_code result)
                                   ++ ": " ++ stderr result ++ " while searching "
                                   ++ query_hmmfile))
                    st2))
     | Raise e =>
         (if is_OSError e then Return [] else Raise e, record EvLeaveTmp st2)
     end).
Proof.
  split; [|split].
  3: { intros Hsub Hcode Hshadow. apply Z.eqb_neq in Hcode.
       destruct o as [[]|e].
       - rewrite (run_hmmsearch_after_try _ _ _ _ st2 (Return result)).
         + unfold hmmsearch_finish, successful. rewrite Hcode. reflexivity.
         + rewrite hmmsearch_try_split. unfold bind. now rewrite Hsub, Hshadow.
       - rewrite (run_hmmsearch_after_try _ _ _ _ st2 (Raise e)); [reflexivity|].
         rewrite hmmsearch_try_split. unfold bind. now rewrite Hsub, Hshadow. }
  - intros Hq Hhelp Hexec Hcode diagnostic context message.
    assert (Hok : successful result = false).
    { unfold successful. now apply Z.eqb_neq. }
    repeat split.
    + unfold run_hmmscan.
      apply truthy_true in Hq. rewrite Hq. cbn [negb].
      unfold bind at 1. rewrite Hhelp.
      rewrite bind_time, bind_execute, Hexec, bind_time, bind_add_time.
      unfold logging_info. rewrite bind_emit, Hok. cbn [negb fst raise].
      now rewrite hmmscan_failure_flat.
    + apply (contains_middle _ "hmmscan returned ").
    + unfold message.
      rewrite <- (append_assoc "hmmscan returned " (Py.str (return_code result)) _).
      rewrite <- (append_assoc _ ": '" _).
      apply contains_middle.
    + unfold message.
      rewrite <- (append_assoc "hmmscan returned " (Py.str (return_code result)) _).
      rewrite <- (append_assoc _ ": '" _).
      rewrite <- (append_assoc _ diagnostic _).
      rewrite <- (append_assoc _ "' while scanning " _).
      apply contains_middle.
    + apply slice_to_length.
    + apply slice_to_prefix.
  - intros Htry Hcode.
    rewrite (run_hmmsearch_after_try _ _ _ _ _ _ Htry).
    unfold hmmsearch_finish, successful.
    apply Z.eqb_neq in Hcode. rewrite Hcode. reflexivity.
Qed.

(** *** What the two paths leave in the history *)

Lemma pyhmmscan_emits (P : Event TopHits -> bool) (target_hmmfile query_sequence : string) :
  (forall ev, is_execute ev = false -> is_parse ev = false -> is_log_error ev = false ->
              P ev = true) ->
  emits P (pyhmmscan W target_hmmfile query_sequence).
Proof.
  intros HP.
  unfold pyhmmscan, write_hits, write_text, logging_info.
  emits_walk; first [apply emits_call | apply emits_emit]; now apply HP.
Qed.

Lemma hmmsearch_shadow_emits (P : Event TopHits -> bool)
      (query_hmmfile target_sequence : string) (use_tempfile : bool) :
  (forall ev, is_execute ev = false -> is_parse ev = false -> is_log_error ev = false ->
              P ev = true) ->
  emits P (hmmsearch_shadow W query_hmmfile target_sequence use_tempfile).
Proof.
  intros HP.
  unfold hmmsearch_shadow, pyhmmer_search_tempfile, pyhmmer_search_stdin,
    pyhmmer_search, write_hits, write_text, logging_info.
  emits_walk; first [apply emits_call | apply emits_emit]; now apply HP.
Qed.

Lemma hmmsearch_finish_emits (P : Event TopHits -> bool) (query_hmmfile : string)
      (run_result : RunResult) :
  (forall ev, is_execute ev = false -> is_shadow ev = false -> P ev = true) ->
  emits P (hmmsearch_finish W query_hmmfile run_result).
Proof.
  intros HP. unfold hmmsearch_finish, logging_error.
  emits_walk; first [apply emits_call | apply emits_emit]; now apply HP.
Qed.

Lemma run_hmmscan_help_emits (P : Event TopHits -> bool) :
  (forall ev, is_shadow ev = false -> P ev = true) ->
  emits P (run_hmmscan_help W).
Proof.
  intros HP. unfold run_hmmscan_help.
  emits_walk. apply emits_execute. intros answer. now apply HP.
Qed.

(** The subprocess path of [run_hmmscan] once the help text is known. *)
Lemma hmmscan_subprocess_steps (target_hmmfile query_sequence help : string)
      (opts : option (list string)) (results_file : option string)
      (st st1 : State TopHits) :
  query_sequence <> "" ->
  run_hmmscan_help W st = (Return help, st1) ->
  let command := hmmscan_command (get_config W) help target_hmmfile opts in
  let answer := execute W (trace st1) command (Some query_sequence) in
  exists o st2 evs,
    hmmscan_subprocess W target_hmmfile query_sequence opts results_file st = (o, st2)
    /\ trace st2 = (trace st1 ++ EvExecute command (Some query_sequence) answer :: evs)%list
    /\ forallb (fun ev => negb (is_execute ev) && negb (is_shadow ev)) evs = true
    /\ (forall result, o = Return result -> answer = inr result /\ successful result = true).
Proof.
  intros Hq Hhelp command answer.
  unfold hmmscan_subprocess. apply truthy_true in Hq. rewrite Hq. cbn [negb].
  unfold bind at 1. rewrite Hhelp. fold command.
  rewrite bind_time, bind_execute. fold answer.
  assert (Hdone : forall (o : Outcome RunResult) (st2 : State TopHits) evs,
             trace st2 = ((trace st1 ++ [EvExecute command (Some query_sequence) answer])
                          ++ evs)%list ->
             forallb (fun ev => negb (is_execute ev) && negb (is_shadow ev)) evs = true ->
             (forall result, o = Return result ->
                             answer = inr result /\ successful result = true) ->
             exists o' st2' evs',
               (o, st2) = (o', st2')
               /\ trace st2' = (trace st1 ++ EvExecute command (Some query_sequence) answer
                                         :: evs')%list
               /\ forallb (fun ev => negb (is_execute ev) && negb (is_shadow ev)) evs' = true
               /\ (forall result, o' = Return result ->
                                   answer = inr result /\ successful result = true)).
  { intros o st2 evs Ht Hf Hr. exists o, st2, evs. repeat split; auto.
    - rewrite Ht, <- app_assoc. reflexivity.
    - now apply Hr.
    - now apply Hr. }
  destruct answer as [e|result] eqn:Hanswer.
  - apply (Hdone _ _ []); [now rewrite app_nil_r | reflexivity | discriminate].
  - rewrite bind_time, bind_add_time. unfold logging_info. rewrite bind_emit.
    destruct (successful result) eqn:Hok; cbn [negb].
    + destruct results_file as [path|].
      * unfold write_text. rewrite bind_call.
        destruct (open_write W _ path (stdout result)) as [e|[]].
        -- eapply (Hdone _ _ [_; _]);
             [simpl; rewrite <- !app_assoc; reflexivity | reflexivity | discriminate].
        -- eapply (Hdone _ _ [_; _]);
             [simpl; rewrite <- !app_assoc; reflexivity | reflexivity |].
           intros r Hr. inversion Hr; subst. auto.
      * eapply (Hdone _ _ [_]); [reflexivity | reflexivity |].
        intros r Hr. inversion Hr; subst. auto.
    + eapply (Hdone _ _ [_]); [reflexivity | reflexivity | discriminate].
Qed.

Lemma hmmsearch_subprocess_steps (command : list string) (target_sequence : string)
      (use_tempfile : bool) (st : State TopHits) :
  exists o st1 evs,
    hmmsearch_subprocess W command target_sequence use_tempfile st = (o, st1)
    /\ trace st1 = (trace st ++ evs)%list
    /\ forallb (fun ev => negb (is_shadow ev)) evs = true
    /\ (forall result, o = Return result -> existsb exited evs = true)
    /\ (use_tempfile = false ->
        exists answer rest,
          evs = EvExecute (command ++ ["-"])%list (Some target_sequence) answer :: rest).
Proof.
  unfold hmmsearch_subprocess. destruct use_tempfile.
  - unfold write_text. rewrite bind_call.
    destruct (open_write W _ _ _) as [e|[]].
    + do 2 eexists. exists [EvWriteText "input.fa" target_sequence].
      split; [reflexivity|]. repeat split; try reflexivity; discriminate.
    + rewrite bind_time, bind_execute.
      destruct (execute W _ _ None) as [e|result].
      * do 2 eexists. eexists [_; _].
        split; [reflexivity|]. split; [simpl; now rewrite <- app_assoc|].
        repeat split; try reflexivity; discriminate.
      * rewrite bind_time, bind_add_time. unfold logging_info. rewrite bind_emit.
        do 2 eexists. eexists [_; _; _].
        split; [reflexivity|]. split; [simpl; now rewrite <- !app_assoc|].
        repeat split; try reflexivity; discriminate.
  - rewrite bind_time, bind_execute.
    destruct (execute W _ _ (Some target_sequence)) as [e|result].
    + do 2 eexists. eexists [_].
      split; [reflexivity|]. split; [reflexivity|].
      split; [reflexivity|]. split; [discriminate|]. intros _. eauto.
    + rewrite bind_time, bind_add_time. unfold logging_info. rewrite bind_emit.
      do 2 eexists. eexists [_; _].
      split; [reflexivity|]. split; [simpl; now rewrite <- !app_assoc|].
      split; [reflexivity|]. split; [reflexivity|]. intros _. eauto.
Qed.

(** What [run_hmmsearch] adds to the history after its subprocess path. *)
Lemma run_hmmsearch_steps (query_hmmfile target_sequence : string)
      (use_tempfile : bool) (st st1 : State TopHits) (o : Outcome RunResult) :
  hmmsearch_subprocess W (hmmsearch_command (get_config W) (os_devnull W) query_hmmfile)
                       target_sequence use_tempfile (record EvEnterTmp st) = (o, st1) ->
  exists evs,
    trace (snd (run_hmmsearch W query_hmmfile target_sequence use_tempfile st))
    = (trace st1 ++ evs)%list
    /\ (forall e, o = Raise e -> evs = [EvLeaveTmp]).
Proof.
  intros Hsub. rewrite run_hmmsearch_unfold. cbv zeta.
  unfold try_except_OSError. rewrite hmmsearch_try_split.
  unfold bind at 1. rewrite Hsub. destruct o as [result|e].
  - unfold bind.
    pose proof (hmmsearch_shadow_emits (fun _ => true) query_hmmfile target_sequence
                  use_tempfile (fun _ _ _ _ => eq_refl)) as Hshadow.
    destruct (hmmsearch_shadow W _ _ _ st1) as [[[]|e] st2] eqn:E;
      destruct (Hshadow _ _ _ E) as (evs2 & T2 & _).
    + unfold ret.
      pose proof (hmmsearch_finish_emits (fun _ => true) query_hmmfile result
                    (fun _ _ _ => eq_refl)) as Hfinish.
      destruct (hmmsearch_finish W _ _ st2) as [answer st3] eqn:E3.
      destruct (Hfinish _ _ _ E3) as (evs3 & T3 & _).
      exists (evs2 ++ evs3 ++ [EvLeaveTmp])%list. split; [|discriminate].
      simpl. rewrite T3, T2, <- !app_assoc. reflexivity.
    + exists (evs2 ++ [EvLeaveTmp])%list. split; [|discriminate].
      destruct (is_OSError e); simpl; rewrite T2, <- !app_assoc; reflexivity.
  - exists [EvLeaveTmp]. split; [|reflexivity].
    destruct (is_OSError e); reflexivity.
Qed.

Lemma forallb_weaken {A : Type} (P Q : A -> bool) (l : list A) :
  (forall x, P x = true -> Q x = true) -> forallb P l = true -> forallb Q l = true.
Proof.
  intros HPQ. induction l as [|x l IH]; simpl; [reflexivity|].
  intros H. apply andb_prop in H as [Hx Hl]. now rewrite (HPQ _ Hx), IH.
Qed.

Lemma preceded_by_none (P Q : Event TopHits -> bool) (evs : Trace TopHits) :
  forallb (fun ev => negb (P ev)) evs = true -> preceded_by P Q evs.
Proof.
  intros Hnone pre ev post -> HP.
  rewrite forallb_app in Hnone. apply andb_prop in Hnone as [_ Hnone].
  simpl in Hnone. rewrite HP in Hnone. discriminate.
Qed.

Lemma preceded_by_after (P Q : Event TopHits -> bool) (evs1 evs2 : Trace TopHits) :
  forallb (fun ev => negb (P ev)) evs1 = true ->
  existsb Q evs1 = true ->
  preceded_by P Q (evs1 ++ evs2)%list.
Proof.
  intros Hnone Hsome pre ev post Heq HP.
  apply app_eq_app in Heq as [l [[H1 H2] | [H1 H2]]].
  - destruct l as [|x l]; simpl in H2.
    + rewrite app_nil_r in H1. now subst pre.
    + inversion H2; subst x. subst evs1.
      rewrite forallb_app in Hnone. apply andb_prop in Hnone as [_ Hnone].
      simpl in Hnone. rewrite HP in Hnone. discriminate.
  - subst pre. rewrite existsb_app, Hsome. reflexivity.
Qed.

(** The history of [run_hmmscan] after its subprocess path. *)
Lemma run_hmmscan_steps (target_hmmfile query_sequence : string)
      (opts : option (list string)) (results_file : option string)
      (st st1 : State TopHits) (o : Outcome RunResult) :
  hmmscan_subprocess W target_hmmfile query_sequence opts results_file st = (o, st1) ->
  exists evs,
    trace (snd (run_hmmscan W target_hmmfile query_sequence opts results_file st))
    = (trace st1 ++ evs)%list
    /\ forallb (fun ev => negb (is_execute ev)) evs = true
    /\ (forall e, o = Raise e -> evs = []).
Proof.
  intros Hsub. rewrite run_hmmscan_split. unfold bind at 1. rewrite Hsub.
  destruct o as [result|e].
  - assert (Hrest : emits (fun ev => negb (is_execute ev))
                      (pyhmmscan W target_hmmfile query_sequence ;;
                       fun st => (outcome_of (SearchIO_parse_text W (stdout result)
                                                                  "hmmer3-text"), st))%py).
    { apply emits_bind; [|intros; apply emits_lift].
      apply pyhmmscan_emits. intros ev Hev _ _. now rewrite Hev. }
    destruct (emits_snd _ _ st1 Hrest) as (evs & T & F).
    exists evs. repeat split; [exact T | exact F | discriminate].
  - exists []. simpl. rewrite app_nil_r. auto.
Qed.

(** *** Failures of the embedded search *)

Lemma raises_within_bind {A B : Type} (P : Event TopHits -> bool)
      (m : M TopHits A) (k : A -> M TopHits B) :
  emits P m -> (forall a, raises_within P (k a)) -> raises_within P (bind m k).
Proof.
  intros Hm Hk st e st' H. unfold bind in H.
  destruct (m st) as [[a|e0] st1] eqn:E.
  - destruct (Hm _ _ _ E) as (evs1 & T1 & F1).
    destruct (Hk a _ _ _ H) as (evs2 & T2 & F2).
    exists (evs1 ++ evs2)%list. split.
    + now rewrite T2, T1, app_assoc.
    + now rewrite forallb_app, F1, F2.
  - inversion H; subst. exact (Hm _ _ _ E).
Qed.

Lemma raises_within_emit (P : Event TopHits -> bool) (ev : Event TopHits) :
  raises_within P (emit ev).
Proof. intros st e st' H. discriminate. Qed.

Lemma propagates_still {A : Type} (m : M TopHits A) :
  (forall st o st', m st = (o, st') -> trace st' = trace st) -> propagates W m.
Proof.
  intros Hm st o st' H. exists []. split.
  - now rewrite app_nil_r, (Hm _ _ _ H).
  - intros [|x pre] ev post e Heq; discriminate.
Qed.

Lemma propagates_bind {A B : Type} (m : M TopHits A) (k : A -> M TopHits B) :
  propagates W m -> (forall a, propagates W (k a)) -> propagates W (bind m k).
Proof.
  intros Hm Hk st o st' H. unfold bind in H.
  destruct (m st) as [[a|e0] st1] eqn:E.
  - destruct (Hm _ _ _ E) as (evs1 & T1 & C1).
    destruct (Hk a _ _ _ H) as (evs2 & T2 & C2).
    exists (evs1 ++ evs2)%list. split; [now rewrite T2, T1, app_assoc|].
    intros pre ev post e Heq Hf.
    apply app_eq_app in Heq as [l [[H1 H2] | [H1 H2]]].
    + destruct l as [|x l]; simpl in H2.
      * rewrite app_nil_r in H1. subst pre.
        apply (C2 [] ev post e); [now rewrite <- H2|].
        now rewrite app_nil_r, T1.
      * inversion H2; subst x post.
        destruct (C1 pre ev l e H1 Hf) as [_ Habs]. discriminate.
    + subst pre. apply (C2 l ev post e H2).
      now rewrite T1, <- app_assoc.
  - inversion H; subst. destruct (Hm _ _ _ E) as (evs1 & T1 & C1).
    exists evs1. split; [exact T1|].
    intros pre ev post e Heq Hf.
    destruct (C1 pre ev post e Heq Hf) as [Hpost Hraise].
    split; [exact Hpost|]. now inversion Hraise.
Qed.

Lemma propagates_call {A : Type} (ev : Event TopHits)
      (oracle : Trace TopHits -> Exn + A) :
  (forall tr, failure_of W tr ev = raised (oracle tr)) ->
  propagates W (call ev oracle).
Proof.
  intros Hev st o st' H. inversion H; subst. exists [ev]. split; [reflexivity|].
  intros pre x post e Heq Hf.
  destruct pre as [|y pre]; simpl in Heq; inversion Heq as [[Hx Hpost]].
  - subst x post. split; [reflexivity|].
    rewrite app_nil_r, Hev in Hf.
    destruct (oracle (trace st)); simpl in *; congruence.
  - destruct pre; discriminate.
Qed.

Lemma propagates_emit (ev : Event TopHits) :
  (forall tr, failure_of W tr ev = None) -> propagates W (emit ev).
Proof.
  intros Hev st o st' H. inversion H; subst. exists [ev]. split; [reflexivity|].
  intros pre x post e Heq Hf.
  destruct pre as [|y pre]; simpl in Heq; inversion Heq as [[Hx Hpost]].
  - subst x. rewrite Hev in Hf. discriminate.
  - destruct pre; discriminate.
Qed.

Lemma propagates_for_each {A : Type} (l : list A) (body : A -> M TopHits unit) :
  (forall x, propagates W (body x)) -> propagates W (for_each l body).
Proof.
  intros Hbody. induction l as [|x l IH]; simpl.
  - apply propagates_still. intros st o st' H. now inversion H.
  - apply propagates_bind; auto.
Qed.

(** Walks through a block of calls to the library. *)
Ltac propagates_walk :=
  repeat first
    [ apply propagates_bind
    | apply propagates_for_each
    | apply propagates_call; intros; reflexivity
    | apply propagates_emit; intros; reflexivity
    | apply propagates_still; unfold index;
      intros ? ? ? H;
      repeat match type of H with
             | context [match ?x with _ => _ end] => destruct x
             end;
      now inversion H
    | progress intros ].

(** The embedded searches swallow no failure of the library or of the file
    system. *)
Lemma pyhmmscan_propagates (target_hmmfile query_sequence : string) :
  propagates W (pyhmmscan W target_hmmfile query_sequence).
Proof.
  unfold pyhmmscan, write_hits, write_text, logging_info. propagates_walk.
Qed.

Lemma hmmsearch_shadow_propagates (query_hmmfile target_sequence : string)
      (use_tempfile : bool) :
  propagates W (hmmsearch_shadow W query_hmmfile target_sequence use_tempfile).
Proof.
  unfold hmmsearch_shadow, pyhmmer_search_tempfile, pyhmmer_search_stdin,
    pyhmmer_search, write_hits, write_text, logging_info.
  destruct use_tempfile; propagates_walk.
Qed.

(** The embedded search of [run_hmmscan] logs once, as its last step: when
    it raises, nothing of what it did is a record of the logger. *)
Lemma pyhmmscan_raises_unlogged (target_hmmfile query_sequence : string) :
  raises_within (fun ev => negb (is_log ev)) (pyhmmscan W target_hmmfile query_sequence).
Proof.
  unfold pyhmmscan, logging_info.
  repeat (apply raises_within_bind;
          [unfold write_hits, write_text; emits_walk | intros]).
  apply raises_within_emit.
Qed.

Lemma hmmsearch_shadow_raises_unlogged (query_hmmfile target_sequence : string)
      (use_tempfile : bool) :
  raises_within (fun ev => negb (is_log ev))
                (hmmsearch_shadow W query_hmmfile target_sequence use_tempfile).
Proof.
  unfold hmmsearch_shadow, pyhmmer_search_tempfile, pyhmmer_search_stdin,
    pyhmmer_search, logging_info.
  destruct use_tempfile;
    repeat (apply raises_within_bind;
            [unfold write_hits, write_text; emits_walk | intros]);
    apply raises_within_emit.
Qed.


(** C1 (as amended): a failure of the embedded search is neither caught for
    its own sake nor logged, at any level: a call to the library or to the
    file system that fails is the last thing the embedded search does and
    its exception is what the embedded search raises; when it raises, no
    record of the logger is among what it did, and the call does nothing
    after it but leave the temporary directory.  In [run_hmmscan] whatever it
    raises reaches the caller; in [run_hmmsearch] an [OSError] from it turns
    the call into the empty list and any other exception reaches the caller.
    When the embedded search completes, the value returned or the error
    raised is the one of the subprocess path. *)
Theorem shadow_outcome_reaches_the_caller
        (target_hmmfile query_hmmfile sequence : string)
        (opts : option (list string)) (results_file : option string)
        (use_tempfile : bool) (st st1 st2 : State TopHits)
        (result : RunResult) (o : Outcome unit) :
  (hmmscan_subprocess W target_hmmfile sequence opts results_file st
   = (Return result, st1) ->
   pyhmmscan W target_hmmfile sequence st1 = (o, st2) ->
   run_hmmscan W target_hmmfile sequence opts results_file st
   = (match o with
      | Raise e => Raise e
      | Return _ => outcome_of (SearchIO_parse_text W (stdout result) "hmmer3-text")
      end, st2))
  /\
  (hmmsearch_subprocess W (hmmsearch_command (get_config W) (os_devnull W) query_hmmfile)
                        sequence use_tempfile (record EvEnterTmp st)
   = (Return result, st1) ->
   hmmsearch_shadow W query_hmmfile sequence use_tempfile st1 = (o, st2) ->
   run_hmmsearch W query_hmmfile sequence use_tempfile st
   = match o with
     | Raise e => (if is_OSError e then Return [] else Raise e, record EvLeaveTmp st2)
     | Return _ =>
         let (answer, st3) := hmmsearch_finish W query_hmmfile result st2 in
         (answer, record EvLeaveTmp st3)
     end)
  /\
  (emits (fun ev => negb (is_log_error ev)) (pyhmmscan W target_hmmfile sequence)
   /\ emits (fun ev => negb (is_log_error ev))
             (hmmsearch_shadow W query_hmmfile sequence use_tempfile))
  /\
  (raises_within (fun ev => negb (is_log ev)) (pyhmmscan W target_hmmfile sequence)
   /\ raises_within (fun ev => negb (is_log ev))
                     (hmmsearch_shadow W query_hmmfile sequence use_tempfile))
  /\
  (propagates W (pyhmmscan W target_hmmfile sequence)
   /\ propagates W (hmmsearch_shadow W query_hmmfile sequence use_tempfile)).
Proof.
  split; [|split; [|split; [|split]]]; [intros Hsub Hshadow | intros Hsub Hshadow | | |].
  5: { split; [apply pyhmmscan_propagates | apply hmmsearch_shadow_propagates]. }
  3: { split; [apply pyhmmscan_emits | apply hmmsearch_shadow_emits];
       intros ev _ _ Hev; now rewrite Hev. }
  3: { split; [apply pyhmmscan_raises_unlogged | apply hmmsearch_shadow_raises_unlogged]. }
  - rewrite run_hmmscan_split. unfold bind. rewrite Hsub, Hshadow.
    destruct o as [[]|e]; reflexivity.
  - destruct o as [[]|e].
    + rewrite (run_hmmsearch_after_try _ _ _ _ st2 (Return result)); [reflexivity|].
      rewrite hmmsearch_try_split. unfold bind. now rewrite Hsub, Hshadow.
    + rewrite (run_hmmsearch_after_try _ _ _ _ st2 (Raise e)); [reflexivity|].
      rewrite hmmsearch_try_split. unfold bind. now rewrite Hsub, Hshadow.
Qed.

(** *** The command line *)

(** C5 (as amended): when the help text seen by [run_hmmscan] lacks
    [" --cpu "], the one process it launches after the probe gets the
    executable, [--nobias], the caller's options, the HMM file and [-]:
    neither [--cpu] nor the worker count is passed, whatever the
    configuration, and [--cpu] can only be in the vector if the caller put
    it there.  [run_hmmsearch] does not look at the help text: it drops the
    flag and its value exactly when the [hmmer3] section of the
    configuration has [multithreading] set to false. *)
Theorem cpu_flag_only_when_supported
        (target_hmmfile query_hmmfile sequence help : string)
        (opts : option (list string)) (results_file : option string)
        (st st1 : State TopHits) :
  (sequence <> "" ->
   run_hmmscan_help W st = (Return help, st1) ->
   Py.contains " --cpu " help = false ->
   let extra := match opts with Some opts => opts | None => [] end in
   let command :=
     (hmmscan (executables (get_config W)) :: "--nobias" :: extra
        ++ [target_hmmfile; "-"])%list in
   launched (trace (snd (run_hmmscan W target_hmmfile sequence opts results_file st)))
   = (launched (trace st1) ++ [command])%list
   /\ (In "--cpu" command ->
       In "--cpu" (hmmscan (executables (get_config W)) :: extra ++ [target_hmmfile])%list))
  /\
  hmmsearch_command (get_config W) (os_devnull W) query_hmmfile
  = (if multithreading_disabled (get_config W)
     then [hmmsearch (executables (get_config W));
           "-o"; os_devnull W; "--domtblout"; "result.domtab"; query_hmmfile]
     else [hmmsearch (executables (get_config W)); "--cpu"; Py.str (cpus (get_config W));
           "-o"; os_devnull W; "--domtblout"; "result.domtab"; query_hmmfile]).
Proof.
  split.
  - intros Hq Hhelp Hflag extra command.
    assert (Hcommand : hmmscan_command (get_config W) help target_hmmfile opts = command).
    { unfold hmmscan_command. rewrite Hflag. destruct opts; reflexivity. }
    split.
    + destruct (hmmscan_subprocess_steps target_hmmfile sequence help opts results_file
                  st st1 Hq Hhelp) as (o & st2 & evs & Hsub & T & F & _).
      destruct (run_hmmscan_steps _ _ _ _ _ _ _ Hsub) as (evs' & T' & F' & _).
      rewrite T', T, Hcommand, !launched_app. simpl.
      rewrite (launched_none evs'), (launched_none evs), app_nil_r; [reflexivity| |exact F'].
      apply (forallb_weaken _ _ _ (fun ev H => proj1 (andb_prop _ _ H)) F).
    + intros Hin. simpl in Hin. simpl.
      destruct Hin as [Hexe|[Hno|Hin]]; [now left | discriminate |].
      apply in_app_or in Hin as [Hin|[Hin|[Hin|[]]]].
      * right. apply in_or_app. now left.
      * right. apply in_or_app. right. now left.
      * discriminate.
  - unfold hmmsearch_command. destruct (multithreading_disabled (get_config W)); reflexivity.
Qed.

(** *** Order of the two paths *)

(** C9 (as amended): in [run_hmmscan] no step of the embedded search
    happens unless the process was launched on the query before and exited
    with code zero; in [run_hmmsearch] no step of it happens unless the
    process was launched before and exited, with whatever code, the exit
    code being looked at only after the embedded search. *)
Theorem shadow_search_follows_the_process
        (target_hmmfile query_hmmfile sequence : string)
        (opts : option (list string)) (results_file : option string)
        (use_tempfile : bool) (st : State TopHits) :
  (exists evs,
      trace (snd (run_hmmscan W target_hmmfile sequence opts results_file st))
      = (trace st ++ evs)%list
      /\ preceded_by is_shadow (exited_zero sequence) evs)
  /\
  (exists evs,
      trace (snd (run_hmmsearch W query_hmmfile sequence use_tempfile st))
      = (trace st ++ evs)%list
      /\ preceded_by is_shadow exited evs).
Proof.
  split.
  - destruct (Py.truthy sequence) eqn:Hq.
    + apply truthy_true in Hq.
      destruct (run_hmmscan_help W st) as [[help|e] st1] eqn:Hhelp.
      * destruct (run_hmmscan_help_emits (fun ev => negb (is_shadow ev))
                    (fun ev H => f_equal negb H) _ _ _ Hhelp) as (evs0 & T0 & F0).
        destruct (hmmscan_subprocess_steps target_hmmfile sequence help opts results_file
                    st st1 Hq Hhelp) as (o & st2 & evs & Hsub & T & F & Hret).
        destruct (run_hmmscan_steps _ _ _ _ _ _ _ Hsub) as (evs' & T' & _ & Hraise).
        set (launch := EvExecute (hmmscan_command (get_config W) help target_hmmfile opts)
                                 (Some sequence)
                                 (execute W (trace st1)
                                    (hmmscan_command (get_config W) help target_hmmfile opts)
                                    (Some sequence))) in *.
        exists ((evs0 ++ launch :: evs) ++ evs')%list. split.
        { rewrite T', T, T0, <- !app_assoc. reflexivity. }
        assert (Hquiet : forallb (fun ev => negb (is_shadow ev)) (evs0 ++ launch :: evs) = true).
        { rewrite forallb_app, F0. simpl.
          apply (forallb_weaken _ _ _ (fun ev H => proj2 (andb_prop _ _ H)) F). }
        destruct o as [result|e].
        -- destruct (Hret result eq_refl) as [Hanswer Hok].
           apply preceded_by_after; [exact Hquiet|].
           rewrite existsb_app. apply orb_true_iff. right.
           subst launch. rewrite Hanswer. simpl.
           now rewrite String.eqb_refl, Hok.
        -- rewrite (Hraise e eq_refl), app_nil_r.
           now apply preceded_by_none.
      * destruct (run_hmmscan_help_emits (fun ev => negb (is_shadow ev))
                    (fun ev H => f_equal negb H) _ _ _ Hhelp) as (evs0 & T0 & F0).
        assert (Hrun : run_hmmscan W target_hmmfile sequence opts results_file st
                       = (Raise e, st1)).
        { unfold run_hmmscan. apply truthy_true in Hq. rewrite Hq. cbn [negb].
          unfold bind at 1. now rewrite Hhelp. }
        exists evs0. rewrite Hrun. simpl.
        split; [exact T0|]. now apply preceded_by_none.
    + exists []. unfold run_hmmscan. rewrite Hq. simpl. rewrite app_nil_r.
      split; [reflexivity|]. now apply preceded_by_none.
  - destruct (hmmsearch_subprocess_steps
                (hmmsearch_command (get_config W) (os_devnull W) query_hmmfile)
                sequence use_tempfile (record EvEnterTmp st))
      as (o & st1 & evs & Hsub & T & F & Hret & _).
    destruct (run_hmmsearch_steps _ _ _ _ _ _ Hsub) as (evs' & T' & Hraise).
    exists ((EvEnterTmp :: evs) ++ evs')%list. split.
    { rewrite T', T, trace_record, <- !app_assoc. reflexivity. }
    destruct o as [result|e].
    + apply preceded_by_after; simpl; [exact F|]. exact (Hret result eq_refl).
    + rewrite (Hraise e eq_refl). apply preceded_by_none.
      rewrite forallb_app. simpl. now rewrite F.
Qed.

(** *** Empty queries *)

(** C2 (as amended): on an empty query [run_hmmscan] raises [ValueError]
    at once: nothing is written, nothing is launched, the state is as it
    was.  [run_hmmsearch] has no such check: reading from stdin, it launches
    the process on the empty input. *)
Theorem empty_query_is_rejected_by_hmmscan
        (target_hmmfile query_hmmfile : string)
        (opts : option (list string)) (results_file : option string)
        (st : State TopHits) :
  run_hmmscan W target_hmmfile "" opts results_file st
  = (Raise (ValueError "Cannot run hmmscan on empty sequence"), st)
  /\ exists answer,
      In (EvExecute (hmmsearch_command (get_config W) (os_devnull W) query_hmmfile
                       ++ ["-"])%list (Some "") answer)
         (trace (snd (run_hmmsearch W query_hmmfile "" false st))).
Proof.
  split; [reflexivity|].
  destruct (hmmsearch_subprocess_steps
              (hmmsearch_command (get_config W) (os_devnull W) query_hmmfile)
              "" false (record EvEnterTmp st))
    as (o & st1 & evs & Hsub & T & _ & _ & Hlaunch).
  destruct (Hlaunch eq_refl) as (answer & rest & ->).
  destruct (run_hmmsearch_steps _ _ _ _ _ _ Hsub) as (evs' & T' & _).
  exists answer. rewrite T', T.
  apply in_or_app. left. apply in_or_app. right. now left.
Qed.

End Searches.

(** * Runs in concrete worlds *)

Import Examples.

(** ** Counterexamples *)

(** C1 (counterexample): when the output file of the embedded search cannot
    be opened, or when the embedded search finds no hits at all,
    [run_hmmscan] raises that very error although the process exited with
    code zero, and nothing is logged at error level; in the same worlds
    [run_hmmsearch] returns the empty list or raises, where it returns a hit
    when the embedded search works. *)
Lemma shadow_failure_is_not_contained :
  fst (run_hmmscan W_shadow_io "models/test.hmm" query None None fresh)
  = Raise (OSError "No space left on device")
  /\ fst (run_hmmscan W_no_hits "models/test.hmm" query None None fresh)
     = Raise (IndexError "list index out of range")
  /\ existsb is_log_error
       (trace (snd (run_hmmscan W_shadow_io "models/test.hmm" query None None fresh)))
     = false
  /\ exit_codes (trace (snd (run_hmmscan W_shadow_io "models/test.hmm" query None None fresh)))
     = [0; 0]%Z
  /\ fst (run_hmmsearch W_ok "models/test.hmm" query true fresh) = Return ["hit1"]
  /\ fst (run_hmmsearch W_shadow_io "models/test.hmm" query true fresh) = Return []
  /\ fst (run_hmmsearch W_no_hits "models/test.hmm" query true fresh)
     = Raise (IndexError "list index out of range").
Proof. repeat split; vm_compute; reflexivity. Qed.

(** C2 (counterexample): on an empty query [run_hmmsearch] launches the
    process, and what it raises is the failure of that process, not an
    empty-input error. *)
Lemma hmmsearch_launches_on_empty_query :
  launched (trace (snd (run_hmmsearch W_fail "models/test.hmm" "" false fresh)))
  = [["hmmsearch"; "--cpu"; "4"; "-o"; "/dev/null"; "--domtblout"; "result.domtab";
      "models/test.hmm"; "-"]]
  /\ fst (run_hmmsearch W_fail "models/test.hmm" "" false fresh)
     = Raise (RuntimeError "Running hmmsearch failed.").
Proof. split; vm_compute; reflexivity. Qed.

(** C4 (counterexample): when its process exits with code 1,
    [run_hmmsearch] raises a message that carries neither the exit code, nor
    the classified diagnostic, nor any part of the query. *)
Lemma hmmsearch_error_is_generic :
  exit_codes (trace (snd (run_hmmsearch W_fail "models/test.hmm" query false fresh)))
  = [1%Z]
  /\ fst (run_hmmsearch W_fail "models/test.hmm" query false fresh)
     = Raise (RuntimeError "Running hmmsearch failed.")
  /\ Py.contains (Py.str 1) "Running hmmsearch failed." = false
  /\ Py.contains (_find_error (Py.splitlines complaint)) "Running hmmsearch failed." = false
  /\ Py.contains (Py.repr (Py.slice_to 100 query)) "Running hmmsearch failed." = false.
Proof. repeat split; vm_compute; reflexivity. Qed.

(** C5 (counterexample): the help text of the hmmsearch binary lacks
    [" --cpu "], and the command line of [run_hmmsearch] has [--cpu] and
    the worker count all the same. *)
Lemma hmmsearch_keeps_cpu_flag :
  execute W_ok [] ["hmmsearch"; "-h"] None = inr (mkRunResult 0 hmmsearch_help "")
  /\ Py.contains " --cpu " hmmsearch_help = false
  /\ launched (trace (snd (run_hmmsearch W_ok "models/test.hmm" query false fresh)))
     = [["hmmsearch"; "--cpu"; "4"; "-o"; "/dev/null"; "--domtblout"; "result.domtab";
         "models/test.hmm"; "-"]].
Proof. repeat split; vm_compute; reflexivity. Qed.

(** C6 (counterexample): two calls of [run_hmmsearch_version] launch two
    processes, and so do two calls of [run_hmmscan_help] on a binary that
    does not print the banner. *)
Lemma probes_run_again :
  launched (trace (snd (call_n 2 (run_hmmsearch_version W_ok) fresh)))
  = [["hmmsearch"; "-h"]; ["hmmsearch"; "-h"]]
  /\ launched (trace (snd (call_n 2 (run_hmmscan_help W_wrong_binary) fresh)))
     = [["hmmscan"; "-h"]; ["hmmscan"; "-h"]].
Proof. split; vm_compute; reflexivity. Qed.

(** C8 (counterexample): the process of [run_hmmsearch] exits with code
    zero and the parser finds a hit in [result.domtab], yet the call returns
    the empty list, because the embedded search raised [OSError]. *)
Lemma hmmsearch_drops_hits :
  let final := snd (run_hmmsearch W_shadow_io "models/test.hmm" query true fresh) in
  exit_codes (trace final) = [0%Z]
  /\ SearchIO_parse_file W_shadow_io (trace final) "result.domtab" "hmmsearch3-domtab"
     = inr ["hit1"]
  /\ fst (run_hmmsearch W_shadow_io "models/test.hmm" query true fresh) = Return [].
Proof. repeat split; vm_compute; reflexivity. Qed.

(** C9 (counterexample): the only process [run_hmmsearch] launched exited
    with code 1, and the embedded search ran after it. *)
Lemma hmmsearch_shadow_runs_after_failure :
  let final := snd (run_hmmsearch W_fail "models/test.hmm" query false fresh) in
  exit_codes (trace final) = [1%Z]
  /\ In (EvHmmsearch "models/test.hmm" "input_stdin_pyhmmer.fa") (trace final)
  /\ ~ preceded_by is_shadow (exited_zero query) (trace final).
Proof.
  split; [vm_compute; reflexivity|]. split.
  - vm_compute. do 6 right. now left.
  - intros H.
    specialize (H (firstn 4 (trace (snd (run_hmmsearch W_fail "models/test.hmm" query false
                                                        fresh))))
                  (EvHMMFile "models/test.hmm")
                  (skipn 5 (trace (snd (run_hmmsearch W_fail "models/test.hmm" query false
                                                      fresh))))).
    vm_compute in H. specialize (H eq_refl eq_refl). discriminate.
Qed.

(** C10 (counterexample): the process exits with code zero and the embedded
    search works, but [result.domtab] cannot be read: the [OSError] of the
    parse, raised inside the temporary-directory block, reaches the caller
    instead of an empty list. *)
Lemma hmmsearch_parse_oserror_reaches_the_caller :
  let final := snd (run_hmmsearch Worlds.W_unreadable "models/test.hmm" query false fresh) in
  fst (run_hmmsearch Worlds.W_unreadable "models/test.hmm" query false fresh)
  = Raise (OSError "No such file or directory")
  /\ exit_codes (trace final) = [0%Z]
  /\ hd_error (trace final) = Some EvEnterTmp
  /\ firstn 2 (rev (trace final))
     = [EvLeaveTmp; EvParseFile "result.domtab" "hmmsearch3-domtab"].
Proof. repeat split; vm_compute; reflexivity. Qed.

(** ** The theorems at work *)

(** C1: the embedded search fails after a successful process. *)
Lemma shadow_outcome_reaches_the_caller_witness :
  run_hmmscan W_shadow_io "models/test.hmm" query None None fresh
  = (Raise (OSError "No space left on device"),
     snd (pyhmmscan W_shadow_io "models/test.hmm" query
            (snd (hmmscan_subprocess W_shadow_io "models/test.hmm" query None None fresh))))
  /\ run_hmmsearch W_shadow_io "models/test.hmm" query true fresh
     = (Return [],
        record EvLeaveTmp
          (snd (hmmsearch_shadow W_shadow_io "models/test.hmm" query true
                  (snd (hmmsearch_subprocess W_shadow_io
                          (hmmsearch_command config "/dev/null" "models/test.hmm")
                          query true (record EvEnterTmp fresh))))))
  /\ exists evs,
      trace (snd (pyhmmscan W_shadow_io "models/test.hmm" query
                    (snd (hmmscan_subprocess W_shadow_io "models/test.hmm" query
                            None None fresh))))
      = (trace (snd (hmmscan_subprocess W_shadow_io "models/test.hmm" query
                       None None fresh)) ++ evs)%list
      /\ forallb (fun ev => negb (is_log ev)) evs = true.
Proof.
  split; [|split].
  - apply (proj1 (shadow_outcome_reaches_the_caller W_shadow_io
                    "models/test.hmm" "models/test.hmm" query None None true fresh
                    (snd (hmmscan_subprocess W_shadow_io "models/test.hmm" query None None
                            fresh))
                    _ (mkRunResult 0 report "") (Raise (OSError "No space left on device"))));
      vm_compute; reflexivity.
  - apply (proj1 (proj2 (shadow_outcome_reaches_the_caller W_shadow_io
                    "models/test.hmm" "models/test.hmm" query None None true fresh
                    (snd (hmmsearch_subprocess W_shadow_io
                            (hmmsearch_command config "/dev/null" "models/test.hmm")
                            query true (record EvEnterTmp fresh)))
                    _ (mkRunResult 0 report "") (Raise (OSError "No space left on device")))));
      vm_compute; reflexivity.
  - apply (proj1 (proj1 (proj2 (proj2 (proj2
             (shadow_outcome_reaches_the_caller W_shadow_io
                "models/test.hmm" "models/test.hmm" query None None true fresh fresh fresh
                (mkRunResult 0 report "") (Return tt))))))
             _ (OSError "No space left on device")).
    vm_compute; reflexivity.
Defined.

(** C4: the spec's scenario, exit code 1 and a two-line complaint. *)
Lemma nonzero_exit_is_reported_witness :
  fst (run_hmmscan W_fail "models/test.hmm" query None None fresh)
  = Raise (RuntimeError
             ("hmmscan returned 1: 'Error: file not found models/test.hmm'"
              ++ " while scanning '>seq1\nMKV\n'..."))
  /\ run_hmmsearch W_fail "models/test.hmm" query false fresh
     = (Raise (RuntimeError "Running hmmsearch failed."),
        record EvLeaveTmp
          (record (EvLogError ("hmmsearch returned 1: " ++ complaint
                                 ++ " while searching models/test.hmm"))
             (snd (hmmsearch_try W_fail
                     (hmmsearch_command config "/dev/null" "models/test.hmm")
                     "models/test.hmm" query false (record EvEnterTmp fresh)))))
  /\ run_hmmsearch Worlds.W_fail_twice "models/test.hmm" query false fresh
     = (Return [],
        record EvLeaveTmp
          (snd (hmmsearch_shadow Worlds.W_fail_twice "models/test.hmm" query false
                  (snd (hmmsearch_subprocess Worlds.W_fail_twice
                          (hmmsearch_command config "/dev/null" "models/test.hmm")
                          query false (record EvEnterTmp fresh)))))).
Proof.
  split; [|split].
  - apply (proj1 (nonzero_exit_is_reported W_fail "models/test.hmm" "models/test.hmm"
                    query hmmscan_help None None false fresh
                    (snd (run_hmmscan_help W_fail fresh)) fresh
                    (mkRunResult 1 "" complaint) (Return tt)));
      [discriminate | vm_compute; reflexivity | vm_compute; reflexivity | discriminate].
  - apply (proj1 (proj2 (nonzero_exit_is_reported W_fail "models/test.hmm"
                    "models/test.hmm" query hmmscan_help None None false fresh
                    (snd (hmmsearch_try W_fail
                            (hmmsearch_command config "/dev/null" "models/test.hmm")
                            "models/test.hmm" query false (record EvEnterTmp fresh)))
                    fresh (mkRunResult 1 "" complaint) (Return tt))));
      [vm_compute; reflexivity | discriminate].
  - apply (proj2 (proj2 (nonzero_exit_is_reported Worlds.W_fail_twice "models/test.hmm"
                    "models/test.hmm" query hmmscan_help None None false fresh
                    (snd (hmmsearch_subprocess Worlds.W_fail_twice
                            (hmmsearch_command config "/dev/null" "models/test.hmm")
                            query false (record EvEnterTmp fresh)))
                    (snd (hmmsearch_shadow Worlds.W_fail_twice "models/test.hmm" query false
                            (snd (hmmsearch_subprocess Worlds.W_fail_twice
                                    (hmmsearch_command config "/dev/null" "models/test.hmm")
                                    query false (record EvEnterTmp fresh)))))
                    (mkRunResult 1 "" complaint)
                    (Raise (OSError "No space left on device")))));
      [vm_compute; reflexivity | discriminate | vm_compute; reflexivity].
Defined.

(** C5: a binary whose help text does not mention [--cpu]. *)
Lemma cpu_flag_only_when_supported_witness :
  launched (trace (snd (run_hmmscan W_single "models/test.hmm" query (Some ["-E"; "0.1"])
                          None fresh)))
  = [["hmmscan"; "-h"]; ["hmmscan"; "--nobias"; "-E"; "0.1"; "models/test.hmm"; "-"]].
Proof.
  apply (proj1 (cpu_flag_only_when_supported W_single "models/test.hmm" "models/test.hmm"
                  query hmmscan_help_single (Some ["-E"; "0.1"]) None fresh
                  (snd (run_hmmscan_help W_single fresh))));
    [discriminate | vm_compute; reflexivity | vm_compute; reflexivity].
Defined.

(** C6: three calls of the probe on a working binary. *)
Lemma probe_is_cached_once_it_succeeds_witness :
  call_n 3 (run_hmmscan_help W_ok) fresh
  = ([Return hmmscan_help; Return hmmscan_help; Return hmmscan_help],
     snd (run_hmmscan_help W_ok fresh))
  /\ length (launched (trace (snd (run_hmmscan_help W_ok fresh)))) <= 1
  /\ length (launched (trace (snd (call_n 3 (run_hmmsearch_version W_ok) fresh)))) = 3.
Proof.
  pose proof (probe_is_cached_once_it_succeeds W_ok fresh
                (snd (run_hmmscan_help W_ok fresh)) hmmscan_help 3) as [Hscan Hsearch].
  destruct Hscan as [Hcalls Hlaunch]; [lia | vm_compute; reflexivity |].
  split; [exact Hcalls|]. split; [exact Hlaunch | exact Hsearch].
Defined.

(** C7: a binary that prints something else. *)
Lemma bad_banner_is_never_cached_witness :
  (fst (run_hmmscan_help W_wrong_binary fresh)
   = Raise (RuntimeError "unexpected output from hmmscan: hmmscan, check path")
   /\ cached_help_text (snd (run_hmmscan_help W_wrong_binary fresh)) = ""
   /\ launched (trace (snd (run_hmmscan_help W_wrong_binary
                              (snd (run_hmmscan_help W_wrong_binary fresh)))))
      = [["hmmscan"; "-h"]; ["hmmscan"; "-h"]])
  /\
  (fst (run_hmmsearch_version W_wrong_binary fresh)
   = Raise (RuntimeError "unexpected output from hmmsearch: hmmsearch, check path")
   /\ cached_help_text (snd (run_hmmsearch_version W_wrong_binary fresh)) = ""
   /\ launched (trace (snd (run_hmmsearch_version W_wrong_binary
                              (snd (run_hmmsearch_version W_wrong_binary fresh)))))
      = [["hmmsearch"; "-h"]; ["hmmsearch"; "-h"]]).
Proof.
  split.
  - apply (proj1 (bad_banner_is_never_cached W_wrong_binary fresh
                    (snd (run_hmmscan_help W_wrong_binary fresh))
                    (fst (run_hmmscan_help W_wrong_binary fresh))
                    ["hmmscan"; "-h"] (mkRunResult 0 "usage: something else" "")));
      vm_compute; reflexivity.
  - apply (proj2 (bad_banner_is_never_cached W_wrong_binary fresh
                    (snd (run_hmmsearch_version W_wrong_binary fresh))
                    (fst (run_hmmsearch_version W_wrong_binary fresh))
                    ["hmmsearch"; "-h"] (mkRunResult 0 "usage: something else" "")));
      vm_compute; reflexivity.
Defined.

(** C8: one hit in the output of a process that exited with code zero. *)
Lemma returned_hits_are_the_parse_witness :
  (return_code (mkRunResult 0 report "") = 0%Z
   /\ run_hmmscan W_ok "models/test.hmm" query None None fresh
      = (Return ["hit1"],
         snd (run_hmmscan W_ok "models/test.hmm" query None None fresh)))
  /\ (exists run_result st0,
         hmmscan_subprocess W_ok "models/test.hmm" query None None fresh
         = (Return run_result, st0)
         /\ return_code run_result = 0%Z
         /\ SearchIO_parse_text W_ok (stdout run_result) "hmmer3-text" = inr ["hit1"])
  /\ run_hmmsearch W_ok "models/test.hmm" query true fresh
     = (Return ["hit1"], snd (run_hmmsearch W_ok "models/test.hmm" query true fresh)).
Proof.
  pose proof (returned_hits_are_the_parse W_ok "models/test.hmm" "models/test.hmm" query
                None None true fresh
                (snd (hmmscan_subprocess W_ok "models/test.hmm" query None None fresh))
                (snd (run_hmmscan W_ok "models/test.hmm" query None None fresh))
                (mkRunResult 0 report "") ["hit1"]) as (Hscan & Hback & _).
  pose proof (returned_hits_are_the_parse W_ok "models/test.hmm" "models/test.hmm" query
                None None true fresh
                (snd (hmmsearch_try W_ok
                        (hmmsearch_command config "/dev/null" "models/test.hmm")
                        "models/test.hmm" query true (record EvEnterTmp fresh)))
                (snd (run_hmmscan W_ok "models/test.hmm" query None None fresh))
                (mkRunResult 0 report "") ["hit1"]) as (_ & _ & Hsearch).
  split; [|split].
  - apply Hscan; vm_compute; reflexivity.
  - apply Hback; vm_compute; reflexivity.
  - rewrite Hsearch; [vm_compute; reflexivity | vm_compute; reflexivity | reflexivity].
Defined.

(** C10: no hmmsearch binary at the configured path. *)
Lemma hmmsearch_oserror_gives_empty_list_witness :
  run_hmmsearch W_no_binary "models/test.hmm" query false fresh
  = (Return [],
     record EvLeaveTmp
       (snd (hmmsearch_try W_no_binary
               (hmmsearch_command config "/dev/null" "models/test.hmm")
               "models/test.hmm" query false (record EvEnterTmp fresh))))
  /\ run_hmmsearch Worlds.W_unreadable "models/test.hmm" query false fresh
     = (Raise (OSError "No such file or directory"),
        record EvLeaveTmp
          (record (EvParseFile "result.domtab" "hmmsearch3-domtab")
             (snd (hmmsearch_try Worlds.W_unreadable
                     (hmmsearch_command config "/dev/null" "models/test.hmm")
                     "models/test.hmm" query false (record EvEnterTmp fresh))))).
Proof.
  split.
  - apply (proj1 (hmmsearch_oserror_gives_empty_list W_no_binary "models/test.hmm" query
                    false fresh
                    (snd (hmmsearch_try W_no_binary
                            (hmmsearch_command config "/dev/null" "models/test.hmm")
                            "models/test.hmm" query false (record EvEnterTmp fresh)))
                    "No such file or directory" (mkRunResult 0 report "")
                    (OSError "No such file or directory"))).
    vm_compute; reflexivity.
  - apply (proj2 (hmmsearch_oserror_gives_empty_list Worlds.W_unreadable "models/test.hmm"
                    query false fresh
                    (snd (hmmsearch_try Worlds.W_unreadable
                            (hmmsearch_command config "/dev/null" "models/test.hmm")
                            "models/test.hmm" query false (record EvEnterTmp fresh)))
                    "No such file or directory" (mkRunResult 0 report "")
                    (OSError "No such file or directory")));
      [vm_compute; reflexivity | reflexivity | reflexivity].
Defined.

(** * Further properties *)

(** ** The classifier and the version fields *)

Section Texts.

Lemma prefix_split (p s : string) :
  String.prefix p s = true -> exists t, s = p ++ t.
Proof.
  revert s. induction p as [|a p IH]; intros s H.
  - exists s. reflexivity.
  - destruct s as [|b s]; simpl in H; [discriminate|].
    destruct (ascii_dec a b) as [->|]; [|discriminate].
    destruct (IH s H) as [t ->]. exists t. reflexivity.
Qed.

Lemma rstrip_cons (c : ascii) (r : string) :
  Py.isspace c = false -> Py.rstrip (String c r) = String c (Py.rstrip r).
Proof.
  intros Hc. simpl. rewrite Hc. destruct (Py.rstrip r); reflexivity.
Qed.

(** Trimming leaves the marker at the head of a marked line. *)
Lemma strip_marked (line : string) :
  Py.startswith line "Error:" = true ->
  exists t, Py.strip line = "Error:" ++ t.
Proof.
  intros H. apply prefix_split in H as [t ->].
  exists (Py.rstrip t). unfold Py.strip.
  change (Py.lstrip ("Error:" ++ t)) with ("Error:" ++ t).
  change ("Error:" ++ t) with
    (String "E" (String "r" (String "r" (String "o" (String "r" (String ":" t)))))).
  rewrite !rstrip_cons by reflexivity. reflexivity.
Qed.

(** X1: whatever the output of the tool, the diagnostic is not empty. *)
Theorem find_error_is_never_empty (output : list string) :
  _find_error output <> "".
Proof.
  unfold _find_error.
  pose proof (find_error_marked_spec [] output) as Hm. simpl in Hm.
  destruct (find_error_marked output 0 output) as [r|].
  - destruct Hm as (mid & line & tl & _ & _ & Hline & ->).
    destruct (strip_marked line Hline) as [t ->].
    destruct tl; discriminate.
  - pose proof (find_error_nonempty_spec output) as Hn.
    destruct (find_error_nonempty output) as [r|]; [|discriminate].
    destruct Hn as (pre & line & post & _ & _ & Hline & ->). exact Hline.
Qed.

Lemma unmarked_not_marked (output : list string) :
  Forall unmarked output -> marked output -> False.
Proof.
  intros Hall Hsome. unfold marked in Hsome.
  apply Exists_exists in Hsome as (line & Hin & Hline).
  rewrite Forall_forall in Hall. specialize (Hall line Hin).
  unfold unmarked in Hall. congruence.
Qed.

(** X2: as soon as some line of the output begins with [Error:], the
    diagnostic begins with [Error:], whatever comes before that line. *)
Theorem find_error_prefers_marked_lines (output : list string) :
  marked output ->
  Py.startswith (_find_error output) "Error:" = true.
Proof.
  intros Hmarked. unfold _find_error.
  pose proof (find_error_marked_spec [] output) as Hm. simpl in Hm.
  destruct (find_error_marked output 0 output) as [r|].
  - destruct Hm as (mid & line & tl & _ & _ & Hline & ->).
    destruct (strip_marked line Hline) as [t ->].
    destruct tl; unfold Py.startswith; rewrite ?append_assoc; apply prefix_append.
  - destruct (unmarked_not_marked output Hm Hmarked).
Qed.

(** *** Lines *)

Lemma single_line_snoc (s : string) (c : ascii) :
  single_line s -> Py.is_linebreak c = false -> single_line (Py.snoc s c).
Proof.
  unfold single_line, Py.snoc. intros Hs Hc.
  induction s as [|a s IH]; simpl in *.
  - now rewrite Hc.
  - apply andb_prop in Hs as [Ha Hs]. now rewrite Ha, IH.
Qed.

Lemma splitlines_from_single (after_cr : bool) (cur s : string) :
  single_line cur -> Forall single_line (Py.splitlines_from after_cr cur s).
Proof.
  revert after_cr cur. induction s as [|c s IH]; intros after_cr cur Hcur; simpl.
  - destruct (Py.truthy cur); auto.
  - destruct (after_cr && Ascii.eqb c Py.LF); [now apply IH|].
    destruct (Py.is_linebreak c) eqn:Hc.
    + constructor; [assumption|]. now apply IH.
    + apply IH. now apply single_line_snoc.
Qed.

Lemma single_line_lstrip (s : string) : single_line s -> single_line (Py.lstrip s).
Proof.
  unfold single_line. induction s as [|c s IH]; simpl; [auto|].
  intros H. destruct (Py.isspace c); [|exact H].
  apply andb_prop in H as [_ H]. now apply IH.
Qed.

Lemma single_line_rstrip (s : string) : single_line s -> single_line (Py.rstrip s).
Proof.
  unfold single_line. induction s as [|c s IH]; simpl; [auto|].
  intros H. apply andb_prop in H as [Hc H]. specialize (IH H).
  destruct (Py.rstrip s) as [|a r].
  - destruct (Py.isspace c); simpl; [reflexivity|]. now rewrite Hc.
  - simpl in *. now rewrite Hc, IH.
Qed.

Lemma single_line_strip (s : string) : single_line s -> single_line (Py.strip s).
Proof. intros H. now apply single_line_rstrip, single_line_lstrip. Qed.

Lemma single_line_append (a b : string) :
  single_line a -> single_line b -> single_line (a ++ b).
Proof.
  unfold single_line. intros Ha Hb. induction a as [|c a IH]; simpl in *; [assumption|].
  apply andb_prop in Ha as [Hc Ha]. now rewrite Hc, IH.
Qed.

Lemma find_error_single_line (lines : list string) :
  Forall single_line lines -> single_line (_find_error lines).
Proof.
  intros Hall. unfold _find_error.
  pose proof (find_error_marked_spec [] lines) as Hm. simpl in Hm.
  destruct (find_error_marked lines 0 lines) as [r|].
  - destruct Hm as (mid & line & tl & -> & _ & _ & ->).
    apply Forall_app in Hall as [_ Hall].
    inversion Hall as [|? ? Hline Htl]; subst.
    destruct tl as [|next tl].
    + now apply single_line_strip.
    + inversion Htl; subst.
      apply single_line_append; [now apply single_line_strip|].
      apply (single_line_append " "); [reflexivity|now apply single_line_strip].
  - pose proof (find_error_nonempty_spec lines) as Hn.
    destruct (find_error_nonempty lines) as [r|]; [|reflexivity].
    destruct Hn as (pre & line & post & -> & _ & _ & ->).
    apply Forall_app in Hall as [_ Hall]. inversion Hall; subst.
    now apply single_line_strip.
Qed.

(** X3: the diagnostic that [run_hmmscan] takes from the lines of what the
    tool printed never holds a line boundary: though it may join two lines
    of the output, it fits on one line of a log. *)
Theorem diagnostic_is_one_line (text : string) :
  single_line (_find_error (Py.splitlines text)).
Proof.
  apply find_error_single_line. now apply splitlines_from_single.
Qed.

(** *** Fields *)

Lemma no_space_snoc (s : string) (c : ascii) :
  forallb (fun c => negb (Py.isspace c)) (list_ascii_of_string s) = true ->
  Py.isspace c = false ->
  forallb (fun c => negb (Py.isspace c)) (list_ascii_of_string (Py.snoc s c)) = true.
Proof.
  unfold Py.snoc. intros Hs Hc. induction s as [|a s IH]; simpl in *.
  - now rewrite Hc.
  - apply andb_prop in Hs as [Ha Hs]. now rewrite Ha, IH.
Qed.

Lemma split_ws_from_tokens (cur s : string) :
  forallb (fun c => negb (Py.isspace c)) (list_ascii_of_string cur) = true ->
  Forall is_token (Py.split_ws_from cur s).
Proof.
  revert cur. induction s as [|c s IH]; intros cur Hcur; simpl.
  - destruct (Py.truthy cur) eqn:Ht; [|constructor].
    constructor; [|constructor]. split; [now apply truthy_true|assumption].
  - destruct (Py.isspace c) eqn:Hc.
    + destruct (Py.truthy cur) eqn:Ht.
      * constructor; [|now apply IH]. split; [now apply truthy_true|assumption].
      * now apply IH.
    + apply IH. now apply no_space_snoc.
Qed.

Lemma split_ws_tokens (s : string) : Forall is_token (Py.split_ws s).
Proof. now apply split_ws_from_tokens. Qed.

End Texts.

(** ** What a call keeps *)

Section Keeping.

Context {TopHits QueryResult : Type} (W : World TopHits QueryResult).
Variable R : State TopHits -> State TopHits -> Prop.
Hypothesis R_refl : forall st, R st st.
Hypothesis R_trans : forall a b c, R a b -> R b c -> R a c.
Hypothesis R_record : forall ev st, R st (record ev st).

Lemma keeps_ret {A : Type} (a : A) : keeps R (ret a).
Proof. intros st o st' H. inversion H; subst. apply R_refl. Qed.

Lemma keeps_raise {A : Type} (e : Exn) : keeps R (raise e : M TopHits A).
Proof. intros st o st' H. inversion H; subst. apply R_refl. Qed.

Lemma keeps_lift {A : Type} (r : Exn + A) :
  keeps R (fun st : State TopHits => (outcome_of r, st)).
Proof. intros st o st' H. inversion H; subst. apply R_refl. Qed.

Lemma keeps_bind {A B : Type} (m : M TopHits A) (k : A -> M TopHits B) :
  keeps R m -> (forall a, keeps R (k a)) -> keeps R (bind m k).
Proof.
  intros Hm Hk st o st' H. unfold bind in H.
  destruct (m st) as [[a|e] st1] eqn:E.
  - apply (R_trans _ st1); [exact (Hm _ _ _ E) | exact (Hk a _ _ _ H)].
  - inversion H; subst. exact (Hm _ _ _ E).
Qed.

Lemma keeps_call {A : Type} (ev : Event TopHits) (oracle : Trace TopHits -> Exn + A) :
  keeps R (call ev oracle).
Proof. intros st o st' H. inversion H; subst. apply R_record. Qed.

Lemma keeps_emit (ev : Event TopHits) : keeps R (emit ev).
Proof. intros st o st' H. inversion H; subst. apply R_record. Qed.

Lemma keeps_execute (command : list string) (stdin : option string) :
  keeps R (py_execute W command stdin).
Proof. intros st o st' H. inversion H; subst. apply R_record. Qed.

Lemma keeps_time : keeps R (py_time W).
Proof. intros st o st' H. inversion H; subst. apply R_refl. Qed.

Lemma keeps_get_help_text : keeps R (get_help_text : M TopHits string).
Proof. intros st o st' H. inversion H; subst. apply R_refl. Qed.

Lemma keeps_index {A : Type} (l : list A) (i : nat) : keeps R (index l i : M TopHits A).
Proof.
  unfold index. destruct (nth_error l i); [apply keeps_ret | apply keeps_raise].
Qed.

Lemma keeps_for_each {A : Type} (l : list A) (body : A -> M TopHits unit) :
  (forall x, keeps R (body x)) -> keeps R (for_each l body).
Proof.
  intros Hbody. induction l as [|x l IH]; simpl.
  - apply keeps_ret.
  - apply keeps_bind; auto.
Qed.

Lemma keeps_try {A B : Type} (body : M TopHits A) (on_error : B)
      (rest : A -> M TopHits B) :
  keeps R body -> (forall a, keeps R (rest a)) ->
  keeps R (try_except_OSError body on_error rest).
Proof.
  intros Hb Hr st o st' H. unfold try_except_OSError in H.
  destruct (body st) as [[a|e] st1] eqn:E.
  - apply (R_trans _ st1); [exact (Hb _ _ _ E) | exact (Hr a _ _ _ H)].
  - destruct (is_OSError e); inversion H; subst; exact (Hb _ _ _ E).
Qed.

Lemma keeps_tmp {A : Type} (body : M TopHits A) :
  keeps R body -> keeps R (with_TemporaryDirectory body).
Proof.
  intros Hb st o st' H. unfold with_TemporaryDirectory in H.
  destruct (body (record EvEnterTmp st)) as [result st1] eqn:E.
  inversion H; subst.
  apply (R_trans _ (record EvEnterTmp st)); [apply R_record|].
  apply (R_trans _ st1); [exact (Hb _ _ _ E) | apply R_record].
Qed.

End Keeping.

(** Walks through a program; [leaf] settles the steps that change the cache
    or a timer. *)
Ltac keeps_walk leaf :=
  repeat first
    [ assumption
    | apply keeps_bind
    | apply keeps_try
    | apply keeps_tmp
    | apply keeps_for_each
    | apply keeps_ret
    | apply keeps_raise
    | apply keeps_lift
    | apply keeps_call
    | apply keeps_emit
    | apply keeps_execute
    | apply keeps_time
    | apply keeps_get_help_text
    | apply keeps_index
    | leaf
    | match goal with
      | |- keeps _ (if ?b then _ else _) => destruct b
      | |- keeps _ (match ?x with _ => _ end) => destruct x
      end
    | progress intros ].

Section Kept.

Context {TopHits QueryResult : Type} (W : World TopHits QueryResult).

Lemma cache_step_refl (st : State TopHits) : cache_step st st.
Proof. now left. Qed.

Lemma cache_step_trans (a b c : State TopHits) :
  cache_step a b -> cache_step b c -> cache_step a c.
Proof.
  unfold cache_step. intros [Hab|[Ha Hb]] [Hbc|[Hb' Hc]].
  - left. congruence.
  - right. split; congruence.
  - right. split; congruence.
  - rewrite Hb' in Hb. discriminate.
Qed.

Lemma cache_step_record (ev : Event TopHits) (st : State TopHits) :
  cache_step st (record ev st).
Proof. now left. Qed.

Lemma cache_step_add_time (t : Timer) (d : Q) :
  keeps cache_step (add_time t d : M TopHits Q).
Proof. intros st o st' H. inversion H; subst. now left. Qed.

Lemma help_keeps_cache_step : keeps cache_step (run_hmmscan_help W).
Proof.
  intros st o st' H. destruct (Py.truthy (cached_help_text st)) eqn:Hc.
  - rewrite help_cached in H by assumption. inversion H; subst. now left.
  - rewrite help_uncached in H by assumption. cbv zeta in H.
    apply truthy_false in Hc.
    destruct (execute W (trace st) _ None) as [e|result].
    + inversion H; subst. now left.
    + destruct (Py.startswith (stdout result) "# hmmscan") eqn:Hb;
        inversion H; subst; [right; now split | now left].
Qed.

Lemma same_cache_add_time (t : Timer) (d : Q) :
  keeps (fun st st' => cached_help_text st' = cached_help_text st)
        (add_time t d : M TopHits Q).
Proof. intros st o st' H. now inversion H. Qed.

(** X4: the help text of hmmscan is cached once and only after the banner
    check: each function of [hmmscan.py] leaves the cached text as it was
    or fills an empty cache with a text that begins with [# hmmscan], and
    the functions of [hmmsearch.py] never touch it. *)
Theorem cache_is_filled_once_and_checked
        (target_hmmfile query_hmmfile sequence : string)
        (opts : option (list string)) (results_file : option string)
        (use_tempfile : bool) (st : State TopHits) :
  cache_step st (snd (run_hmmscan_help W st))
  /\ cache_step st (snd (run_hmmscan_version W st))
  /\ cache_step st (snd (run_hmmscan W target_hmmfile sequence opts results_file st))
  /\ cached_help_text (snd (run_hmmsearch W query_hmmfile sequence use_tempfile st))
     = cached_help_text st
  /\ cached_help_text (snd (run_hmmsearch_version W st)) = cached_help_text st.
Proof.
  pose proof cache_step_refl as Hrefl.
  pose proof cache_step_trans as Htrans.
  pose proof cache_step_record as Hrec.
  pose proof help_keeps_cache_step as Hhelp.
  assert (Hsame_refl : forall s : State TopHits, cached_help_text s = cached_help_text s)
    by reflexivity.
  assert (Hsame_trans : forall a b c : State TopHits,
             cached_help_text b = cached_help_text a ->
             cached_help_text c = cached_help_text b ->
             cached_help_text c = cached_help_text a) by (intros; congruence).
  assert (Hsame_rec : forall (ev : Event TopHits) (s : State TopHits),
             cached_help_text (record ev s) = cached_help_text s) by reflexivity.
  repeat split.
  - destruct (run_hmmscan_help W st) as [o st'] eqn:E. exact (Hhelp _ _ _ E).
  - assert (H : keeps cache_step (run_hmmscan_version W)).
    { unfold run_hmmscan_version. keeps_walk fail. }
    destruct (run_hmmscan_version W st) as [o st'] eqn:E. exact (H _ _ _ E).
  - assert (H : keeps cache_step
                  (run_hmmscan W target_hmmfile sequence opts results_file)).
    { unfold run_hmmscan, pyhmmscan, write_hits, write_text, logging_info.
      keeps_walk ltac:(apply cache_step_add_time). }
    destruct (run_hmmscan W _ _ _ _ st) as [o st'] eqn:E. exact (H _ _ _ E).
  - assert (H : keeps (fun s s' : State TopHits => cached_help_text s' = cached_help_text s)
                  (run_hmmsearch W query_hmmfile sequence use_tempfile)).
    { unfold run_hmmsearch, hmmsearch_try, pyhmmer_search_tempfile, pyhmmer_search_stdin,
        pyhmmer_search, write_hits, write_text, logging_info, logging_error.
      keeps_walk ltac:(apply same_cache_add_time). }
    destruct (run_hmmsearch W _ _ _ st) as [o st'] eqn:E. exact (H _ _ _ E).
  - assert (H : keeps (fun s s' : State TopHits => cached_help_text s' = cached_help_text s)
                  (run_hmmsearch_version W)).
    { unfold run_hmmsearch_version. keeps_walk fail. }
    destruct (run_hmmsearch_version W st) as [o st'] eqn:E. exact (H _ _ _ E).
Qed.

End Kept.

Section Timers.

Context {TopHits QueryResult : Type} (W : World TopHits QueryResult).

Lemma timer_kept_add_time (t t' : Timer) (d : Q) :
  t <> t' -> keeps (timer_kept t) (add_time t' d : M TopHits Q).
Proof.
  intros Ht st o st' H. inversion H; subst. unfold timer_kept. simpl.
  destruct t, t'; try reflexivity; contradiction.
Qed.

Lemma timer_kept_set_help_text (t : Timer) (text : string) :
  keeps (timer_kept t) (set_help_text text : M TopHits unit).
Proof. intros st o st' H. now inversion H. Qed.

(** X5: each timer belongs to one path.  [run_hmmscan] changes no timer but
    [hmmscan_time] and [pyhmmscan_time]; [run_hmmsearch] changes none but the
    two of its branch, [hmmsearch_time_1] and [pyhmmsearch_time_1] with a
    temporary file, [hmmsearch_time_2] and [pyhmmsearch_time_2] on stdin; the
    probes change none. *)
Theorem timers_belong_to_their_path
        (target_hmmfile query_hmmfile sequence : string)
        (opts : option (list string)) (results_file : option string)
        (t : Timer) (st : State TopHits) :
  (t <> hmmscan_time -> t <> pyhmmscan_time ->
   timers (snd (run_hmmscan W target_hmmfile sequence opts results_file st)) t
   = timers st t)
  /\ (t <> hmmsearch_time_1 -> t <> pyhmmsearch_time_1 ->
      timers (snd (run_hmmsearch W query_hmmfile sequence true st)) t = timers st t)
  /\ (t <> hmmsearch_time_2 -> t <> pyhmmsearch_time_2 ->
      timers (snd (run_hmmsearch W query_hmmfile sequence false st)) t = timers st t)
  /\ timers (snd (run_hmmscan_help W st)) t = timers st t
  /\ timers (snd (run_hmmscan_version W st)) t = timers st t
  /\ timers (snd (run_hmmsearch_version W st)) t = timers st t.
Proof.
  assert (Hrefl : forall s : State TopHits, timer_kept t s s) by reflexivity.
  assert (Htrans : forall a b c : State TopHits,
             timer_kept t a b -> timer_kept t b c -> timer_kept t a c).
  { unfold timer_kept. intros; congruence. }
  assert (Hrec : forall (ev : Event TopHits) (s : State TopHits),
             timer_kept t s (record ev s)) by reflexivity.
  assert (Hhelp : keeps (timer_kept t) (run_hmmscan_help W)).
  { unfold run_hmmscan_help. keeps_walk ltac:(apply timer_kept_set_help_text). }
  split; [|split; [|split; [|split; [|split]]]].
  - intros H1 H2.
    assert (H : keeps (timer_kept t)
                  (run_hmmscan W target_hmmfile sequence opts results_file)).
    { unfold run_hmmscan, pyhmmscan, write_hits, write_text, logging_info.
      keeps_walk ltac:(apply timer_kept_add_time; assumption). }
    destruct (run_hmmscan W _ _ _ _ st) as [o st'] eqn:E. exact (H _ _ _ E).
  - intros H1 H2.
    assert (H : keeps (timer_kept t) (run_hmmsearch W query_hmmfile sequence true)).
    { unfold run_hmmsearch, hmmsearch_try, pyhmmer_search_tempfile,
        pyhmmer_search, write_hits, write_text, logging_info, logging_error.
      keeps_walk ltac:(apply timer_kept_add_time; assumption). }
    destruct (run_hmmsearch W _ _ _ st) as [o st'] eqn:E. exact (H _ _ _ E).
  - intros H1 H2.
    assert (H : keeps (timer_kept t) (run_hmmsearch W query_hmmfile sequence false)).
    { unfold run_hmmsearch, hmmsearch_try, pyhmmer_search_stdin,
        pyhmmer_search, write_hits, write_text, logging_info, logging_error.
      keeps_walk ltac:(apply timer_kept_add_time; assumption). }
    destruct (run_hmmsearch W _ _ _ st) as [o st'] eqn:E. exact (H _ _ _ E).
  - destruct (run_hmmscan_help W st) as [o st'] eqn:E. exact (Hhelp _ _ _ E).
  - assert (H : keeps (timer_kept t) (run_hmmscan_version W)).
    { unfold run_hmmscan_version. keeps_walk fail. }
    destruct (run_hmmscan_version W st) as [o st'] eqn:E. exact (H _ _ _ E).
  - assert (H : keeps (timer_kept t) (run_hmmsearch_version W)).
    { unfold run_hmmsearch_version. keeps_walk fail. }
    destruct (run_hmmsearch_version W st) as [o st'] eqn:E. exact (H _ _ _ E).
Qed.

(** X6: a version that [run_hmmscan_version] or [run_hmmsearch_version]
    returns is one word: it is not empty and holds no whitespace. *)
Theorem version_is_one_word (st st' : State TopHits) (version : string) :
  (run_hmmscan_version W st = (Return version, st') -> is_token version)
  /\ (run_hmmsearch_version W st = (Return version, st') -> is_token version).
Proof.
  assert (Hfield : forall (line : string) (s s' : State TopHits),
             index (Py.split_ws line) 2 s = (Return version, s') -> is_token version).
  { intros line s s' H. unfold index in H.
    destruct (nth_error (Py.split_ws line) 2) as [field|] eqn:E; [|discriminate].
    inversion H; subst.
    pose proof (split_ws_tokens line) as Hall. rewrite Forall_forall in Hall.
    apply Hall. eapply nth_error_In; eassumption. }
  split; intros H.
  - unfold run_hmmscan_version, bind in H.
    destruct (run_hmmscan_help W st) as [[help|e] st1]; [|discriminate].
    destruct (index (Py.split Py.LF help) 1 st1) as [[line|e] st2]; [|discriminate].
    exact (Hfield _ _ _ H).
  - unfold run_hmmsearch_version, bind in H.
    destruct (py_execute W _ None st) as [[result|e] st1]; [|discriminate].
    destruct (negb (Py.startswith (stdout result) "# hmmsearch")); [discriminate|].
    destruct (index (Py.split Py.LF (stdout result)) 1 st1) as [[line|e] st2];
      [|discriminate].
    exact (Hfield _ _ _ H).
Qed.

End Timers.

(** ** Processes and files *)

Section Processes.

Context {TopHits QueryResult : Type} (W : World TopHits QueryResult).
Local Open Scope py_scope.

Lemma help_launches_at_most_once (st : State TopHits) :
  length (launched (trace (snd (run_hmmscan_help W st))))
  <= S (length (launched (trace st))).
Proof.
  destruct (Py.truthy (cached_help_text st)) eqn:Hc.
  - rewrite help_cached by assumption. simpl. lia.
  - rewrite help_uncached by assumption. cbv zeta.
    destruct (execute W (trace st) _ None) as [e|result]; simpl.
    + rewrite launched_app, length_app. simpl. lia.
    + destruct (Py.startswith (stdout result) "# hmmscan"); simpl;
        rewrite launched_app, length_app; simpl; lia.
Qed.

Lemma quiet_launches (evs : list (Event TopHits)) :
  forallb (fun ev => negb (is_execute ev) && negb (is_shadow ev)) evs = true ->
  launched evs = [].
Proof.
  intros H. apply launched_none.
  apply (forallb_weaken _ _ _ (fun ev Hev => proj1 (andb_prop _ _ Hev)) H).
Qed.

(** X7: once the help text is cached, [run_hmmscan] on a non-empty query
    launches exactly one process, the search, and takes the decision on
    [--cpu] from the cached text without asking the binary again. *)
Theorem warm_cache_saves_the_probe
        (target_hmmfile sequence : string)
        (opts : option (list string)) (results_file : option string)
        (st : State TopHits) :
  Py.truthy (cached_help_text st) = true ->
  sequence <> "" ->
  launched (trace (snd (run_hmmscan W target_hmmfile sequence opts results_file st)))
  = (launched (trace st)
       ++ [hmmscan_command (get_config W) (cached_help_text st) target_hmmfile opts])%list.
Proof.
  intros Hwarm Hq.
  destruct (hmmscan_subprocess_steps W target_hmmfile sequence (cached_help_text st)
              opts results_file st st Hq (help_cached W st Hwarm))
    as (o & st2 & evs & Hsub & T & F & _).
  destruct (run_hmmscan_steps W _ _ _ _ _ _ _ Hsub) as (evs' & T' & F' & _).
  rewrite T', T, !launched_app. simpl.
  now rewrite (launched_none evs' F'), (quiet_launches evs F), app_nil_r.
Qed.

Lemma hmmsearch_subprocess_launches (command : list string) (target_sequence : string)
      (use_tempfile : bool) (st : State TopHits) :
  length (launched (trace (snd (hmmsearch_subprocess W command target_sequence
                                                     use_tempfile st))))
  <= S (length (launched (trace st))).
Proof.
  unfold hmmsearch_subprocess. destruct use_tempfile.
  - unfold write_text. rewrite bind_call.
    destruct (open_write W _ _ _) as [e|[]]; simpl.
    + rewrite launched_app, length_app. simpl. lia.
    + rewrite bind_time, bind_execute.
      destruct (execute W _ _ None) as [e|result]; simpl.
      * rewrite !launched_app, !length_app. simpl. lia.
      * rewrite !launched_app, !length_app. simpl. lia.
  - rewrite bind_time, bind_execute.
    destruct (execute W _ _ (Some target_sequence)) as [e|result]; simpl.
    + rewrite !launched_app, !length_app. simpl. lia.
    + rewrite !launched_app, !length_app. simpl. lia.
Qed.

(** What follows the subprocess path in [run_hmmsearch] launches nothing. *)
Lemma run_hmmsearch_tail (P : Event TopHits -> bool)
      (query_hmmfile target_sequence : string) (use_tempfile : bool)
      (st st1 : State TopHits) (o : Outcome RunResult) :
  (forall ev, is_execute ev = false -> P ev = true) ->
  hmmsearch_subprocess W (hmmsearch_command (get_config W) (os_devnull W) query_hmmfile)
                       target_sequence use_tempfile (record EvEnterTmp st) = (o, st1) ->
  exists evs,
    trace (snd (run_hmmsearch W query_hmmfile target_sequence use_tempfile st))
    = (trace st1 ++ evs)%list
    /\ forallb P evs = true.
Proof.
  intros HP Hsub. rewrite run_hmmsearch_unfold. cbv zeta.
  unfold try_except_OSError. rewrite hmmsearch_try_split.
  unfold bind at 1. rewrite Hsub. destruct o as [result|e].
  - unfold bind.
    pose proof (hmmsearch_shadow_emits W P query_hmmfile target_sequence
                  use_tempfile (fun ev H _ _ => HP ev H)) as Hshadow.
    destruct (hmmsearch_shadow W _ _ _ st1) as [[[]|e] st2] eqn:E;
      destruct (Hshadow _ _ _ E) as (evs2 & T2 & F2).
    + unfold ret.
      pose proof (hmmsearch_finish_emits W P query_hmmfile result
                    (fun ev H _ => HP ev H)) as Hfinish.
      destruct (hmmsearch_finish W _ _ st2) as [answer st3] eqn:E3.
      destruct (Hfinish _ _ _ E3) as (evs3 & T3 & F3).
      exists (evs2 ++ evs3 ++ [EvLeaveTmp])%list. split.
      * simpl. rewrite T3, T2, <- !app_assoc. reflexivity.
      * rewrite !forallb_app, F2, F3. simpl. now rewrite (HP EvLeaveTmp eq_refl).
    + exists (evs2 ++ [EvLeaveTmp])%list. split.
      * destruct (is_OSError e); simpl; rewrite T2, <- !app_assoc; reflexivity.
      * rewrite forallb_app, F2. simpl. now rewrite (HP EvLeaveTmp eq_refl).
  - exists [EvLeaveTmp]. split.
    + destruct (is_OSError e); reflexivity.
    + simpl. now rewrite (HP EvLeaveTmp eq_refl).
Qed.

(** X8: no call retries.  [run_hmmscan] launches two processes at most, the
    probe and the search, and none on an empty query; [run_hmmsearch]
    launches one at most. *)
Theorem no_call_retries
        (target_hmmfile query_hmmfile sequence : string)
        (opts : option (list string)) (results_file : option string)
        (use_tempfile : bool) (st : State TopHits) :
  length (launched (trace (snd (run_hmmscan W target_hmmfile sequence opts
                                            results_file st))))
  <= length (launched (trace st)) + 2
  /\ launched (trace (snd (run_hmmscan W target_hmmfile "" opts results_file st)))
     = launched (trace st)
  /\ length (launched (trace (snd (run_hmmsearch W query_hmmfile sequence
                                                 use_tempfile st))))
     <= length (launched (trace st)) + 1.
Proof.
  split; [|split; [reflexivity|]].
  - destruct (Py.truthy sequence) eqn:Hq.
    + pose proof (help_launches_at_most_once st) as Hhelp.
      destruct (run_hmmscan_help W st) as [[help|e] st1] eqn:E; simpl in Hhelp.
      * apply truthy_true in Hq.
        destruct (hmmscan_subprocess_steps W target_hmmfile sequence help
                    opts results_file st st1 Hq E)
          as (o & st2 & evs & Hsub & T & F & _).
        destruct (run_hmmscan_steps W _ _ _ _ _ _ _ Hsub) as (evs' & T' & F' & _).
        rewrite T', T, !launched_app, !length_app. simpl.
        rewrite (launched_none evs' F'), (quiet_launches evs F). simpl. lia.
      * unfold run_hmmscan. rewrite Hq. cbn [negb]. unfold bind at 1. rewrite E.
        simpl. lia.
    + unfold run_hmmscan. rewrite Hq. simpl. lia.
  - pose proof (hmmsearch_subprocess_launches
                  (hmmsearch_command (get_config W) (os_devnull W) query_hmmfile)
                  sequence use_tempfile (record EvEnterTmp st)) as Hsub.
    destruct (hmmsearch_subprocess W _ sequence use_tempfile (record EvEnterTmp st))
      as [o st1] eqn:E.
    destruct (run_hmmsearch_tail (fun ev => negb (is_execute ev)) _ _ _ _ _ _
                (fun ev H => f_equal negb H) E) as (evs & T & F).
    rewrite T, launched_app, length_app, (launched_none evs F).
    cbn [snd] in Hsub.
    change (trace (record EvEnterTmp st)) with (trace st ++ [EvEnterTmp])%list in Hsub.
    rewrite launched_app, length_app in Hsub. simpl in *. lia.
Qed.

(** X9: with a binary that does not print the banner and nothing cached,
    [run_hmmscan] raises the error of the probe, and the probe is all it
    did: no search is launched, no file is written, no timer moves. *)
Theorem wrong_binary_stops_hmmscan
        (target_hmmfile sequence : string)
        (opts : option (list string)) (results_file : option string)
        (st : State TopHits) (result : RunResult) :
  sequence <> "" ->
  cached_help_text st = "" ->
  execute W (trace st) [hmmscan (executables (get_config W)); "-h"] None = inr result ->
  Py.startswith (stdout result) "# hmmscan" = false ->
  run_hmmscan W target_hmmfile sequence opts results_file st
  = (Raise (RuntimeError ("unexpected output from hmmscan: "
                            ++ hmmscan (executables (get_config W)) ++ ", check path")),
     record (EvExecute [hmmscan (executables (get_config W)); "-h"] None (inr result)) st).
Proof.
  intros Hq Hcold Hexec Hbanner.
  unfold run_hmmscan. apply truthy_true in Hq. rewrite Hq. cbn [negb].
  unfold bind at 1.
  rewrite help_uncached by (rewrite Hcold; reflexivity). cbv zeta.
  now rewrite Hexec, Hbanner.
Qed.

(** X10: [run_hmmscan] does not catch a failure to launch the search:
    whatever [execute] raises, an [OSError] for a missing binary included,
    reaches the caller, and nothing happens after the launch. *)
Theorem hmmscan_launch_failure_propagates
        (target_hmmfile sequence help : string)
        (opts : option (list string)) (results_file : option string)
        (st st1 : State TopHits) (e : Exn) :
  sequence <> "" ->
  run_hmmscan_help W st = (Return help, st1) ->
  execute W (trace st1) (hmmscan_command (get_config W) help target_hmmfile opts)
          (Some sequence) = inl e ->
  run_hmmscan W target_hmmfile sequence opts results_file st
  = (Raise e,
     record (EvExecute (hmmscan_command (get_config W) help target_hmmfile opts)
                       (Some sequence) (inl e)) st1).
Proof.
  intros Hq Hhelp Hexec.
  unfold run_hmmscan. apply truthy_true in Hq. rewrite Hq. cbn [negb].
  unfold bind at 1. rewrite Hhelp.
  now rewrite bind_time, bind_execute, Hexec.
Qed.



(** X12: [run_hmmsearch] enters its temporary directory first and leaves it
    last on every way out, return or exception, and does all the rest in
    between; [run_hmmscan] never changes directory. *)
Theorem temporary_directory_is_always_left
        (target_hmmfile query_hmmfile sequence : string)
        (opts : option (list string)) (results_file : option string)
        (use_tempfile : bool) (st : State TopHits) :
  (exists inside,
      trace (snd (run_hmmsearch W query_hmmfile sequence use_tempfile st))
      = (trace st ++ EvEnterTmp :: inside ++ [EvLeaveTmp])%list
      /\ forallb (fun ev => negb (is_tmp ev)) inside = true)
  /\ (exists evs,
         trace (snd (run_hmmscan W target_hmmfile sequence opts results_file st))
         = (trace st ++ evs)%list
         /\ forallb (fun ev => negb (is_tmp ev)) evs = true).
Proof.
  split.
  - rewrite run_hmmsearch_unfold. cbv zeta.
    assert (Hbody : emits (fun ev => negb (is_tmp ev))
                      (try_except_OSError
                         (hmmsearch_try W (hmmsearch_command (get_config W) (os_devnull W)
                                                             query_hmmfile)
                                        query_hmmfile sequence use_tempfile)
                         [] (hmmsearch_finish W query_hmmfile))).
    { unfold hmmsearch_try, hmmsearch_finish, pyhmmer_search_tempfile,
        pyhmmer_search_stdin, pyhmmer_search, write_hits, write_text,
        logging_info, logging_error.
      emits_walk. }
    destruct (try_except_OSError _ _ _ (record EvEnterTmp st)) as [o st1] eqn:E.
    destruct (Hbody _ _ _ E) as (inside & T & F).
    exists inside. split; [|exact F].
    simpl. rewrite T, trace_record, <- !app_assoc. reflexivity.
  - apply emits_snd.
    unfold run_hmmscan, run_hmmscan_help, pyhmmscan, write_hits, write_text,
      logging_info.
    emits_walk.
Qed.

Lemma preceded_by_cons_other (P Q : Event TopHits -> bool) (ev : Event TopHits)
      (evs : Trace TopHits) :
  P ev = false -> preceded_by P Q evs -> preceded_by P Q (ev :: evs).
Proof.
  intros Hev H pre x post Heq HP.
  destruct pre as [|y pre]; simpl in Heq; inversion Heq; subst.
  - congruence.
  - simpl. rewrite (H pre x post eq_refl HP). apply orb_true_r.
Qed.

(** X13: with a temporary file, [run_hmmsearch] launches the process only
    after [input.fa] was written with the target sequence; when that write
    fails, no process is launched, and the call returns the empty list for
    an [OSError] and raises the exception otherwise. *)
Theorem tempfile_is_written_before_the_launch
        (query_hmmfile sequence : string) (st : State TopHits) (e : Exn) :
  (exists evs,
      trace (snd (run_hmmsearch W query_hmmfile sequence true st))
      = (trace st ++ evs)%list
      /\ preceded_by is_execute (wrote "input.fa" sequence) evs)
  /\ (open_write W (trace st ++ [EvEnterTmp])%list "input.fa" sequence = inl e ->
      run_hmmsearch W query_hmmfile sequence true st
      = (if is_OSError e then Return [] else Raise e,
         record EvLeaveTmp
           (record (EvWriteText "input.fa" sequence) (record EvEnterTmp st)))).
Proof.
  split.
  - destruct (hmmsearch_subprocess W
                (hmmsearch_command (get_config W) (os_devnull W) query_hmmfile)
                sequence true (record EvEnterTmp st)) as [o st1] eqn:Hsub.
    destruct (run_hmmsearch_tail (fun ev => negb (is_execute ev)) _ _ _ _ _ _
                (fun ev H => f_equal negb H) Hsub) as (evs' & T' & F').
    assert (Hhead : exists evs1,
               trace st1 = (trace st ++ EvEnterTmp :: EvWriteText "input.fa" sequence
                                     :: evs1)%list).
    { unfold hmmsearch_subprocess, write_text in Hsub. rewrite bind_call in Hsub.
      destruct (open_write W _ _ _) as [err|[]].
      - inversion Hsub; subst. exists []. simpl. now rewrite <- app_assoc.
      - rewrite bind_time, bind_execute in Hsub.
        destruct (execute W _ _ None) as [err|result].
        + inversion Hsub; subst. eexists [_]. simpl. now rewrite <- !app_assoc.
        + rewrite bind_time, bind_add_time in Hsub. unfold logging_info in Hsub.
          rewrite bind_emit in Hsub. inversion Hsub; subst.
          eexists [_; _]. simpl. now rewrite <- !app_assoc. }
    destruct Hhead as (evs1 & T).
    exists (EvEnterTmp :: ([EvWriteText "input.fa" sequence] ++ (evs1 ++ evs')))%list.
    split.
    + rewrite T', T, <- !app_assoc. reflexivity.
    + apply preceded_by_cons_other; [reflexivity|].
      apply preceded_by_after; [reflexivity|].
      simpl. now rewrite !String.eqb_refl.
  - intros Hwrite.
    rewrite (run_hmmsearch_after_try W _ _ _ _
               (record (EvWriteText "input.fa" sequence) (record EvEnterTmp st))
               (Raise e)); [reflexivity|].
    unfold hmmsearch_try, write_text. rewrite bind_call.
    change (trace (record EvEnterTmp st)) with (trace st ++ [EvEnterTmp])%list.
    now rewrite Hwrite.
Qed.

Lemma filter_none {A : Type} (P : A -> bool) (l : list A) :
  forallb (fun x => negb (P x)) l = true -> filter P l = [].
Proof.
  induction l as [|x l IH]; simpl; [reflexivity|].
  intros H. apply andb_prop in H as [Hx Hl].
  destruct (P x); [discriminate|]. now apply IH.
Qed.

Lemma hmmsearch_subprocess_result (command : list string) (target_sequence : string)
      (use_tempfile : bool) (st st1 : State TopHits) (o : Outcome RunResult) :
  hmmsearch_subprocess W command target_sequence use_tempfile st = (o, st1) ->
  exists evs,
    trace st1 = (trace st ++ evs)%list
    /\ forallb (fun ev => negb (is_parse ev)) evs = true
    /\ (forall result, o = Return result -> successful result = true ->
                       existsb exited_ok evs = true).
Proof.
  unfold hmmsearch_subprocess. destruct use_tempfile.
  - unfold write_text. rewrite bind_call.
    destruct (open_write W _ _ _) as [e|[]].
    + intros H. inversion H; subst. eexists [_].
      split; [reflexivity|]. split; [reflexivity|]. discriminate.
    + rewrite bind_time, bind_execute.
      destruct (execute W _ _ None) as [e|result].
      * intros H. inversion H; subst. eexists [_; _].
        split; [simpl; now rewrite <- app_assoc|]. split; [reflexivity|]. discriminate.
      * rewrite bind_time, bind_add_time. unfold logging_info. rewrite bind_emit.
        intros H. inversion H; subst. eexists [_; _; _].
        split; [simpl; now rewrite <- !app_assoc|]. split; [reflexivity|].
        intros r Hr Hok. inversion Hr; subst. simpl. now rewrite Hok.
  - rewrite bind_time, bind_execute.
    destruct (execute W _ _ (Some target_sequence)) as [e|result].
    + intros H. inversion H; subst. eexists [_].
      split; [reflexivity|]. split; [reflexivity|]. discriminate.
    + rewrite bind_time, bind_add_time. unfold logging_info. rewrite bind_emit.
      intros H. inversion H; subst. eexists [_; _].
      split; [simpl; now rewrite <- !app_assoc|]. split; [reflexivity|].
      intros r Hr Hok. inversion Hr; subst. simpl. now rewrite Hok.
Qed.

(** X14: [run_hmmsearch] reads [result.domtab] once at most, and only after
    the process has exited with code zero. *)
Theorem domtab_is_read_only_after_success
        (query_hmmfile sequence : string) (use_tempfile : bool) (st : State TopHits) :
  exists evs,
    trace (snd (run_hmmsearch W query_hmmfile sequence use_tempfile st))
    = (trace st ++ evs)%list
    /\ preceded_by is_parse exited_ok evs
    /\ length (filter is_parse evs) <= 1.
Proof.
  destruct (hmmsearch_subprocess W
              (hmmsearch_command (get_config W) (os_devnull W) query_hmmfile)
              sequence use_tempfile (record EvEnterTmp st)) as [o st1] eqn:Hsub.
  destruct (hmmsearch_subprocess_result _ _ _ _ _ _ Hsub) as (evs1 & T1 & F1 & Hok).
  rewrite run_hmmsearch_unfold. cbv zeta.
  unfold try_except_OSError. rewrite hmmsearch_try_split.
  unfold bind at 1. rewrite Hsub.
  destruct o as [result|e].
  - unfold bind.
    pose proof (hmmsearch_shadow_emits W (fun ev => negb (is_parse ev)) query_hmmfile
                  sequence use_tempfile (fun ev _ H _ => f_equal negb H)) as Hshadow.
    destruct (hmmsearch_shadow W _ _ _ st1) as [[[]|e] st2] eqn:E;
      destruct (Hshadow _ _ _ E) as (evs2 & T2 & F2).
    + unfold ret, hmmsearch_finish.
      assert (Hquiet : forallb (fun ev : Event TopHits => negb (is_parse ev))
                         (EvEnterTmp :: evs1 ++ evs2) = true).
      { simpl. now rewrite forallb_app, F1, F2. }
      destruct (successful result) eqn:Hcode; cbn [negb].
      * exists ((EvEnterTmp :: evs1 ++ evs2)
                  ++ [EvParseFile "result.domtab" "hmmsearch3-domtab"; EvLeaveTmp])%list.
        split; [|split].
        -- unfold call. simpl. rewrite T2, T1. simpl. rewrite <- !app_assoc. reflexivity.
        -- apply preceded_by_after; [exact Hquiet|].
           simpl. rewrite existsb_app, (Hok result eq_refl Hcode). reflexivity.
        -- rewrite filter_app, (filter_none _ _ Hquiet). simpl. lia.
      * exists ((EvEnterTmp :: evs1 ++ evs2)
                  ++ [EvLogError (hmmsearch_error_log result query_hmmfile);
                      EvLeaveTmp])%list.
        split; [|split].
        -- unfold logging_error. rewrite bind_emit. simpl. rewrite T2, T1. simpl.
           rewrite <- !app_assoc. reflexivity.
        -- apply preceded_by_none. rewrite forallb_app, Hquiet. reflexivity.
        -- rewrite filter_app, (filter_none _ _ Hquiet). simpl. lia.
    + exists ((EvEnterTmp :: evs1 ++ evs2) ++ [EvLeaveTmp])%list.
      assert (Hquiet : forallb (fun ev : Event TopHits => negb (is_parse ev))
                         ((EvEnterTmp :: evs1 ++ evs2) ++ [EvLeaveTmp]) = true).
      { simpl. now rewrite !forallb_app, F1, F2. }
      split; [|split].
      * destruct (is_OSError e); simpl; rewrite T2, T1; simpl;
          rewrite <- !app_assoc; reflexivity.
      * now apply preceded_by_none.
      * rewrite (filter_none _ _ Hquiet). simpl. lia.
  - exists ((EvEnterTmp :: evs1) ++ [EvLeaveTmp])%list.
    assert (Hquiet : forallb (fun ev : Event TopHits => negb (is_parse ev))
                       ((EvEnterTmp :: evs1) ++ [EvLeaveTmp]) = true).
    { simpl. now rewrite !forallb_app, F1. }
    split; [|split].
    + destruct (is_OSError e); simpl; rewrite T1; simpl;
        rewrite <- !app_assoc; reflexivity.
    + now apply preceded_by_none.
    + rewrite (filter_none _ _ Hquiet). simpl. lia.
Qed.

Lemma for_each_hit_writes (path : string) (others : list TopHits) (st : State TopHits) :
  exists n,
    trace (snd (for_each others
                  (fun hit => call (EvHitsWrite path hit false)
                                   (fun h => TopHits_write W h path hit false)) st))
    = (trace st ++ firstn n (map (fun hit => EvHitsWrite path hit false) others))%list.
Proof.
  revert st. induction others as [|hit others IH]; intros st.
  - exists 0. simpl. now rewrite app_nil_r.
  - cbn [for_each]. rewrite bind_call.
    destruct (TopHits_write W (trace st) path hit false) as [e|[]].
    + exists 1. reflexivity.
    + destruct (IH (record (EvHitsWrite path hit false) st)) as (n & T).
      exists (S n). rewrite T. simpl. now rewrite <- app_assoc.
Qed.

Lemma for_each_hit_writes_done (path : string) (others : list TopHits)
      (st : State TopHits) :
  (forall h hit header, TopHits_write W h path hit header = inr tt) ->
  let final := for_each others
                 (fun hit => call (EvHitsWrite path hit false)
                                  (fun h => TopHits_write W h path hit false)) st in
  fst final = Return tt
  /\ trace (snd final)
     = (trace st ++ map (fun hit => EvHitsWrite path hit false) others)%list.
Proof.
  intros Hok. revert st. induction others as [|hit others IH]; intros st.
  - simpl. now rewrite app_nil_r.
  - cbn [for_each]. cbv zeta. rewrite bind_call, Hok.
    destruct (IH (record (EvHitsWrite path hit false) st)) as (Hret & T).
    split; [exact Hret|]. rewrite T. simpl. now rewrite <- app_assoc.
Qed.

Lemma extend_record (ev : Event TopHits) (st : State TopHits) (evs : Trace TopHits) :
  extend (record ev st) evs = extend st (ev :: evs).
Proof. unfold extend. simpl. now rewrite <- app_assoc. Qed.

(** The loop over the other hits stops at the first write that fails. *)
Lemma for_each_first_failure (path : string) (others : list TopHits)
      (st : State TopHits) :
  for_each others
    (fun hit => call (EvHitsWrite path hit false)
                     (fun h => TopHits_write W h path hit false)) st
  = match first_failure W (trace st)
                        (map (fun hit => EvHitsWrite path hit false) others) with
    | None => (Return tt, extend st (map (fun hit => EvHitsWrite path hit false) others))
    | Some (k, e) =>
        (Raise e,
         extend st (firstn (S k) (map (fun hit => EvHitsWrite path hit false) others)))
    end.
Proof.
  revert st. induction others as [|hit others IH]; intros st.
  - simpl. unfold ret, extend. rewrite app_nil_r. now destruct st.
  - cbn [for_each map first_failure write_answer]. rewrite bind_call.
    destruct (TopHits_write W (trace st) path hit false) as [e|[]]; [reflexivity|].
    rewrite IH. change (trace (record (EvHitsWrite path hit false) st))
      with (trace st ++ [EvHitsWrite path hit false])%list.
    destruct (first_failure W _ _) as [[k e]|]; now rewrite extend_record.
Qed.

(** X15: the hits of the embedded search are written in their order, the
    header with the first one only, and the writing stops at the first
    write that fails: the exception of that write is raised and no later
    hit is written; with no hit at all it raises [IndexError] and writes
    nothing; when no write fails every hit is written. *)
Theorem hits_are_written_header_first
        (path : string) (hits_list : list TopHits) (st : State TopHits) :
  (hits_list <> [] ->
   write_hits W path hits_list st
   = match first_failure W (trace st) (hit_writes path hits_list) with
     | None => (Return tt, extend st (hit_writes path hits_list))
     | Some (k, e) => (Raise e, extend st (firstn (S k) (hit_writes path hits_list)))
     end)
  /\
  (exists n,
      trace (snd (write_hits W path hits_list st))
      = (trace st ++ firstn n (hit_writes path hits_list))%list)
  /\ write_hits W path [] st = (Raise (IndexError "list index out of range"), st)
  /\ ((forall h hit header, TopHits_write W h path hit header = inr tt) ->
      hits_list <> [] ->
      fst (write_hits W path hits_list st) = Return tt
      /\ trace (snd (write_hits W path hits_list st))
         = (trace st ++ hit_writes path hits_list)%list).
Proof.
  split; [|split; [|split; [reflexivity|]]].
  - intros Hsome. destruct hits_list as [|first others]; [contradiction|].
    unfold write_hits, index. cbn [nth_error skipn]. rewrite bind_ret, bind_call.
    cbn [hit_writes first_failure write_answer].
    destruct (TopHits_write W (trace st) path first true) as [e|[]]; [reflexivity|].
    rewrite for_each_first_failure.
    change (trace (record (EvHitsWrite path first true) st))
      with (trace st ++ [EvHitsWrite path first true])%list.
    destruct (first_failure W _ _) as [[k e]|]; now rewrite extend_record.
  - destruct hits_list as [|first others].
    + exists 0. simpl. now rewrite app_nil_r.
    + unfold write_hits, index. cbn [nth_error skipn]. rewrite bind_ret, bind_call.
      destruct (TopHits_write W (trace st) path first true) as [e|[]].
      * exists 1. reflexivity.
      * destruct (for_each_hit_writes path others
                    (record (EvHitsWrite path first true) st)) as (n & T).
        exists (S n). rewrite T. simpl. now rewrite <- app_assoc.
  - intros Hok Hsome. destruct hits_list as [|first others]; [contradiction|].
    unfold write_hits, index. cbn [nth_error skipn]. rewrite bind_ret, bind_call, Hok.
    destruct (for_each_hit_writes_done path others
                (record (EvHitsWrite path first true) st) Hok) as (Hret & T).
    split; [exact Hret|]. rewrite T. simpl. now rewrite <- app_assoc.
Qed.

(** The subprocess path of [run_hmmscan] touches no file unless the search
    exited with code zero. *)
Lemma hmmscan_subprocess_files (target_hmmfile query_sequence help : string)
      (opts : option (list string)) (results_file : option string)
      (st st1 : State TopHits) :
  query_sequence <> "" ->
  run_hmmscan_help W st = (Return help, st1) ->
  exists o st2 launch evs,
    hmmscan_subprocess W target_hmmfile query_sequence opts results_file st = (o, st2)
    /\ trace st2 = (trace st1 ++ launch :: evs)%list
    /\ is_write launch || is_shadow launch = false
    /\ (exited_zero query_sequence launch = true
        \/ (evs = [] \/ exists label value, evs = [EvLogInfo label value])
           /\ exists e, o = Raise e).
Proof.
  intros Hq Hhelp.
  unfold hmmscan_subprocess. apply truthy_true in Hq. rewrite Hq. cbn [negb].
  unfold bind at 1. rewrite Hhelp.
  set (command := hmmscan_command (get_config W) help target_hmmfile opts).
  rewrite bind_time, bind_execute.
  destruct (execute W _ _ _) as [e|result] eqn:Hanswer.
  - do 2 eexists. eexists (EvExecute command (Some query_sequence) (inl e)), [].
    split; [reflexivity|]. split; [reflexivity|]. split; [reflexivity|].
    right. split; [now left|]. now exists e.
  - rewrite bind_time, bind_add_time. unfold logging_info. rewrite bind_emit.
    destruct (successful result) eqn:Hok; cbn [negb].
    + destruct (match results_file with
                | Some path => write_text W path (stdout result)
                | None => ret tt
                end ;; ret result)%py as [o st2] eqn:E.
      * assert (Hrest : emits (fun _ => true)
                          (match results_file with
                           | Some path => write_text W path (stdout result)
                           | None => ret tt
                           end ;; ret result)%py).
        { unfold write_text. emits_walk. }
        destruct (Hrest _ _ _ E) as (evs & T & _).
        exists o, st2, (EvExecute command (Some query_sequence) (inr result)).
        eexists (_ :: evs).
        split; [reflexivity|]. split.
        { rewrite T. simpl. rewrite <- !app_assoc. reflexivity. }
        split; [reflexivity|].
        left. simpl. now rewrite String.eqb_refl, Hok.
    + do 2 eexists.
      eexists (EvExecute command (Some query_sequence) (inr result)), [_].
      split; [reflexivity|]. split; [simpl; now rewrite <- !app_assoc|].
      split; [reflexivity|].
      right. split; [right; eauto | eauto].
Qed.

(** X16: [run_hmmscan] touches no file before the search has exited with
    code zero: neither the results file, nor the query file and the output
    file of the embedded search. *)
Theorem hmmscan_touches_files_only_after_success
        (target_hmmfile sequence : string)
        (opts : option (list string)) (results_file : option string)
        (st : State TopHits) :
  exists evs,
    trace (snd (run_hmmscan W target_hmmfile sequence opts results_file st))
    = (trace st ++ evs)%list
    /\ preceded_by (fun ev => is_write ev || is_shadow ev) (exited_zero sequence) evs.
Proof.
  assert (Hhelp_quiet : emits (fun ev : Event TopHits => negb (is_write ev || is_shadow ev))
                          (run_hmmscan_help W)).
  { unfold run_hmmscan_help. emits_walk. }
  destruct (Py.truthy sequence) eqn:Hq.
  - apply truthy_true in Hq.
    destruct (run_hmmscan_help W st) as [[help|e] st1] eqn:Hhelp;
      destruct (Hhelp_quiet _ _ _ Hhelp) as (evs0 & T0 & F0).
    + destruct (hmmscan_subprocess_files target_hmmfile sequence help opts results_file
                  st st1 Hq Hhelp) as (o & st2 & launch & evs & Hsub & T & Hl & Hcase).
      destruct (run_hmmscan_steps W _ _ _ _ _ _ _ Hsub) as (evs' & T' & _ & Hraise).
      exists ((evs0 ++ [launch]) ++ evs ++ evs')%list. split.
      { rewrite T', T, T0, <- !app_assoc. reflexivity. }
      destruct Hcase as [Hzero|[Hevs [e He]]].
      * apply preceded_by_after.
        -- rewrite forallb_app, F0. simpl. now rewrite Hl.
        -- rewrite existsb_app. simpl. rewrite Hzero. now rewrite orb_true_r.
      * rewrite (Hraise e He), app_nil_r. apply preceded_by_none.
        rewrite !forallb_app, F0. simpl. rewrite Hl.
        destruct Hevs as [->|(label & value & ->)]; reflexivity.
    + assert (Hrun : run_hmmscan W target_hmmfile sequence opts results_file st
                     = (Raise e, st1)).
      { unfold run_hmmscan. apply truthy_true in Hq. rewrite Hq. cbn [negb].
        unfold bind at 1. now rewrite Hhelp. }
      exists evs0. rewrite Hrun. split; [exact T0|]. now apply preceded_by_none.
  - exists []. unfold run_hmmscan. rewrite Hq. simpl. rewrite app_nil_r.
    split; [reflexivity|]. now apply preceded_by_none.
Qed.


Lemma hmmsearch_subprocess_commands (command : list string) (target_sequence : string)
      (use_tempfile : bool) (st : State TopHits) :
  let final := snd (hmmsearch_subprocess W command target_sequence use_tempfile st) in
  if use_tempfile
  then launched (trace final) = launched (trace st)
       \/ launched (trace final) = (launched (trace st) ++ [command ++ ["input.fa"]])%list
  else launched (trace final) = (launched (trace st) ++ [command ++ ["-"]])%list.
Proof.
  unfold hmmsearch_subprocess. destruct use_tempfile; cbv zeta.
  - unfold write_text. rewrite bind_call.
    destruct (open_write W _ _ _) as [e|[]]; simpl.
    + left. rewrite launched_app. simpl. now rewrite app_nil_r.
    + right. rewrite bind_time, bind_execute.
      destruct (execute W _ _ None) as [e|result]; simpl;
        rewrite !launched_app; simpl; rewrite ?app_nil_r; reflexivity.
  - rewrite bind_time, bind_execute.
    destruct (execute W _ _ (Some target_sequence)) as [e|result]; simpl;
      rewrite !launched_app; simpl; rewrite ?app_nil_r; reflexivity.
Qed.

(** X17: reading from stdin, [run_hmmsearch] launches exactly one process,
    with [-] as the last argument; with a temporary file it launches none
    (the input could not be written) or one, with [input.fa] as the last
    argument.  In both cases the arguments before are the ones built from
    the configuration. *)
Theorem hmmsearch_launches_its_command
        (query_hmmfile sequence : string) (use_tempfile : bool) (st : State TopHits) :
  let command := hmmsearch_command (get_config W) (os_devnull W) query_hmmfile in
  let final := snd (run_hmmsearch W query_hmmfile sequence use_tempfile st) in
  if use_tempfile
  then launched (trace final) = launched (trace st)
       \/ launched (trace final) = (launched (trace st) ++ [command ++ ["input.fa"]])%list
  else launched (trace final) = (launched (trace st) ++ [command ++ ["-"]])%list.
Proof.
  intros command final.
  pose proof (hmmsearch_subprocess_commands command sequence use_tempfile
                (record EvEnterTmp st)) as Hsub.
  destruct (hmmsearch_subprocess W command sequence use_tempfile (record EvEnterTmp st))
    as [o st1] eqn:E.
  destruct (run_hmmsearch_tail (fun ev => negb (is_execute ev)) _ _ _ _ _ _
              (fun ev H => f_equal negb H) E) as (evs & T & F).
  assert (Hfinal : launched (trace final) = launched (trace st1)).
  { unfold final. rewrite T, launched_app, (launched_none evs F). apply app_nil_r. }
  cbv zeta in Hsub. cbn [snd] in Hsub.
  change (trace (record EvEnterTmp st)) with (trace st ++ [EvEnterTmp])%list in Hsub.
  rewrite launched_app in Hsub. simpl in Hsub. rewrite app_nil_r in Hsub.
  rewrite Hfinal. exact Hsub.
Qed.

End Processes.

(** ** The further properties at work *)

Import Worlds.

(** X2: a warning, then a marked line and its continuation. *)
Lemma find_error_prefers_marked_lines_witness :
  Py.startswith (_find_error ["warning: slow disk"; "Error: file not found"; "  x.hmm"])
                "Error:" = true.
Proof.
  apply find_error_prefers_marked_lines.
  unfold marked. apply Exists_cons_tl, Exists_cons_hd. reflexivity.
Defined.

(** X5: a scan leaves a search timer alone, and the other way round. *)
Lemma timers_belong_to_their_path_witness :
  timers (snd (run_hmmscan W_ok "models/test.hmm" query None None fresh)) hmmsearch_time_1
  = timers fresh hmmsearch_time_1
  /\ timers (snd (run_hmmsearch W_ok "models/test.hmm" query true fresh)) hmmsearch_time_2
     = timers fresh hmmsearch_time_2
  /\ timers (snd (run_hmmsearch W_ok "models/test.hmm" query false fresh)) hmmscan_time
     = timers fresh hmmscan_time.
Proof.
  split; [|split].
  - apply (proj1 (timers_belong_to_their_path W_ok "models/test.hmm" "models/test.hmm"
                    query None None hmmsearch_time_1 fresh)); discriminate.
  - apply (proj1 (proj2 (timers_belong_to_their_path W_ok "models/test.hmm"
                           "models/test.hmm" query None None hmmsearch_time_2 fresh)));
      discriminate.
  - apply (proj1 (proj2 (proj2 (timers_belong_to_their_path W_ok "models/test.hmm"
                                  "models/test.hmm" query None None hmmscan_time fresh))));
      discriminate.
Defined.

(** X6: the version of HMMER 3.3.2. *)
Lemma version_is_one_word_witness :
  run_hmmscan_version W_ok fresh = (Return "3.3.2", snd (run_hmmscan_version W_ok fresh))
  /\ is_token "3.3.2".
Proof.
  assert (H : run_hmmscan_version W_ok fresh
              = (Return "3.3.2", snd (run_hmmscan_version W_ok fresh)))
    by (vm_compute; reflexivity).
  split; [exact H|].
  exact (proj1 (version_is_one_word W_ok fresh (snd (run_hmmscan_version W_ok fresh))
                  "3.3.2") H).
Defined.

(** X7: the cache was filled by a binary with [--cpu]; a binary without it
    is then not asked again. *)
Lemma warm_cache_saves_the_probe_witness :
  launched (trace (snd (run_hmmscan W_single "models/test.hmm" query None None warm)))
  = [["hmmscan"; "-h"];
     ["hmmscan"; "--cpu"; "4"; "--nobias"; "models/test.hmm"; "-"]].
Proof.
  apply (warm_cache_saves_the_probe W_single "models/test.hmm" query None None warm);
    [vm_compute; reflexivity | discriminate].
Defined.

(** X9: a binary that prints something else. *)
Lemma wrong_binary_stops_hmmscan_witness :
  run_hmmscan W_wrong_binary "models/test.hmm" query None None fresh
  = (Raise (RuntimeError "unexpected output from hmmscan: hmmscan, check path"),
     record (EvExecute ["hmmscan"; "-h"] None
               (inr (mkRunResult 0 "usage: something else" ""))) fresh).
Proof.
  apply (wrong_binary_stops_hmmscan W_wrong_binary "models/test.hmm" query None None
           fresh (mkRunResult 0 "usage: something else" ""));
    [discriminate | reflexivity | reflexivity | reflexivity].
Defined.

(** X10: the search cannot be launched. *)
Lemma hmmscan_launch_failure_propagates_witness :
  fst (run_hmmscan W_probe_only "models/test.hmm" query None None fresh)
  = Raise (OSError "Text file busy").
Proof.
  rewrite (hmmscan_launch_failure_propagates W_probe_only "models/test.hmm" query
             hmmscan_help None None fresh (snd (run_hmmscan_help W_probe_only fresh))
             (OSError "Text file busy"));
    [reflexivity | discriminate | vm_compute; reflexivity | vm_compute; reflexivity].
Defined.


(** X13: the input file cannot be written. *)
Lemma tempfile_is_written_before_the_launch_witness :
  run_hmmsearch W_read_only "models/test.hmm" query true fresh
  = (Return [],
     record EvLeaveTmp (record (EvWriteText "input.fa" query) (record EvEnterTmp fresh))).
Proof.
  apply (proj2 (tempfile_is_written_before_the_launch W_read_only "models/test.hmm" query
                  fresh (OSError "No space left on device"))).
  reflexivity.
Defined.

(** X15: three hits. *)
Lemma hits_are_written_header_first_witness :
  (fst (write_hits W_ok "out.domtab" [1; 2; 3] fresh) = Return tt
   /\ trace (snd (write_hits W_ok "out.domtab" [1; 2; 3] fresh))
      = [EvHitsWrite "out.domtab" 1 true; EvHitsWrite "out.domtab" 2 false;
         EvHitsWrite "out.domtab" 3 false])
  /\ write_hits W_second_write_fails "out.domtab" [1; 2; 3] fresh
     = (Raise (OSError "No space left on device"),
        extend fresh [EvHitsWrite "out.domtab" 1 true; EvHitsWrite "out.domtab" 2 false]).
Proof.
  split.
  - apply (proj2 (proj2 (proj2 (hits_are_written_header_first W_ok "out.domtab"
                                  [1; 2; 3] fresh))));
      [reflexivity | discriminate].
  - rewrite (proj1 (hits_are_written_header_first W_second_write_fails "out.domtab"
                      [1; 2; 3] fresh)); [reflexivity | discriminate].
Defined.
